(** * KmsRtpSynchronizer: RTP timestamps to presentation timestamps

    A shallow embedding of
    [kms-core/src/gst-plugins/commons/kmsrtpsynchronizer.c] together with the
    properties its specification states about it.

    Machine integers are modelled as [Z] with the wrap-around of the C types
    written out ([u64], [u32], [i32], [i64]).  The private structure of the
    object is a record, every C function is a pure function from the state
    (and the buffer) to the new state (and the new buffer PTS).  The
    recursive mutex is outside the model: it only serialises the calls.  Of
    the statistics only the row handed to the writer is kept, as part of the
    result of a call. *)

From Stdlib Require Import String.
From Stdlib Require Import ZArith List Bool Lia Sorted.
Import ListNotations.
Open Scope Z_scope.

(** ** Machine integers *)

Definition u64 (z : Z) : Z := z mod 2 ^ 64.
Definition u32 (z : Z) : Z := z mod 2 ^ 32.
(** Reinterpretation of the low bits as a two's complement number. *)
Definition i32 (z : Z) : Z := (z + 2 ^ 31) mod 2 ^ 32 - 2 ^ 31.
Definition i64 (z : Z) : Z := (z + 2 ^ 63) mod 2 ^ 64 - 2 ^ 63.

Definition G_MAXUINT64 : Z := 2 ^ 64 - 1.
Definition GST_CLOCK_TIME_NONE : Z := G_MAXUINT64.
Definition GST_SECOND : Z := 1000000000.

Definition GST_CLOCK_TIME_IS_VALID (t : Z) : bool :=
  negb (t =? GST_CLOCK_TIME_NONE).

(** [GST_CLOCK_DIFF (s, e)] is [(GstClockTimeDiff) ((e) - (s))]: the unsigned
    difference reinterpreted as a signed 64-bit number. *)
Definition GST_CLOCK_DIFF (s e : Z) : Z := i64 (u64 (e - s)).

(** ** Library functions used by the synchronizer *)

(** Modelled from the spec: [gst_util_uint64_scale] belongs to GStreamer and
    is not part of the sources.  The spec gives the conversions as
    [ntp * 10^9 / 2^32] and [|r - base_ext| * 1e9 / clock_rate]; the result is
    an unsigned 64-bit number, so a quotient that does not fit is
    [G_MAXUINT64], which is what the library documents. *)
Definition gst_util_uint64_scale (val num denom : Z) : Z :=
  let q := val * num / denom in
  if q >? G_MAXUINT64 then G_MAXUINT64 else q.

(** Modelled from the spec: the [gint] variant of the same GStreamer
    function, see [gst_util_uint64_scale]. *)
Definition gst_util_uint64_scale_int (val num denom : Z) : Z :=
  gst_util_uint64_scale val num denom.

(** Modelled from the spec: [gst_rtp_buffer_ext_timestamp] belongs to
    GStreamer and is not part of the sources.  Section 4.1 of the spec: if
    never called before (the stored counter is the unset sentinel), return the
    32-bit value zero-extended and store it; otherwise compute the signed
    32-bit difference between the new low 32 bits and the low 32 bits of the
    stored counter, add it to the stored counter modulo 2^64, store, return.
    The result is the pair of the new stored counter and the returned
    value. *)
Definition gst_rtp_buffer_ext_timestamp (exttimestamp timestamp : Z) : Z * Z :=
  if exttimestamp =? GST_CLOCK_TIME_NONE then (timestamp, timestamp)
  else
    let diff := i32 (timestamp - u32 exttimestamp) in
    let result := u64 (exttimestamp + diff) in
    (result, result).

(** The values returned by a run of calls that starts with the counter
    [stored]. *)
Fixpoint ext_timestamps (stored : Z) (l : list Z) : list Z :=
  match l with
  | [] => []
  | t :: l' =>
      let '(stored', r) := gst_rtp_buffer_ext_timestamp stored t in
      r :: ext_timestamps stored' l'
  end.

(** First differences of a sequence. *)
Fixpoint diffs (l : list Z) : list Z :=
  match l with
  | a :: (b :: _) as tl => (b - a) :: diffs tl
  | _ => []
  end.

(** [b] follows [a] on the 32-bit circle by less than 2^31 ticks. *)
Definition follows32 (a b : Z) : Prop := 0 < u32 (b - a) < 2 ^ 31.

Fixpoint ascending32 (l : list Z) : Prop :=
  match l with
  | a :: (b :: _) as tl => follows32 a b /\ ascending32 tl
  | _ => True
  end.

Fixpoint strictly_ascending (l : list Z) : Prop :=
  match l with
  | a :: (b :: _) as tl => a < b /\ strictly_ascending tl
  | _ => True
  end.

(** ** Data *)

Inductive KmsRtpSyncError : Type :=
| KMS_RTP_SYNC_UNEXPECTED_ERROR
| KMS_RTP_SYNC_INVALID_DATA.

(** The message that accompanies an error. *)
Inductive ErrorMessage : Type :=
| MsgClockRateNotAllowed      (* "clock-rate <= 0 no allowed." *)
| MsgOnlyOnePT                (* "Only one PT allowed." *)
| MsgInvalidSSRC              (* "Invalid SSRC (%u), not matching with %u" *)
| MsgUnknownPT                (* "Unknown PT: %u, expected: %u" *)
| MsgInvalidClockRate         (* "Invalid clock rate: %d" *)
| MsgUnsorted                 (* "Received an unsorted RTP buffer ..." *)
| MsgNotRTP                   (* "Buffer cannot be mapped as RTP" *)
| MsgNotRTCP.                 (* "Buffer cannot be mapped as RTCP" *)

Definition GError : Type := (KmsRtpSyncError * ErrorMessage)%type.

Record KmsRtpSynchronizerPrivate : Type := mkPriv {
  feeded_sorted : bool;
  ssrc : Z;
  pt : Z;
  clock_rate : Z;
  base_initiated : bool;
  base_initiated_logged : bool;
  base_ntp_time : Z;
  base_sync_time : Z;
  base_interpolate_initiated : bool;
  base_interpolate_ext_ts : Z;
  base_interpolate_pts : Z;
  rtp_ext_ts : Z;
  last_rtcp_ext_ts : Z;
  last_rtcp_ntp_time : Z;
  fs_last_rtp_ext_ts : Z;
  fs_last_pts : Z
}.

(** Field assignments. *)
Definition set_feeded_sorted (v : bool) (p : KmsRtpSynchronizerPrivate) :=
  mkPriv v (ssrc p) (pt p) (clock_rate p) (base_initiated p)
    (base_initiated_logged p) (base_ntp_time p) (base_sync_time p)
    (base_interpolate_initiated p) (base_interpolate_ext_ts p)
    (base_interpolate_pts p) (rtp_ext_ts p) (last_rtcp_ext_ts p)
    (last_rtcp_ntp_time p) (fs_last_rtp_ext_ts p) (fs_last_pts p).

Definition set_ssrc (v : Z) (p : KmsRtpSynchronizerPrivate) :=
  mkPriv (feeded_sorted p) v (pt p) (clock_rate p) (base_initiated p)
    (base_initiated_logged p) (base_ntp_time p) (base_sync_time p)
    (base_interpolate_initiated p) (base_interpolate_ext_ts p)
    (base_interpolate_pts p) (rtp_ext_ts p) (last_rtcp_ext_ts p)
    (last_rtcp_ntp_time p) (fs_last_rtp_ext_ts p) (fs_last_pts p).

Definition set_pt (v : Z) (p : KmsRtpSynchronizerPrivate) :=
  mkPriv (feeded_sorted p) (ssrc p) v (clock_rate p) (base_initiated p)
    (base_initiated_logged p) (base_ntp_time p) (base_sync_time p)
    (base_interpolate_initiated p) (base_interpolate_ext_ts p)
    (base_interpolate_pts p) (rtp_ext_ts p) (last_rtcp_ext_ts p)
    (last_rtcp_ntp_time p) (fs_last_rtp_ext_ts p) (fs_last_pts p).

Definition set_clock_rate (v : Z) (p : KmsRtpSynchronizerPrivate) :=
  mkPriv (feeded_sorted p) (ssrc p) (pt p) v (base_initiated p)
    (base_initiated_logged p) (base_ntp_time p) (base_sync_time p)
    (base_interpolate_initiated p) (base_interpolate_ext_ts p)
    (base_interpolate_pts p) (rtp_ext_ts p) (last_rtcp_ext_ts p)
    (last_rtcp_ntp_time p) (fs_last_rtp_ext_ts p) (fs_last_pts p).

Definition set_base_initiated (v : bool) (p : KmsRtpSynchronizerPrivate) :=
  mkPriv (feeded_sorted p) (ssrc p) (pt p) (clock_rate p) v
    (base_initiated_logged p) (base_ntp_time p) (base_sync_time p)
    (base_interpolate_initiated p) (base_interpolate_ext_ts p)
    (base_interpolate_pts p) (rtp_ext_ts p) (last_rtcp_ext_ts p)
    (last_rtcp_ntp_time p) (fs_last_rtp_ext_ts p) (fs_last_pts p).

Definition set_base_initiated_logged (v : bool)
    (p : KmsRtpSynchronizerPrivate) :=
  mkPriv (feeded_sorted p) (ssrc p) (pt p) (clock_rate p) (base_initiated p)
    v (base_ntp_time p) (base_sync_time p)
    (base_interpolate_initiated p) (base_interpolate_ext_ts p)
    (base_interpolate_pts p) (rtp_ext_ts p) (last_rtcp_ext_ts p)
    (last_rtcp_ntp_time p) (fs_last_rtp_ext_ts p) (fs_last_pts p).

Definition set_base_ntp_time (v : Z) (p : KmsRtpSynchronizerPrivate) :=
  mkPriv (feeded_sorted p) (ssrc p) (pt p) (clock_rate p) (base_initiated p)
    (base_initiated_logged p) v (base_sync_time p)
    (base_interpolate_initiated p) (base_interpolate_ext_ts p)
    (base_interpolate_pts p) (rtp_ext_ts p) (last_rtcp_ext_ts p)
    (last_rtcp_ntp_time p) (fs_last_rtp_ext_ts p) (fs_last_pts p).

Definition set_base_sync_time (v : Z) (p : KmsRtpSynchronizerPrivate) :=
  mkPriv (feeded_sorted p) (ssrc p) (pt p) (clock_rate p) (base_initiated p)
    (base_initiated_logged p) (base_ntp_time p) v
    (base_interpolate_initiated p) (base_interpolate_ext_ts p)
    (base_interpolate_pts p) (rtp_ext_ts p) (last_rtcp_ext_ts p)
    (last_rtcp_ntp_time p) (fs_last_rtp_ext_ts p) (fs_last_pts p).

Definition set_base_interpolate_initiated (v : bool)
    (p : KmsRtpSynchronizerPrivate) :=
  mkPriv (feeded_sorted p) (ssrc p) (pt p) (clock_rate p) (base_initiated p)
    (base_initiated_logged p) (base_ntp_time p) (base_sync_time p)
    v (base_interpolate_ext_ts p)
    (base_interpolate_pts p) (rtp_ext_ts p) (last_rtcp_ext_ts p)
    (last_rtcp_ntp_time p) (fs_last_rtp_ext_ts p) (fs_last_pts p).

Definition set_base_interpolate_ext_ts (v : Z)
    (p : KmsRtpSynchronizerPrivate) :=
  mkPriv (feeded_sorted p) (ssrc p) (pt p) (clock_rate p) (base_initiated p)
    (base_initiated_logged p) (base_ntp_time p) (base_sync_time p)
    (base_interpolate_initiated p) v
    (base_interpolate_pts p) (rtp_ext_ts p) (last_rtcp_ext_ts p)
    (last_rtcp_ntp_time p) (fs_last_rtp_ext_ts p) (fs_last_pts p).

Definition set_base_interpolate_pts (v : Z) (p : KmsRtpSynchronizerPrivate) :=
  mkPriv (feeded_sorted p) (ssrc p) (pt p) (clock_rate p) (base_initiated p)
    (base_initiated_logged p) (base_ntp_time p) (base_sync_time p)
    (base_interpolate_initiated p) (base_interpolate_ext_ts p)
    v (rtp_ext_ts p) (last_rtcp_ext_ts p)
    (last_rtcp_ntp_time p) (fs_last_rtp_ext_ts p) (fs_last_pts p).

Definition set_rtp_ext_ts (v : Z) (p : KmsRtpSynchronizerPrivate) :=
  mkPriv (feeded_sorted p) (ssrc p) (pt p) (clock_rate p) (base_initiated p)
    (base_initiated_logged p) (base_ntp_time p) (base_sync_time p)
    (base_interpolate_initiated p) (base_interpolate_ext_ts p)
    (base_interpolate_pts p) v (last_rtcp_ext_ts p)
    (last_rtcp_ntp_time p) (fs_last_rtp_ext_ts p) (fs_last_pts p).

Definition set_last_rtcp_ext_ts (v : Z) (p : KmsRtpSynchronizerPrivate) :=
  mkPriv (feeded_sorted p) (ssrc p) (pt p) (clock_rate p) (base_initiated p)
    (base_initiated_logged p) (base_ntp_time p) (base_sync_time p)
    (base_interpolate_initiated p) (base_interpolate_ext_ts p)
    (base_interpolate_pts p) (rtp_ext_ts p) v
    (last_rtcp_ntp_time p) (fs_last_rtp_ext_ts p) (fs_last_pts p).

Definition set_last_rtcp_ntp_time (v : Z) (p : KmsRtpSynchronizerPrivate) :=
  mkPriv (feeded_sorted p) (ssrc p) (pt p) (clock_rate p) (base_initiated p)
    (base_initiated_logged p) (base_ntp_time p) (base_sync_time p)
    (base_interpolate_initiated p) (base_interpolate_ext_ts p)
    (base_interpolate_pts p) (rtp_ext_ts p) (last_rtcp_ext_ts p)
    v (fs_last_rtp_ext_ts p) (fs_last_pts p).

Definition set_fs_last_rtp_ext_ts (v : Z) (p : KmsRtpSynchronizerPrivate) :=
  mkPriv (feeded_sorted p) (ssrc p) (pt p) (clock_rate p) (base_initiated p)
    (base_initiated_logged p) (base_ntp_time p) (base_sync_time p)
    (base_interpolate_initiated p) (base_interpolate_ext_ts p)
    (base_interpolate_pts p) (rtp_ext_ts p) (last_rtcp_ext_ts p)
    (last_rtcp_ntp_time p) v (fs_last_pts p).

Definition set_fs_last_pts (v : Z) (p : KmsRtpSynchronizerPrivate) :=
  mkPriv (feeded_sorted p) (ssrc p) (pt p) (clock_rate p) (base_initiated p)
    (base_initiated_logged p) (base_ntp_time p) (base_sync_time p)
    (base_interpolate_initiated p) (base_interpolate_ext_ts p)
    (base_interpolate_pts p) (rtp_ext_ts p) (last_rtcp_ext_ts p)
    (last_rtcp_ntp_time p) (fs_last_rtp_ext_ts p) v.

(** An RTP buffer as the synchronizer sees it: the PTS and DTS of the
    [GstBuffer] and the header fields read through [gst_rtp_buffer_get_*]. *)
Record GstRTPBuffer : Type := mkRTP {
  GST_BUFFER_PTS : Z;
  GST_BUFFER_DTS : Z;
  rtp_get_ssrc : Z;
  rtp_get_payload_type : Z;
  rtp_get_seq : Z;
  rtp_get_timestamp : Z
}.

Inductive GstRTCPType : Type :=
| GST_RTCP_TYPE_INVALID
| GST_RTCP_TYPE_SR
| GST_RTCP_TYPE_RR
| GST_RTCP_TYPE_SDES
| GST_RTCP_TYPE_BYE
| GST_RTCP_TYPE_APP
| GST_RTCP_TYPE_RTPFB
| GST_RTCP_TYPE_PSFB
| GST_RTCP_TYPE_XR.

(** An RTCP packet with the sender info read by
    [gst_rtcp_packet_sr_get_sender_info]. *)
Record GstRTCPPacket : Type := mkRTCP {
  rtcp_get_type : GstRTCPType;
  sr_ssrc : Z;
  sr_ntptime : Z;
  sr_rtptime : Z
}.

(** An RTCP buffer: whether it maps as RTCP, the packets it holds and the
    DTS of the [GstBuffer]. *)
Record GstRTCPBuffer : Type := mkRTCPBuffer {
  rtcp_maps : bool;
  rtcp_packets : list GstRTCPPacket;
  rtcp_buffer_dts : Z
}.

(** The row handed to [kms_rtp_synchronizer_write_stats] (without the wall
    clock time and the thread, which the function reads by itself). *)
Record StatsRow : Type := mkStats {
  stats_ssrc : Z;
  stats_clock_rate : Z;
  stats_pts_orig : Z;
  stats_pts : Z;
  stats_dts : Z;
  stats_rtp_ext_ts : Z;
  stats_last_rtcp_ntp_time : Z;
  stats_last_rtcp_ext_ts : Z
}.

(** What a call on an RTP buffer leaves behind: the object, the PTS of the
    buffer, the returned [gboolean], the [GError] that was set and the row
    written to the statistics. *)
Record RtpResult : Type := mkRes {
  res_self : KmsRtpSynchronizerPrivate;
  res_pts : Z;
  res_ret : bool;
  res_error : option GError;
  res_stats : option StatsRow
}.

(** ** Construction and configuration *)

(** [kms_rtp_synchronizer_init] on zeroed private data, then the assignment
    of [feeded_sorted] in [kms_rtp_synchronizer_new]. *)
Definition kms_rtp_synchronizer_new (sorted : bool)
  : KmsRtpSynchronizerPrivate :=
  mkPriv sorted 0 0 0 false false
    GST_CLOCK_TIME_NONE GST_CLOCK_TIME_NONE
    false GST_CLOCK_TIME_NONE GST_CLOCK_TIME_NONE
    GST_CLOCK_TIME_NONE GST_CLOCK_TIME_NONE GST_CLOCK_TIME_NONE
    GST_CLOCK_TIME_NONE GST_CLOCK_TIME_NONE.

Definition kms_rtp_synchronizer_set_pt_clock_rate
    (self : KmsRtpSynchronizerPrivate) (pt_ clock_rate_ : Z)
  : KmsRtpSynchronizerPrivate * bool * option GError :=
  if clock_rate_ <=? 0 then
    (self, false, Some (KMS_RTP_SYNC_INVALID_DATA, MsgClockRateNotAllowed))
  else if negb (clock_rate self =? 0) then
    (self, false, Some (KMS_RTP_SYNC_INVALID_DATA, MsgOnlyOnePT))
  else
    (set_clock_rate clock_rate_ (set_pt pt_ self), true, None).

(** ** PTS arithmetic *)

Definition kms_rtp_synchronizer_rtp_diff_full
    (self : KmsRtpSynchronizerPrivate) (buffer_pts : Z)
    (clock_rate_ base_ext_ts : Z) (wrapped_down wrapped_up : bool) : Z :=
  if rtp_ext_ts self >? base_ext_ts then
    let diff_rtp_ext_ts := rtp_ext_ts self - base_ext_ts in
    let diff_rtp_time :=
      gst_util_uint64_scale_int diff_rtp_ext_ts GST_SECOND clock_rate_ in
    if wrapped_up then G_MAXUINT64
    else if wrapped_down && (diff_rtp_time <? G_MAXUINT64 - buffer_pts) then 0
    else if negb wrapped_down && (diff_rtp_time >? G_MAXUINT64 - buffer_pts)
    then G_MAXUINT64
    else u64 (buffer_pts + diff_rtp_time)
  else if rtp_ext_ts self <? base_ext_ts then
    let diff_rtp_ext_ts := base_ext_ts - rtp_ext_ts self in
    let diff_rtp_time :=
      gst_util_uint64_scale_int diff_rtp_ext_ts GST_SECOND clock_rate_ in
    if wrapped_down then 0
    else if wrapped_up && (diff_rtp_time <? buffer_pts) then G_MAXUINT64
    else if negb wrapped_up && (diff_rtp_time >? buffer_pts) then 0
    else u64 (buffer_pts - diff_rtp_time)
  else (* if equals *)
    if wrapped_down then 0
    else if wrapped_up then G_MAXUINT64
    else buffer_pts.

Definition kms_rtp_synchronizer_rtp_diff
    (self : KmsRtpSynchronizerPrivate) (buffer_pts : Z)
    (clock_rate_ base_ext_ts : Z) : Z :=
  kms_rtp_synchronizer_rtp_diff_full self buffer_pts clock_rate_ base_ext_ts
    false false.

(** The NTP offset of the synchronized regime (the block between the
    assignment of [base_sync_time] to the PTS and the call of
    [kms_rtp_synchronizer_rtp_diff_full]): the PTS and the two flags
    [wrapped_down] and [wrapped_up].  [ntp_time_diff] is a signed
    [GstClockTimeDiff]; compared with or added to a [guint64] it is
    converted to [guint64]. *)
Definition ntp_offset (self : KmsRtpSynchronizerPrivate) (buffer_pts : Z)
  : Z * bool * bool :=
  if last_rtcp_ntp_time self >? base_ntp_time self then
    let ntp_time_diff :=
      GST_CLOCK_DIFF (base_ntp_time self) (last_rtcp_ntp_time self) in
    let wrapped_up := u64 ntp_time_diff >? G_MAXUINT64 - buffer_pts in
    (u64 (buffer_pts + u64 ntp_time_diff), false, wrapped_up)
  else if last_rtcp_ntp_time self <? base_ntp_time self then
    let ntp_time_diff :=
      GST_CLOCK_DIFF (last_rtcp_ntp_time self) (base_ntp_time self) in
    let wrapped_down := buffer_pts <? u64 ntp_time_diff in
    (u64 (buffer_pts - u64 ntp_time_diff), wrapped_down, false)
  else (* if equals do nothing *)
    (buffer_pts, false, false).

(** The PTS computation of [kms_rtp_synchronizer_process_rtp_buffer_mapped]:
    the [if (!self->priv->base_initiated) ... else ...] statement.
    [rtp_ext_ts_] is the local variable of that name, [buffer_pts] the PTS of
    the buffer on entry. *)
Definition compute_pts (self : KmsRtpSynchronizerPrivate)
    (buffer_pts rtp_ext_ts_ : Z) : KmsRtpSynchronizerPrivate * Z :=
  if negb (base_initiated self) then
    let self :=
      if negb (base_initiated_logged self)
      then set_base_initiated_logged true self else self in
    if negb (base_interpolate_initiated self) then
      (set_base_interpolate_initiated true
         (set_base_interpolate_pts buffer_pts
            (set_base_interpolate_ext_ts rtp_ext_ts_ self)),
       buffer_pts)
    else
      (self,
       kms_rtp_synchronizer_rtp_diff self (base_interpolate_pts self)
         (clock_rate self) (base_interpolate_ext_ts self))
  else
    let '(pts, wrapped_down, wrapped_up) :=
      ntp_offset self (base_sync_time self) in
    (self,
     kms_rtp_synchronizer_rtp_diff_full self pts (clock_rate self)
       (last_rtcp_ext_ts self) wrapped_down wrapped_up).

(** The second [if (self->priv->feeded_sorted)] statement: the PTS may not
    go below the last one, and the packet is recorded. *)
Definition sorted_fix (self : KmsRtpSynchronizerPrivate)
    (buffer_pts rtp_ext_ts_ : Z) : KmsRtpSynchronizerPrivate * Z :=
  if feeded_sorted self then
    let pts_current := buffer_pts in
    let pts_fixed :=
      if GST_CLOCK_TIME_IS_VALID (fs_last_pts self)
         && (pts_current <? fs_last_pts self)
      then fs_last_pts self else pts_current in
    (set_fs_last_pts pts_fixed (set_fs_last_rtp_ext_ts rtp_ext_ts_ self),
     pts_fixed)
  else (self, buffer_pts).

(** The outcome of the first [if (self->priv->feeded_sorted)] statement. *)
Inductive SortedCheck : Type :=
| Proceed      (* neither branch taken *)
| Regressed    (* feeded_sorted = FALSE; ret = FALSE *)
| Duplicate.   (* goto end *)

Definition sorted_check (self : KmsRtpSynchronizerPrivate) (rtp_ext_ts_ : Z)
  : SortedCheck :=
  if feeded_sorted self then
    if GST_CLOCK_TIME_IS_VALID (fs_last_rtp_ext_ts self)
       && (rtp_ext_ts_ <? fs_last_rtp_ext_ts self)
    then Regressed
    else if rtp_ext_ts_ =? fs_last_rtp_ext_ts self then Duplicate
    else Proceed
  else Proceed.

(** The block after the label [end]. *)
Definition end_stats (self : KmsRtpSynchronizerPrivate)
    (rtp_buffer : GstRTPBuffer) (pts_orig buffer_pts rtp_ext_ts_ : Z)
  : StatsRow :=
  mkStats (rtp_get_ssrc rtp_buffer) (clock_rate self) pts_orig buffer_pts
    (GST_BUFFER_DTS rtp_buffer) rtp_ext_ts_ (last_rtcp_ntp_time self)
    (last_rtcp_ext_ts self).

Definition invalid_data (self : KmsRtpSynchronizerPrivate) (buffer_pts : Z)
    (msg : ErrorMessage) : RtpResult :=
  mkRes self buffer_pts false (Some (KMS_RTP_SYNC_INVALID_DATA, msg)) None.

Section Synchronizer.

(** The functions of the object are stated over any implementation of
    [gst_rtp_buffer_ext_timestamp]: it maps the stored counter and a 32-bit
    timestamp to the new stored counter and the returned extended
    timestamp. *)
Variable ext_timestamp : Z -> Z -> Z * Z.

Definition kms_rtp_synchronizer_process_rtcp_packet
    (self : KmsRtpSynchronizerPrivate) (packet : GstRTCPPacket)
    (current_time : Z) : KmsRtpSynchronizerPrivate :=
  match rtcp_get_type packet with
  | GST_RTCP_TYPE_SR =>
      let ntp_ts := sr_ntptime packet in
      let rtcp_ts := sr_rtptime packet in
      let ntp_time := gst_util_uint64_scale ntp_ts GST_SECOND (2 ^ 32) in
      let self :=
        if negb (base_initiated self) then
          set_base_sync_time current_time
            (set_base_ntp_time ntp_time (set_base_initiated true self))
        else self in
      let '(stored, ext) := ext_timestamp (rtp_ext_ts self) rtcp_ts in
      let self := set_last_rtcp_ext_ts ext (set_rtp_ext_ts stored self) in
      set_last_rtcp_ntp_time ntp_time self
  | _ => self
  end.

Definition kms_rtp_synchronizer_process_rtcp_buffer
    (self : KmsRtpSynchronizerPrivate) (buffer : GstRTCPBuffer)
  : KmsRtpSynchronizerPrivate * bool * option GError :=
  if negb (rtcp_maps buffer) then
    (self, false, Some (KMS_RTP_SYNC_UNEXPECTED_ERROR, MsgNotRTCP))
  else
    match rtcp_packets buffer with
    | [] => (self, true, None)
    | packet :: _ =>
        (kms_rtp_synchronizer_process_rtcp_packet self packet
           (rtcp_buffer_dts buffer), true, None)
    end.

Definition kms_rtp_synchronizer_process_rtp_buffer_mapped
    (self : KmsRtpSynchronizerPrivate) (rtp_buffer : GstRTPBuffer)
  : RtpResult :=
  let buffer_pts := GST_BUFFER_PTS rtp_buffer in
  let ssrc_ := rtp_get_ssrc rtp_buffer in
  match (if ssrc self =? 0 then Some (set_ssrc ssrc_ self)
         else if negb (ssrc_ =? ssrc self) then None
         else Some self) with
  | None => invalid_data self buffer_pts MsgInvalidSSRC
  | Some self =>
      let pt_ := rtp_get_payload_type rtp_buffer in
      if negb (pt_ =? pt self) || (clock_rate self <=? 0) then
        invalid_data self buffer_pts
          (if negb (pt_ =? pt self) then MsgUnknownPT
           else MsgInvalidClockRate)
      else
        let pts_orig := buffer_pts in
        let rtp_ts := rtp_get_timestamp rtp_buffer in
        let '(stored, rtp_ext_ts_) := ext_timestamp (rtp_ext_ts self) rtp_ts in
        let self := set_rtp_ext_ts stored self in
        match sorted_check self rtp_ext_ts_ with
        | Duplicate =>
            let buffer_pts :=
              if GST_CLOCK_TIME_IS_VALID (fs_last_pts self)
              then fs_last_pts self else buffer_pts in
            mkRes self buffer_pts true None
              (Some (end_stats self rtp_buffer pts_orig buffer_pts
                       rtp_ext_ts_))
        | check =>
            let '(self, ret, error) :=
              match check with
              | Regressed =>
                  (set_feeded_sorted false self, false,
                   Some (KMS_RTP_SYNC_INVALID_DATA, MsgUnsorted))
              | _ => (self, true, None)
              end in
            let '(self, buffer_pts) :=
              compute_pts self buffer_pts rtp_ext_ts_ in
            let '(self, buffer_pts) :=
              sorted_fix self buffer_pts rtp_ext_ts_ in
            mkRes self buffer_pts ret error
              (Some (end_stats self rtp_buffer pts_orig buffer_pts
                       rtp_ext_ts_))
        end
  end.

(** [kms_rtp_synchronizer_process_rtp_buffer_writable]: [mapped] is the
    result of [gst_rtp_buffer_map], [buffer_pts] the PTS of the buffer that
    failed to map. *)
Definition kms_rtp_synchronizer_process_rtp_buffer_writable
    (self : KmsRtpSynchronizerPrivate) (buffer_pts : Z)
    (mapped : option GstRTPBuffer) : RtpResult :=
  match mapped with
  | None =>
      mkRes self buffer_pts false
        (Some (KMS_RTP_SYNC_UNEXPECTED_ERROR, MsgNotRTP)) None
  | Some rtp_buffer =>
      kms_rtp_synchronizer_process_rtp_buffer_mapped self rtp_buffer
  end.

(** ** Runs of calls *)

Inductive Call : Type :=
| SetPtClockRate (pt_ clock_rate_ : Z)
| ProcessRtcp (buffer : GstRTCPBuffer)
| ProcessRtp (rtp_buffer : GstRTPBuffer).

Definition call (self : KmsRtpSynchronizerPrivate) (c : Call)
  : KmsRtpSynchronizerPrivate :=
  match c with
  | SetPtClockRate pt_ clock_rate_ =>
      fst (fst (kms_rtp_synchronizer_set_pt_clock_rate self pt_ clock_rate_))
  | ProcessRtcp buffer =>
      fst (fst (kms_rtp_synchronizer_process_rtcp_buffer self buffer))
  | ProcessRtp rtp_buffer =>
      res_self (kms_rtp_synchronizer_process_rtp_buffer_mapped self rtp_buffer)
  end.

Definition calls (self : KmsRtpSynchronizerPrivate) (l : list Call)
  : KmsRtpSynchronizerPrivate :=
  fold_left call l self.

(** The PTS written by the RTP calls of a run, in order, whatever they
    return. *)
Fixpoint emitted (self : KmsRtpSynchronizerPrivate) (l : list Call)
  : list Z :=
  match l with
  | [] => []
  | c :: l' =>
      match c with
      | ProcessRtp rtp_buffer =>
          [res_pts
             (kms_rtp_synchronizer_process_rtp_buffer_mapped self rtp_buffer)]
      | _ => []
      end ++ emitted (call self c) l'
  end.

(** The rows of the successful RTP calls made while [feeded_sorted] is
    true, in order. *)
Fixpoint sorted_rows (self : KmsRtpSynchronizerPrivate) (l : list Call)
  : list StatsRow :=
  match l with
  | [] => []
  | c :: l' =>
      match c with
      | ProcessRtp rtp_buffer =>
          let r :=
            kms_rtp_synchronizer_process_rtp_buffer_mapped self rtp_buffer in
          match res_stats r with
          | Some row => if feeded_sorted self && res_ret r then [row] else []
          | None => []
          end
      | _ => []
      end ++ sorted_rows (call self c) l'
  end.

(** The results of the RTP calls of a run, in order. *)
Fixpoint rtp_results (self : KmsRtpSynchronizerPrivate) (l : list Call)
  : list RtpResult :=
  match l with
  | [] => []
  | c :: l' =>
      match c with
      | ProcessRtp rtp_buffer =>
          [kms_rtp_synchronizer_process_rtp_buffer_mapped self rtp_buffer]
      | _ => []
      end ++ rtp_results (call self c) l'
  end.

(** The call on an RTP buffer, once the SSRC, the payload type and the
    clock rate have been accepted: the code from the call of
    [gst_rtp_buffer_ext_timestamp] on. *)
Definition accepted (self : KmsRtpSynchronizerPrivate)
    (rtp_buffer : GstRTPBuffer) : RtpResult :=
  let pts_orig := GST_BUFFER_PTS rtp_buffer in
  let e := ext_timestamp (rtp_ext_ts self) (rtp_get_timestamp rtp_buffer) in
  let self1 := set_rtp_ext_ts (fst e) self in
  match sorted_check self1 (snd e) with
  | Duplicate =>
      let q :=
        if GST_CLOCK_TIME_IS_VALID (fs_last_pts self1)
        then fs_last_pts self1 else pts_orig in
      mkRes self1 q true None
        (Some (end_stats self1 rtp_buffer pts_orig q (snd e)))
  | check =>
      let self2 :=
        match check with
        | Regressed => set_feeded_sorted false self1
        | _ => self1
        end in
      let c := compute_pts self2 pts_orig (snd e) in
      let f := sorted_fix (fst c) (snd c) (snd e) in
      mkRes (fst f) (snd f)
        match check with Regressed => false | _ => true end
        match check with
        | Regressed => Some (KMS_RTP_SYNC_INVALID_DATA, MsgUnsorted)
        | _ => None
        end
        (Some (end_stats (fst f) rtp_buffer pts_orig (snd f) (snd e)))
  end.


End Synchronizer.

(** The fields that only [kms_rtp_synchronizer_set_pt_clock_rate] and the
    sender reports write. *)
Definition same_configuration (a b : KmsRtpSynchronizerPrivate) : Prop :=
  pt a = pt b /\ clock_rate a = clock_rate b.

Definition same_base (a b : KmsRtpSynchronizerPrivate) : Prop :=
  base_initiated a = base_initiated b
  /\ base_ntp_time a = base_ntp_time b
  /\ base_sync_time a = base_sync_time b.

Definition same_last_rtcp (a b : KmsRtpSynchronizerPrivate) : Prop :=
  last_rtcp_ext_ts a = last_rtcp_ext_ts b
  /\ last_rtcp_ntp_time a = last_rtcp_ntp_time b.

(** The fields that a rejected RTP buffer must leave as they are: the
    extended timestamp, both anchors, the last sender report and the state
    of the sorted mode. *)
Definition same_tracking (a b : KmsRtpSynchronizerPrivate) : Prop :=
  rtp_ext_ts a = rtp_ext_ts b
  /\ same_base a b
  /\ base_interpolate_initiated a = base_interpolate_initiated b
  /\ base_interpolate_ext_ts a = base_interpolate_ext_ts b
  /\ base_interpolate_pts a = base_interpolate_pts b
  /\ same_last_rtcp a b
  /\ fs_last_rtp_ext_ts a = fs_last_rtp_ext_ts b
  /\ fs_last_pts a = fs_last_pts b
  /\ feeded_sorted a = feeded_sorted b.

(** The three reasons for which an RTP buffer is rejected before anything
    is computed. *)
Definition rejected (self : KmsRtpSynchronizerPrivate) (b : GstRTPBuffer)
  : Prop :=
  (ssrc self <> 0 /\ rtp_get_ssrc b <> ssrc self)
  \/ rtp_get_payload_type b <> pt self
  \/ clock_rate self <= 0.

(** The SSRC, the payload type and the clock rate let the buffer through. *)
Definition passes_checks (self : KmsRtpSynchronizerPrivate) (b : GstRTPBuffer)
  : Prop :=
  (ssrc self = 0 \/ rtp_get_ssrc b = ssrc self)
  /\ rtp_get_payload_type b = pt self
  /\ 0 < clock_rate self.

(** The object after the SSRC has been looked at. *)
Definition learn_ssrc (self : KmsRtpSynchronizerPrivate) (b : GstRTPBuffer)
  : KmsRtpSynchronizerPrivate :=
  if ssrc self =? 0 then set_ssrc (rtp_get_ssrc b) self else self.

(** ** Saturation *)

(** An exact integer brought into the range of a [guint64]. *)
Definition saturate (z : Z) : Z := Z.max 0 (Z.min G_MAXUINT64 z).

Inductive Adjustment : Type := Add | Subtract.

(** The contract of the specification for one adjustment of magnitude [d]
    of the PTS [p], row by row as its table has it: add with
    [d > 2^64-1 - p] and [wrapped_up] gives 2^64-1; add with [wrapped_down]
    and [d < 2^64-1 - p] gives 0; subtract with [d > p] and not
    [wrapped_up] gives 0; subtract with [wrapped_up] and [d < p] gives
    2^64-1; otherwise [p + d] or [p - d]. *)
Definition table_of_the_specification (op : Adjustment)
    (wrapped_down wrapped_up : bool) (p d : Z) : Z :=
  match op with
  | Add =>
      if (d >? G_MAXUINT64 - p) && wrapped_up then G_MAXUINT64
      else if wrapped_down && (d <? G_MAXUINT64 - p) then 0
      else p + d
  | Subtract =>
      if (d >? p) && negb wrapped_up then 0
      else if wrapped_up && (d <? p) then G_MAXUINT64
      else p - d
  end.

(** The time between the extended timestamp of the object and
    [base_ext_ts], in nanoseconds. *)
Definition diff_rtp_time (self : KmsRtpSynchronizerPrivate)
    (clock_rate_ base_ext_ts : Z) : Z :=
  gst_util_uint64_scale_int (Z.abs (rtp_ext_ts self - base_ext_ts))
    GST_SECOND clock_rate_.

(** The PTS of the synchronized regime as an exact integer:
    [base_sync_time], plus the NTP time between the base and the last
    sender report, plus the signed time between the last sender report and
    the packet. *)
Definition exact_synchronized_pts (self : KmsRtpSynchronizerPrivate) : Z :=
  base_sync_time self
  + (last_rtcp_ntp_time self - base_ntp_time self)
  + Z.sgn (rtp_ext_ts self - last_rtcp_ext_ts self)
    * diff_rtp_time self (clock_rate self) (last_rtcp_ext_ts self).

(** The PTS of the interpolation regime as an exact integer:
    [base_interpolate_pts] plus the signed time between the anchor and the
    packet, [|r - base_ext| * 10^9 / clock_rate] with the sign of
    [r - base_ext]. *)
Definition exact_interpolated_pts (self : KmsRtpSynchronizerPrivate) : Z :=
  base_interpolate_pts self
  + Z.sgn (rtp_ext_ts self - base_interpolate_ext_ts self)
    * (Z.abs (rtp_ext_ts self - base_interpolate_ext_ts self) * 1000000000
       / clock_rate self).

(** A row whose PTS and extended timestamp are not the value that stands
    for an unset time. *)
Definition valid_row (row : StatsRow) : Prop :=
  stats_pts row <> GST_CLOCK_TIME_NONE
  /\ stats_rtp_ext_ts row <> GST_CLOCK_TIME_NONE.

(** In sorted mode, an unset [fs_last_pts] comes with an unset
    [fs_last_rtp_ext_ts]. *)
Definition nothing_recorded_together (self : KmsRtpSynchronizerPrivate)
  : Prop :=
  feeded_sorted self = true ->
  fs_last_pts self = GST_CLOCK_TIME_NONE ->
  fs_last_rtp_ext_ts self = GST_CLOCK_TIME_NONE.

(** A call that leaves the state of the sorted mode as it is. *)
Definition quiet (self self' : KmsRtpSynchronizerPrivate) : Prop :=
  feeded_sorted self' = feeded_sorted self
  /\ fs_last_pts self' = fs_last_pts self
  /\ fs_last_rtp_ext_ts self' = fs_last_rtp_ext_ts self.

(** ** Scenarios *)

(** An RTP buffer with payload type 96 and SSRC [ssrc_]. *)
Definition rtp_packet (ssrc_ timestamp pts : Z) : GstRTPBuffer :=
  mkRTP pts 0 ssrc_ 96 0 timestamp.

(** An RTCP buffer that holds one sender report. *)
Definition sender_report (ntptime rtptime dts : Z) : GstRTCPBuffer :=
  mkRTCPBuffer true [mkRTCP GST_RTCP_TYPE_SR 1 ntptime rtptime] dts.

(** A new object configured for payload type 96 at 90 kHz. *)
Definition configured (sorted : bool) : KmsRtpSynchronizerPrivate :=
  fst (fst (kms_rtp_synchronizer_set_pt_clock_rate
              (kms_rtp_synchronizer_new sorted) 96 90000)).

(** Scenario S1 of the specification: interpolation only, uniform feed. *)
Definition scenario_S1 : list Call :=
  [ProcessRtp (rtp_packet 1 1000 100000000);
   ProcessRtp (rtp_packet 1 4600 100000001);
   ProcessRtp (rtp_packet 1 8200 100000002)].

(** The object after scenario S1, in sorted mode. *)
Definition after_S1 : KmsRtpSynchronizerPrivate :=
  calls gst_rtp_buffer_ext_timestamp (configured true) scenario_S1.

(** The object after the first packet of scenario S1. *)
Definition after_first_packet : KmsRtpSynchronizerPrivate :=
  calls gst_rtp_buffer_ext_timestamp (configured true)
    [ProcessRtp (rtp_packet 1 1000 100000000)].

(** Scenario S6 of the specification: the base sender report arrives at
    the time 10 ns with the NTP time 1 s, the next one has the NTP time 0. *)
Definition scenario_S6 : list Call :=
  [ProcessRtcp (sender_report (2 ^ 32) 0 10);
   ProcessRtcp (sender_report 0 0 10)].

Definition after_S6 : KmsRtpSynchronizerPrivate :=
  calls gst_rtp_buffer_ext_timestamp (configured false) scenario_S6.

(** The base sender report arrives at the time 2^64-2, the next one is one
    second later on the NTP clock. *)
Definition late_base : list Call :=
  [ProcessRtcp (sender_report 0 0 (2 ^ 64 - 2));
   ProcessRtcp (sender_report (2 ^ 32) 0 0)].

Definition after_late_base : KmsRtpSynchronizerPrivate :=
  calls gst_rtp_buffer_ext_timestamp (configured false) late_base.

(** An object in the synchronized regime whose exact PTS is -1: the base
    time 0, the last sender report 2 ns before the base on the NTP clock,
    the packet one tick (1 ns at 1 GHz) after the last sender report. *)
Definition one_below_zero : KmsRtpSynchronizerPrivate :=
  set_rtp_ext_ts 1
    (set_last_rtcp_ext_ts 0
       (set_last_rtcp_ntp_time 0
          (set_base_ntp_time 2
             (set_base_sync_time 0
                (set_base_initiated true
                   (set_clock_rate 1000000000
                      (kms_rtp_synchronizer_new false))))))).

(** An object in the synchronized regime whose exact PTS is 2^64: the base
    time 2^64-1, the last sender report 2 ns after the base on the NTP
    clock, the packet one tick (1 ns at 1 GHz) before the last sender
    report. *)
Definition one_above_the_range : KmsRtpSynchronizerPrivate :=
  set_rtp_ext_ts 0
    (set_last_rtcp_ext_ts 1
       (set_last_rtcp_ntp_time 2
          (set_base_ntp_time 0
             (set_base_sync_time G_MAXUINT64
                (set_base_initiated true
                   (set_clock_rate 1000000000
                      (kms_rtp_synchronizer_new false))))))).

(** ** Further notions for runs of calls *)

(** The buffer with another PTS. *)
Definition with_pts (pts : Z) (b : GstRTPBuffer) : GstRTPBuffer :=
  mkRTP pts (GST_BUFFER_DTS b) (rtp_get_ssrc b) (rtp_get_payload_type b)
    (rtp_get_seq b) (rtp_get_timestamp b).

(** A call that hands a sender report to the object: an RTCP buffer that
    maps and whose first packet is a sender report. *)
Definition hands_sender_report (c : Call) : bool :=
  match c with
  | ProcessRtcp buffer =>
      rtcp_maps buffer
      && match rtcp_packets buffer with
         | packet :: _ =>
             match rtcp_get_type packet with
             | GST_RTCP_TYPE_SR => true
             | _ => false
             end
         | [] => false
         end
  | _ => false
  end.

(** A call of [kms_rtp_synchronizer_set_pt_clock_rate] with a positive
    clock rate. *)
Definition configures (c : Call) : bool :=
  match c with
  | SetPtClockRate _ clock_rate_ => 0 <? clock_rate_
  | _ => false
  end.

(** The PTS the RTP buffers of a run arrive with. *)
Fixpoint arrival_pts (l : list Call) : list Z :=
  match l with
  | [] => []
  | ProcessRtp rtp_buffer :: l' => GST_BUFFER_PTS rtp_buffer :: arrival_pts l'
  | _ :: l' => arrival_pts l'
  end.

(** The interpolation anchor of two objects is the same. *)
Definition same_anchor (a b : KmsRtpSynchronizerPrivate) : Prop :=
  base_interpolate_initiated a = base_interpolate_initiated b
  /\ base_interpolate_ext_ts a = base_interpolate_ext_ts b
  /\ base_interpolate_pts a = base_interpolate_pts b.

(** * KmsSrtpConnection: the keys of an SRTP connection

    The part of
    [kms-elements/src/gst-plugins/rtpendpoint/kmssrtpconnection.c] that
    keeps state of its own: the properties, the key of the remote side and
    the key handed to the decoder.  A string pointer is an
    [option string], [None] for NULL.  The sockets and the elements of the
    pipeline are outside the model, apart from the properties the code sets
    on the encoder. *)

Definition PROP_0 : Z := 0.
Definition PROP_ADDED : Z := 1.
Definition PROP_CONNECTED : Z := 2.
Definition PROP_IS_CLIENT : Z := 3.
Definition PROP_MIN_PORT : Z := 4.
Definition PROP_MAX_PORT : Z := 5.

Definition auths : list (option string) :=
  [None; Some "hmac-sha1-32"%string; Some "hmac-sha1-80"%string].

Definition ciphers : list (option string) :=
  [None; Some "aes-128-icm"%string; Some "aes-256-icm"%string].

(** [G_N_ELEMENTS (arr)] and [arr[i]] for an index below it. *)
Definition G_N_ELEMENTS {A : Type} (arr : list A) : Z :=
  Z.of_nat (length arr).

Definition get_str_auth (auth : Z) : option string :=
  if auth <? G_N_ELEMENTS auths then nth (Z.to_nat auth) auths None
  else None.

Definition get_str_cipher (cipher : Z) : option string :=
  if cipher <? G_N_ELEMENTS ciphers then nth (Z.to_nat cipher) ciphers None
  else None.

(** [g_strcmp0] of GLib: [strcmp] that takes NULL, which sorts before every
    string and equals itself. *)
Definition g_strcmp0 (str1 str2 : option string) : Z :=
  match str1, str2 with
  | None, None => 0
  | None, Some _ => -1
  | Some _, None => 1
  | Some a, Some b =>
      match String.compare a b with
      | Eq => 0
      | Lt => -1
      | Gt => 1
      end
  end.

(** The caps made by [gst_caps_new_simple ("application/x-srtp", ...)]. *)
Record GstCaps : Type := mkCaps {
  caps_media_type : string;
  caps_srtp_key : string;
  caps_srtp_cipher : string;
  caps_srtp_auth : string;
  caps_srtcp_cipher : string;
  caps_srtcp_auth : string
}.

(** The properties that [kms_srtp_connection_set_key] sets on the
    encoder. *)
Record SrtpEncSettings : Type := mkEnc {
  enc_key : option string;
  enc_rtp_cipher : Z;
  enc_rtcp_cipher : Z;
  enc_rtp_auth : Z;
  enc_rtcp_auth : Z
}.

(** The object: the private structure, the port range of the parent, the
    key of the remote side and the settings of the encoder. *)
Record KmsSrtpConnection : Type := mkConn {
  added : bool;
  connected : bool;
  is_client : bool;
  min_port : Z;
  max_port : Z;
  r_key : option string;
  r_auth : Z;
  r_cipher : Z;
  r_updated : bool;
  r_key_set : bool;
  srtpenc : SrtpEncSettings
}.

Definition set_added (v : bool) (c : KmsSrtpConnection) :=
  mkConn v (connected c) (is_client c) (min_port c) (max_port c) (r_key c)
    (r_auth c) (r_cipher c) (r_updated c) (r_key_set c) (srtpenc c).

Definition set_connected (v : bool) (c : KmsSrtpConnection) :=
  mkConn (added c) v (is_client c) (min_port c) (max_port c) (r_key c)
    (r_auth c) (r_cipher c) (r_updated c) (r_key_set c) (srtpenc c).

Definition set_is_client (v : bool) (c : KmsSrtpConnection) :=
  mkConn (added c) (connected c) v (min_port c) (max_port c) (r_key c)
    (r_auth c) (r_cipher c) (r_updated c) (r_key_set c) (srtpenc c).

Definition set_min_port (v : Z) (c : KmsSrtpConnection) :=
  mkConn (added c) (connected c) (is_client c) v (max_port c) (r_key c)
    (r_auth c) (r_cipher c) (r_updated c) (r_key_set c) (srtpenc c).

Definition set_max_port (v : Z) (c : KmsSrtpConnection) :=
  mkConn (added c) (connected c) (is_client c) (min_port c) v (r_key c)
    (r_auth c) (r_cipher c) (r_updated c) (r_key_set c) (srtpenc c).

Definition set_r_updated (v : bool) (c : KmsSrtpConnection) :=
  mkConn (added c) (connected c) (is_client c) (min_port c) (max_port c)
    (r_key c) (r_auth c) (r_cipher c) v (r_key_set c) (srtpenc c).

Definition set_remote_key (key : option string) (auth cipher : Z)
    (c : KmsSrtpConnection) :=
  mkConn (added c) (connected c) (is_client c) (min_port c) (max_port c)
    key auth cipher true true (srtpenc c).

Definition set_srtpenc (v : SrtpEncSettings) (c : KmsSrtpConnection) :=
  mkConn (added c) (connected c) (is_client c) (min_port c) (max_port c)
    (r_key c) (r_auth c) (r_cipher c) (r_updated c) (r_key_set c) v.

(** The connection holds this key, authentication and cipher for the
    remote side. *)
Definition holds_remote_key (c : KmsSrtpConnection) (key : option string)
    (auth cipher : Z) : Prop :=
  r_key_set c = true /\ r_key c = key /\ r_auth c = auth
  /\ r_cipher c = cipher.

Section SrtpConnection.

(** [g_base64_decode] of GLib: the bytes that a string stands for. *)
Variable g_base64_decode : option string -> string.

(** The [GValue] of GObject with its readers and writers. *)
Variable GValue : Type.
Variable g_value_get_boolean : GValue -> bool.
Variable g_value_set_boolean : GValue -> bool -> GValue.
Variable g_value_get_uint : GValue -> Z.
Variable g_value_set_uint : GValue -> Z -> GValue.

Definition create_key_caps (ssrc_ : Z) (key : option string)
    (auth cipher : Z) : option GstCaps :=
  let str_cipher := get_str_cipher cipher in
  let str_auth := get_str_auth auth in
  match str_cipher, str_auth with
  | Some str_cipher, Some str_auth =>
      let buff_key := g_base64_decode key in
      Some (mkCaps "application/x-srtp" buff_key str_cipher str_auth
              str_cipher str_auth)
  | _, _ => None
  end.

Definition kms_srtp_connection_request_remote_key_cb
    (conn : KmsSrtpConnection) (ssrc_ : Z)
  : KmsSrtpConnection * option GstCaps :=
  if negb (r_key_set conn) then (conn, None)
  else
    let conn :=
      if negb (r_updated conn) then conn else set_r_updated false conn in
    (conn, create_key_caps ssrc_ (r_key conn) (r_auth conn) (r_cipher conn)).

Definition kms_srtp_connection_set_key (conn : KmsSrtpConnection)
    (key : option string) (auth cipher : Z) (local : bool)
  : KmsSrtpConnection :=
  if local then
    let buff_key := g_base64_decode key in
    set_srtpenc (mkEnc (Some buff_key) cipher cipher auth auth) conn
  else
    let changed :=
      negb (r_key_set conn)
      || negb (g_strcmp0 key (r_key conn) =? 0)
      || negb (r_auth conn =? auth)
      || negb (r_cipher conn =? cipher) in
    if changed then set_remote_key key auth cipher conn else conn.

Definition kms_srtp_connection_set_property (self : KmsSrtpConnection)
    (prop_id : Z) (value : GValue) : KmsSrtpConnection :=
  if prop_id =? PROP_ADDED then set_added (g_value_get_boolean value) self
  else if prop_id =? PROP_CONNECTED
  then set_connected (g_value_get_boolean value) self
  else if prop_id =? PROP_MIN_PORT
  then set_min_port (g_value_get_uint value) self
  else if prop_id =? PROP_MAX_PORT
  then set_max_port (g_value_get_uint value) self
  else self.

Definition kms_srtp_connection_get_property (self : KmsSrtpConnection)
    (prop_id : Z) (value : GValue) : GValue :=
  if prop_id =? PROP_ADDED then g_value_set_boolean value (added self)
  else if prop_id =? PROP_CONNECTED
  then g_value_set_boolean value (connected self)
  else if prop_id =? PROP_IS_CLIENT
  then g_value_set_boolean value (is_client self)
  else if prop_id =? PROP_MIN_PORT
  then g_value_set_uint value (min_port self)
  else if prop_id =? PROP_MAX_PORT
  then g_value_set_uint value (max_port self)
  else value.

(** The calls that reach the key of the remote side. *)
Inductive KeyCall : Type :=
| SetKey (key : option string) (auth cipher : Z) (local : bool)
| RequestKey (ssrc_ : Z)
| SetProperty (prop_id : Z) (value : GValue).

Definition key_call (conn : KmsSrtpConnection) (c : KeyCall)
  : KmsSrtpConnection :=
  match c with
  | SetKey key auth cipher local =>
      kms_srtp_connection_set_key conn key auth cipher local
  | RequestKey ssrc_ =>
      fst (kms_srtp_connection_request_remote_key_cb conn ssrc_)
  | SetProperty prop_id value =>
      kms_srtp_connection_set_property conn prop_id value
  end.

Definition key_calls (conn : KmsSrtpConnection) (l : list KeyCall)
  : KmsSrtpConnection :=
  fold_left key_call l conn.

(** The key, authentication and cipher of the last
    [kms_srtp_connection_set_key] of a run for the local ([true]) or the
    remote ([false]) side. *)
Fixpoint last_key (side : bool) (l : list KeyCall)
  : option (option string * Z * Z) :=
  match l with
  | [] => None
  | c :: l' =>
      match last_key side l' with
      | Some k => Some k
      | None =>
          match c with
          | SetKey key auth cipher local =>
              if Bool.eqb local side then Some (key, auth, cipher) else None
          | _ => None
          end
      end
  end.

End SrtpConnection.

Arguments kms_srtp_connection_set_property {GValue}.
Arguments kms_srtp_connection_get_property {GValue}.
Arguments SetKey {GValue}.
Arguments RequestKey {GValue}.
Arguments SetProperty {GValue}.
Arguments key_call g_base64_decode {GValue}.
Arguments key_calls g_base64_decode {GValue}.
Arguments last_key {GValue}.

(** The key of the remote side of two connections is the same. *)
Definition same_remote_key (a b : KmsSrtpConnection) : Prop :=
  r_key_set a = r_key_set b /\ r_key a = r_key b /\ r_auth a = r_auth b
  /\ r_cipher a = r_cipher b.

(** An SRTP connection for the examples. *)
Definition a_connection : KmsSrtpConnection :=
  mkConn false false false 0 0 None 0 0 false false (mkEnc None 0 0 0 0).

(** A decoder and a [GValue] for the examples: the key decodes to itself,
    and a value is a boolean or an unsigned number. *)
Definition example_decode (key : option string) : string :=
  match key with
  | Some k => k
  | None => EmptyString
  end.

Inductive ExampleValue : Type :=
| BooleanValue (b : bool)
| UintValue (n : Z).

Definition example_get_boolean (value : ExampleValue) : bool :=
  match value with
  | BooleanValue b => b
  | UintValue _ => false
  end.

Definition example_get_uint (value : ExampleValue) : Z :=
  match value with
  | BooleanValue _ => 0
  | UintValue n => n
  end.

(** The object after scenario S1, in unsorted mode. *)
Definition after_S1_unsorted : KmsRtpSynchronizerPrivate :=
  calls gst_rtp_buffer_ext_timestamp (configured false) scenario_S1.

(** An RTCP buffer whose first packet is a receiver report, followed by a
    sender report. *)
Definition receiver_report_first : GstRTCPBuffer :=
  mkRTCPBuffer true
    [mkRTCP GST_RTCP_TYPE_RR 1 0 0; mkRTCP GST_RTCP_TYPE_SR 1 (2 ^ 32) 8200]
    500000000.

(** * Properties *)

(** ** Arithmetic of the machine integers *)

Ltac unfold_words :=
  unfold GST_CLOCK_DIFF, GST_CLOCK_TIME_NONE, G_MAXUINT64, GST_SECOND,
    follows32, i64, i32, u64, u32 in *;
  change (2 ^ 64) with 18446744073709551616 in *;
  change (2 ^ 63) with 9223372036854775808 in *;
  change (2 ^ 32) with 4294967296 in *;
  change (2 ^ 31) with 2147483648 in *.

(** Linear arithmetic over the wrapped operations. *)
Ltac word_lia := unfold_words; Z.div_mod_to_equations; lia.

Lemma u64_small (z : Z) : 0 <= z <= G_MAXUINT64 -> u64 z = z.
Proof. intros H. unfold u64. apply Z.mod_small. unfold_words. lia. Qed.

Lemma u64_range (z : Z) : 0 <= u64 z <= G_MAXUINT64.
Proof. word_lia. Qed.

Lemma u32_sub_u32 (a b : Z) : u32 (b - u32 a) = u32 (b - a).
Proof. unfold u32. rewrite Zminus_mod_idemp_r. reflexivity. Qed.

Lemma i32_forward (z : Z) : 0 <= u32 z < 2 ^ 31 -> i32 z = u32 z.
Proof. word_lia. Qed.

(** ** The extended timestamp *)

Lemma ext_timestamp_first (t : Z) :
  gst_rtp_buffer_ext_timestamp GST_CLOCK_TIME_NONE t = (t, t).
Proof. reflexivity. Qed.

Lemma ext_timestamp_next (stored t : Z) :
  stored <> GST_CLOCK_TIME_NONE ->
  gst_rtp_buffer_ext_timestamp stored t =
    (u64 (stored + i32 (t - u32 stored)), u64 (stored + i32 (t - u32 stored))).
Proof.
  intros H. unfold gst_rtp_buffer_ext_timestamp.
  destruct (Z.eqb_spec stored GST_CLOCK_TIME_NONE);
    [contradiction | reflexivity].
Qed.

(** A timestamp that follows the stored counter advances it by the 32-bit
    distance, as long as the 64-bit counter has room. *)
Lemma ext_timestamp_forward (stored prev t : Z) :
  0 <= stored -> stored + 2 ^ 31 <= G_MAXUINT64 ->
  u32 stored = u32 prev -> follows32 prev t ->
  gst_rtp_buffer_ext_timestamp stored t =
    (stored + u32 (t - prev), stored + u32 (t - prev)).
Proof.
  intros H0 Hroom Hlow Hf.
  rewrite ext_timestamp_next by (unfold_words; lia).
  assert (Hd : u32 (t - u32 stored) = u32 (t - prev))
    by (rewrite Hlow; apply u32_sub_u32).
  assert (Hi : i32 (t - u32 stored) = u32 (t - prev)).
  { rewrite <- Hd. apply i32_forward. rewrite Hd. unfold follows32 in Hf. lia. }
  rewrite Hi. rewrite u64_small; [reflexivity |].
  unfold follows32 in Hf. unfold_words. lia.
Qed.

Lemma u32_after_forward (stored prev t : Z) :
  u32 stored = u32 prev -> u32 (stored + u32 (t - prev)) = u32 t.
Proof.
  unfold u32. intros H.
  rewrite Zplus_mod_idemp_r, Zplus_mod, H, <- Zplus_mod.
  f_equal. lia.
Qed.

Lemma ext_timestamps_ascending (l : list Z) :
  forall stored prev,
    0 <= stored ->
    stored + Z.of_nat (length l) * 2 ^ 31 <= G_MAXUINT64 ->
    u32 stored = u32 prev ->
    ascending32 (prev :: l) ->
    strictly_ascending (stored :: ext_timestamps stored l)
    /\ diffs (stored :: ext_timestamps stored l) = map u32 (diffs (prev :: l)).
Proof.
  induction l as [| t l IH]; intros stored prev H0 Hroom Hlow Hasc.
  - simpl. split; [exact I | reflexivity].
  - destruct Hasc as [Hf Hasc].
    assert (Hlen : Z.of_nat (length (t :: l)) = Z.of_nat (length l) + 1)
      by (simpl length; lia).
    rewrite Hlen in Hroom.
    assert (Hstep := ext_timestamp_forward stored prev t H0).
    cbn [ext_timestamps]. rewrite Hstep; try assumption.
    2:{ unfold_words. lia. }
    set (stored' := stored + u32 (t - prev)).
    assert (Hgt : stored < stored') by (unfold stored', follows32 in *; lia).
    destruct (IH stored' t) as [IHa IHd]; try assumption.
    + lia.
    + unfold stored', follows32 in *. unfold_words. lia.
    + apply u32_after_forward. exact Hlow.
    + split.
      * change (stored < stored'
                /\ strictly_ascending (stored' :: ext_timestamps stored' l)).
        split; assumption.
      * change (stored' - stored
                  :: diffs (stored' :: ext_timestamps stored' l)
                = u32 (t - prev) :: map u32 (diffs (t :: l))).
        rewrite IHd. f_equal. unfold stored'. lia.
Qed.

(** C3.  On its first call (the counter is unset) the operation stores and
    returns the 32-bit timestamp itself; on every later call it adds the
    signed 32-bit difference between the new timestamp and the low 32 bits
    of the counter to the counter modulo 2^64.  Consequently a sequence of
    32-bit timestamps in which every one follows its predecessor on the
    32-bit circle by less than 2^31 ticks, fed from the first call on, gives
    a strictly ascending 64-bit sequence whose first differences are the
    32-bit first differences modulo 2^32 (the sequence is short enough for
    the 64-bit counter: at most 2^32 timestamps). *)
Theorem ext_timestamp_strictly_ascending :
  (forall t, gst_rtp_buffer_ext_timestamp GST_CLOCK_TIME_NONE t = (t, t))
  /\ (forall stored t,
        stored <> GST_CLOCK_TIME_NONE ->
        let result := u64 (stored + i32 (t - u32 stored)) in
        gst_rtp_buffer_ext_timestamp stored t = (result, result))
  /\ (forall l,
        Forall (fun t => 0 <= t < 2 ^ 32) l ->
        ascending32 l ->
        Z.of_nat (length l) <= 2 ^ 32 ->
        strictly_ascending (ext_timestamps GST_CLOCK_TIME_NONE l)
        /\ diffs (ext_timestamps GST_CLOCK_TIME_NONE l) = map u32 (diffs l)).
Proof.
  split; [exact ext_timestamp_first |].
  split; [intros stored t H; exact (ext_timestamp_next stored t H) |].
  intros [| t0 l] Hrange Hasc Hlen.
  - simpl. split; [exact I | reflexivity].
  - cbn [ext_timestamps]. rewrite ext_timestamp_first.
    inversion Hrange as [| ? ? Ht0 _]; subst.
    apply ext_timestamps_ascending with (prev := t0); try assumption.
    + lia.
    + simpl length in Hlen. unfold_words. lia.
    + reflexivity.
Qed.

Lemma ext_timestamp_strictly_ascending_witness :
  let l := [4294967280; 16; 2147483000] in
  strictly_ascending (ext_timestamps GST_CLOCK_TIME_NONE l)
  /\ diffs (ext_timestamps GST_CLOCK_TIME_NONE l) = map u32 (diffs l).
Proof.
  apply (proj2 (proj2 ext_timestamp_strictly_ascending)).
  - repeat constructor; lia.
  - vm_compute. repeat split.
  - vm_compute. discriminate.
Defined.

(** ** Saturating arithmetic *)

Lemma scale_range (v den : Z) :
  0 <= v -> 0 < den ->
  0 <= gst_util_uint64_scale_int v GST_SECOND den <= G_MAXUINT64.
Proof.
  intros Hv Hd. unfold gst_util_uint64_scale_int, gst_util_uint64_scale.
  assert (0 <= v * GST_SECOND / den).
  { apply Z.div_pos; [unfold GST_SECOND; lia | exact Hd]. }
  destruct (Z.gtb_spec (v * GST_SECOND / den) G_MAXUINT64);
    unfold G_MAXUINT64 in *; lia.
Qed.

Lemma diff_rtp_time_range (self : KmsRtpSynchronizerPrivate) (cr base : Z) :
  0 < cr -> 0 <= diff_rtp_time self cr base <= G_MAXUINT64.
Proof. intros H. apply scale_range; [lia | exact H]. Qed.

(** [kms_rtp_synchronizer_rtp_diff_full] in terms of the magnitude. *)
Lemma rtp_diff_full_magnitude (self : KmsRtpSynchronizerPrivate)
    (p cr base : Z) (wd wu : bool) :
  let d := diff_rtp_time self cr base in
  kms_rtp_synchronizer_rtp_diff_full self p cr base wd wu
  = if rtp_ext_ts self >? base then
      if wu then G_MAXUINT64
      else if wd && (d <? G_MAXUINT64 - p) then 0
      else if negb wd && (d >? G_MAXUINT64 - p) then G_MAXUINT64
      else u64 (p + d)
    else if rtp_ext_ts self <? base then
      if wd then 0
      else if wu && (d <? p) then G_MAXUINT64
      else if negb wu && (d >? p) then 0
      else u64 (p - d)
    else if wd then 0 else if wu then G_MAXUINT64 else p.
Proof.
  unfold kms_rtp_synchronizer_rtp_diff_full, diff_rtp_time.
  destruct (Z.gtb_spec (rtp_ext_ts self) base) as [Hgt | Hle].
  - rewrite Z.abs_eq by lia. reflexivity.
  - destruct (Z.ltb_spec (rtp_ext_ts self) base) as [Hlt | Hge];
      [| reflexivity].
    replace (Z.abs (rtp_ext_ts self - base)) with (base - rtp_ext_ts self)
      by lia.
    reflexivity.
Qed.

(** The table of [kms_rtp_synchronizer_rtp_diff_full], with at most one flag
    set. *)
Lemma rtp_diff_full_table (self : KmsRtpSynchronizerPrivate)
    (p cr base : Z) (wd wu : bool) :
  0 <= p <= G_MAXUINT64 -> 0 < cr -> wd && wu = false ->
  let d := diff_rtp_time self cr base in
  let r := rtp_ext_ts self in
  let result := kms_rtp_synchronizer_rtp_diff_full self p cr base wd wu in
  (base < r -> wu = true -> result = G_MAXUINT64)
  /\ (base < r -> wd = true -> d < G_MAXUINT64 - p -> result = 0)
  /\ (base < r -> wd = true -> d > G_MAXUINT64 - p ->
      result = p + d - 2 ^ 64)
  /\ (base < r -> wd = false -> wu = false ->
      result = Z.min G_MAXUINT64 (p + d))
  /\ (r < base -> wd = true -> result = 0)
  /\ (r < base -> wu = true -> d < p -> result = G_MAXUINT64)
  /\ (r < base -> wu = true -> d > p -> result = p - d + 2 ^ 64)
  /\ (r < base -> wd = false -> wu = false -> result = Z.max 0 (p - d))
  /\ (r = base ->
      result = if wd then 0 else if wu then G_MAXUINT64 else p).
Proof.
  intros Hp Hcr Hflags d r result.
  subst result. rewrite rtp_diff_full_magnitude. fold d. fold r.
  pose proof (diff_rtp_time_range self cr base Hcr) as Hd. fold d in Hd.
  clearbody d r.
  destruct (Z.gtb_spec r base); [| destruct (Z.ltb_spec r base)];
    destruct wd, wu; try discriminate Hflags; cbn [andb negb];
    repeat split; intros; try lia; try discriminate; try reflexivity;
    repeat match goal with
      | |- context [?a <? ?b] => destruct (Z.ltb_spec a b)
      | |- context [?a >? ?b] => destruct (Z.gtb_spec a b)
      end;
    try lia; word_lia.
Qed.

Lemma clock_diff_forward (s e : Z) :
  0 <= s -> s <= e -> e <= G_MAXUINT64 -> u64 (GST_CLOCK_DIFF s e) = e - s.
Proof. intros. word_lia. Qed.

(** The NTP offset adds or subtracts modulo 2^64 and sets a flag exactly
    when the exact sum leaves the range. *)
Lemma ntp_offset_exact (self : KmsRtpSynchronizerPrivate) (p : Z) :
  0 <= p <= G_MAXUINT64 ->
  0 <= base_ntp_time self <= G_MAXUINT64 ->
  0 <= last_rtcp_ntp_time self <= G_MAXUINT64 ->
  let exact := p + (last_rtcp_ntp_time self - base_ntp_time self) in
  ntp_offset self p = (u64 exact, exact <? 0, exact >? G_MAXUINT64).
Proof.
  intros Hp Hb Hl exact. subst exact. unfold ntp_offset.
  set (base := base_ntp_time self) in *.
  set (last := last_rtcp_ntp_time self) in *.
  clearbody base last.
  destruct (Z.gtb_spec last base) as [Hgt | Hle].
  - rewrite clock_diff_forward by lia.
    replace (p + (last - base) <? 0) with false
      by (symmetry; apply Z.ltb_ge; lia).
    destruct (Z.gtb_spec (last - base) (G_MAXUINT64 - p));
      destruct (Z.gtb_spec (p + (last - base)) G_MAXUINT64);
      try lia; reflexivity.
  - destruct (Z.ltb_spec last base) as [Hlt | Hge].
    + rewrite clock_diff_forward by lia.
      replace (p + (last - base) >? G_MAXUINT64) with false
        by (symmetry; destruct (Z.gtb_spec (p + (last - base)) G_MAXUINT64);
            [lia | reflexivity]).
      replace (p - (base - last)) with (p + (last - base)) by lia.
      destruct (Z.ltb_spec p (base - last));
        destruct (Z.ltb_spec (p + (last - base)) 0);
        try lia; reflexivity.
    + replace last with base by lia.
      replace (p + (base - base)) with p by lia.
      rewrite u64_small by exact Hp.
      replace (p <? 0) with false by (symmetry; apply Z.ltb_ge; lia).
      replace (p >? G_MAXUINT64) with false
        by (symmetry; destruct (Z.gtb_spec p G_MAXUINT64);
            [lia | reflexivity]).
      reflexivity.
Qed.

(** In the synchronized regime the computed PTS is the exact PTS brought
    into the range, unless the exact PTS is one off the range. *)
Lemma synchronized_pts_saturates (self : KmsRtpSynchronizerPrivate)
    (pts_orig rtp_ext_ts_ : Z) :
  base_initiated self = true ->
  0 <= base_sync_time self <= G_MAXUINT64 ->
  0 <= base_ntp_time self <= G_MAXUINT64 ->
  0 <= last_rtcp_ntp_time self <= G_MAXUINT64 ->
  0 < clock_rate self ->
  exact_synchronized_pts self <> -1 ->
  exact_synchronized_pts self <> 2 ^ 64 ->
  snd (compute_pts self pts_orig rtp_ext_ts_)
  = saturate (exact_synchronized_pts self).
Proof.
  intros Hb Hs Hn Hl Hcr Hlow Hhigh. revert Hlow Hhigh.
  unfold compute_pts, exact_synchronized_pts. rewrite Hb. cbn [negb].
  rewrite (ntp_offset_exact self (base_sync_time self) Hs Hn Hl).
  cbn [snd]. rewrite rtp_diff_full_magnitude.
  pose proof (diff_rtp_time_range self (clock_rate self)
                (last_rtcp_ext_ts self) Hcr) as Hd.
  set (d := diff_rtp_time self (clock_rate self) (last_rtcp_ext_ts self))
    in *.
  set (e := base_sync_time self
            + (last_rtcp_ntp_time self - base_ntp_time self)).
  assert (He : - G_MAXUINT64 <= e <= 2 * G_MAXUINT64) by (subst e; lia).
  set (r := rtp_ext_ts self). set (base := last_rtcp_ext_ts self).
  clearbody d e r base. unfold saturate.
  destruct (Z.gtb_spec r base) as [Hgt | Hle];
    [rewrite Z.sgn_pos by lia
    | destruct (Z.ltb_spec r base) as [Hlt | Hge];
      [rewrite Z.sgn_neg by lia
      | assert (Heq : r = base) by lia; rewrite Heq, Z.sub_diag;
        change (Z.sgn 0) with 0]];
    destruct (Z.ltb_spec e 0); destruct (Z.gtb_spec e G_MAXUINT64);
    cbn [andb negb]; intros Hlow Hhigh; try lia;
    repeat match goal with
      | |- context [?a <? ?b] => destruct (Z.ltb_spec a b)
      | |- context [?a >? ?b] => destruct (Z.gtb_spec a b)
      end;
    word_lia.
Qed.

(** In the interpolation regime, after the first packet, the computed PTS
    is the exact PTS brought into the range. *)
Lemma interpolated_pts_saturates (self : KmsRtpSynchronizerPrivate)
    (pts_orig rtp_ext_ts_ : Z) :
  base_initiated self = false ->
  base_interpolate_initiated self = true ->
  0 <= base_interpolate_pts self <= G_MAXUINT64 ->
  0 < clock_rate self ->
  snd (compute_pts self pts_orig rtp_ext_ts_)
  = saturate (exact_interpolated_pts self).
Proof.
  intros Hb Hi Hp Hcr.
  assert (Hgo : snd (compute_pts self pts_orig rtp_ext_ts_)
                = kms_rtp_synchronizer_rtp_diff_full self
                    (base_interpolate_pts self) (clock_rate self)
                    (base_interpolate_ext_ts self) false false).
  { unfold compute_pts, kms_rtp_synchronizer_rtp_diff. rewrite Hb.
    cbn [negb].
    destruct (base_initiated_logged self); cbn [negb];
      cbn [base_interpolate_initiated set_base_initiated_logged];
      rewrite Hi; reflexivity. }
  rewrite Hgo, rtp_diff_full_magnitude.
  unfold exact_interpolated_pts, diff_rtp_time, gst_util_uint64_scale_int,
    gst_util_uint64_scale.
  change GST_SECOND with 1000000000.
  set (r := rtp_ext_ts self). set (base := base_interpolate_ext_ts self).
  assert (Hq : 0 <= Z.abs (r - base) * 1000000000 / clock_rate self)
    by (apply Z.div_pos; lia).
  set (q := Z.abs (r - base) * 1000000000 / clock_rate self) in *.
  set (p := base_interpolate_pts self) in *.
  clearbody q p r base. unfold saturate. cbn [andb negb].
  destruct (Z.gtb_spec r base) as [Hgt | Hle];
    [rewrite Z.sgn_pos by lia
    | destruct (Z.ltb_spec r base) as [Hlt | Hge];
      [rewrite Z.sgn_neg by lia
      | assert (Heq : r = base) by lia; rewrite Heq, Z.sub_diag;
        change (Z.sgn 0) with 0]];
    destruct (Z.gtb_spec q G_MAXUINT64);
    repeat match goal with
      | |- context [?a <? ?b] => destruct (Z.ltb_spec a b)
      | |- context [?a >? ?b] => destruct (Z.gtb_spec a b)
      end;
    word_lia.
Qed.

(** C1, as the code has it.  With at most one of the two flags set,
    [kms_rtp_synchronizer_rtp_diff_full] on the PTS [p] with the magnitude
    [d] gives: on an add, 2^64-1 if [wrapped_up] (whatever [d] is), 0 if
    [wrapped_down] and [d < 2^64-1 - p], [p + d - 2^64] if [wrapped_down] and
    [d > 2^64-1 - p] (the earlier wrap is undone), and without a flag
    [p + d], or 2^64-1 if that is larger; on a subtract, 0 if [wrapped_down]
    (whatever [d] is), 2^64-1 if [wrapped_up] and [d < p], [p - d + 2^64]
    if [wrapped_up] and [d > p], and without a flag [p - d], or 0 if that
    is negative; with equal extended timestamps, the saturated value if a
    flag is set and [p] otherwise.  The NTP offset adds or subtracts modulo
    2^64 and sets [wrapped_up] or [wrapped_down] exactly when the exact sum
    leaves the range.  Hence the PTS of the synchronized regime is the exact
    integer [base_sync_time] plus NTP offset plus RTP offset, saturated at 0
    and at 2^64-1, whenever that exact integer is neither -1 nor 2^64. *)
Theorem pts_arithmetic_saturates :
  (forall self p cr base wd wu,
      0 <= p <= G_MAXUINT64 -> 0 < cr -> wd && wu = false ->
      let d := diff_rtp_time self cr base in
      let r := rtp_ext_ts self in
      let result := kms_rtp_synchronizer_rtp_diff_full self p cr base wd wu in
      (base < r -> wu = true -> result = G_MAXUINT64)
      /\ (base < r -> wd = true -> d < G_MAXUINT64 - p -> result = 0)
      /\ (base < r -> wd = true -> d > G_MAXUINT64 - p ->
          result = p + d - 2 ^ 64)
      /\ (base < r -> wd = false -> wu = false ->
          result = Z.min G_MAXUINT64 (p + d))
      /\ (r < base -> wd = true -> result = 0)
      /\ (r < base -> wu = true -> d < p -> result = G_MAXUINT64)
      /\ (r < base -> wu = true -> d > p -> result = p - d + 2 ^ 64)
      /\ (r < base -> wd = false -> wu = false -> result = Z.max 0 (p - d))
      /\ (r = base ->
          result = if wd then 0 else if wu then G_MAXUINT64 else p))
  /\ (forall self p,
        0 <= p <= G_MAXUINT64 ->
        0 <= base_ntp_time self <= G_MAXUINT64 ->
        0 <= last_rtcp_ntp_time self <= G_MAXUINT64 ->
        let exact := p + (last_rtcp_ntp_time self - base_ntp_time self) in
        ntp_offset self p = (u64 exact, exact <? 0, exact >? G_MAXUINT64))
  /\ (forall self pts_orig rtp_ext_ts_,
        base_initiated self = true ->
        0 <= base_sync_time self <= G_MAXUINT64 ->
        0 <= base_ntp_time self <= G_MAXUINT64 ->
        0 <= last_rtcp_ntp_time self <= G_MAXUINT64 ->
        0 < clock_rate self ->
        exact_synchronized_pts self <> -1 ->
        exact_synchronized_pts self <> 2 ^ 64 ->
        snd (compute_pts self pts_orig rtp_ext_ts_)
        = saturate (exact_synchronized_pts self)).
Proof.
  split; [| split].
  - exact rtp_diff_full_table.
  - exact ntp_offset_exact.
  - exact synchronized_pts_saturates.
Qed.

Lemma scale_monotone (v1 v2 den : Z) :
  0 <= v1 <= v2 -> 0 < den ->
  gst_util_uint64_scale_int v1 GST_SECOND den
  <= gst_util_uint64_scale_int v2 GST_SECOND den.
Proof.
  intros Hv Hd. unfold gst_util_uint64_scale_int, gst_util_uint64_scale.
  assert (H : v1 * GST_SECOND / den <= v2 * GST_SECOND / den).
  { apply Z.div_le_mono; [exact Hd | unfold GST_SECOND; nia]. }
  destruct (Z.gtb_spec (v1 * GST_SECOND / den) G_MAXUINT64);
    destruct (Z.gtb_spec (v2 * GST_SECOND / den) G_MAXUINT64); lia.
Qed.

(** [kms_rtp_synchronizer_rtp_diff] keeps the order of the extended
    timestamps: with the same base PTS, clock rate and base timestamp, a
    later extended timestamp never gets an earlier PTS. *)
Theorem rtp_diff_keeps_order :
  forall self p cr base r1 r2,
    0 <= p <= G_MAXUINT64 -> 0 < cr -> r1 <= r2 ->
    kms_rtp_synchronizer_rtp_diff (set_rtp_ext_ts r1 self) p cr base
    <= kms_rtp_synchronizer_rtp_diff (set_rtp_ext_ts r2 self) p cr base.
Proof.
  intros self p cr base r1 r2 Hp Hcr Hr.
  unfold kms_rtp_synchronizer_rtp_diff.
  rewrite !rtp_diff_full_magnitude.
  pose proof (diff_rtp_time_range (set_rtp_ext_ts r1 self) cr base Hcr) as H1.
  pose proof (diff_rtp_time_range (set_rtp_ext_ts r2 self) cr base Hcr) as H2.
  assert (Hup : base <= r1 ->
                diff_rtp_time (set_rtp_ext_ts r1 self) cr base
                <= diff_rtp_time (set_rtp_ext_ts r2 self) cr base).
  { intros H. unfold diff_rtp_time. cbn [rtp_ext_ts set_rtp_ext_ts].
    apply scale_monotone; [lia | exact Hcr]. }
  assert (Hdown : r2 <= base ->
                  diff_rtp_time (set_rtp_ext_ts r2 self) cr base
                  <= diff_rtp_time (set_rtp_ext_ts r1 self) cr base).
  { intros H. unfold diff_rtp_time. cbn [rtp_ext_ts set_rtp_ext_ts].
    apply scale_monotone; [lia | exact Hcr]. }
  set (d1 := diff_rtp_time (set_rtp_ext_ts r1 self) cr base) in *.
  set (d2 := diff_rtp_time (set_rtp_ext_ts r2 self) cr base) in *.
  clearbody d1 d2. cbn [rtp_ext_ts set_rtp_ext_ts andb negb].
  destruct (Z.gtb_spec r1 base); destruct (Z.gtb_spec r2 base);
    destruct (Z.ltb_spec r1 base); destruct (Z.ltb_spec r2 base);
    try lia;
    repeat match goal with
      | |- context [?a <? ?b] => destruct (Z.ltb_spec a b)
      | |- context [?a >? ?b] => destruct (Z.gtb_spec a b)
      end;
    try (specialize (Hup ltac:(lia))); try (specialize (Hdown ltac:(lia)));
    word_lia.
Qed.

(** Right after the base has been taken there is no NTP offset: the PTS is
    the base time plus the signed time since the sender report, brought into
    the range. *)
Lemma synchronized_without_ntp_offset (self : KmsRtpSynchronizerPrivate)
    (pts_orig rtp_ext_ts_ : Z) :
  base_initiated self = true ->
  last_rtcp_ntp_time self = base_ntp_time self ->
  0 <= base_sync_time self <= G_MAXUINT64 ->
  0 < clock_rate self ->
  snd (compute_pts self pts_orig rtp_ext_ts_)
  = saturate (base_sync_time self
              + Z.sgn (rtp_ext_ts self - last_rtcp_ext_ts self)
                * diff_rtp_time self (clock_rate self)
                    (last_rtcp_ext_ts self)).
Proof.
  intros Hb He Hs Hcr. unfold compute_pts, ntp_offset.
  rewrite Hb, He. cbn [negb].
  replace (base_ntp_time self >? base_ntp_time self) with false
    by (symmetry; destruct (Z.gtb_spec (base_ntp_time self)
                              (base_ntp_time self)); [lia | reflexivity]).
  rewrite Z.ltb_irrefl. cbn [snd].
  rewrite rtp_diff_full_magnitude.
  pose proof (diff_rtp_time_range self (clock_rate self)
                (last_rtcp_ext_ts self) Hcr) as Hd.
  set (d := diff_rtp_time self (clock_rate self) (last_rtcp_ext_ts self))
    in *.
  set (p := base_sync_time self) in *.
  set (r := rtp_ext_ts self). set (base := last_rtcp_ext_ts self).
  clearbody d p r base. unfold saturate. cbn [andb negb].
  destruct (Z.gtb_spec r base) as [Hgt | Hle];
    [rewrite Z.sgn_pos by lia
    | destruct (Z.ltb_spec r base) as [Hlt | Hge];
      [rewrite Z.sgn_neg by lia
      | assert (Heq : r = base) by lia; rewrite Heq, Z.sub_diag;
        change (Z.sgn 0) with 0]];
    repeat match goal with
      | |- context [?a <? ?b] => destruct (Z.ltb_spec a b)
      | |- context [?a >? ?b] => destruct (Z.gtb_spec a b)
      end;
    word_lia.
Qed.

Lemma compute_pts_ignores_arrival (self : KmsRtpSynchronizerPrivate)
    (p1 p2 r : Z) :
  base_initiated self = true \/ base_interpolate_initiated self = true ->
  compute_pts self p1 r = compute_pts self p2 r.
Proof.
  intros H. unfold compute_pts.
  destruct (base_initiated self); cbn [negb]; [reflexivity |].
  destruct H as [H | H]; [discriminate |].
  destruct (base_initiated_logged self); cbn [negb];
    cbn [base_interpolate_initiated set_base_initiated_logged];
    rewrite H; reflexivity.
Qed.

Lemma compute_pts_anchor (self : KmsRtpSynchronizerPrivate) (p r : Z) :
  let self' := fst (compute_pts self p r) in
  (base_initiated self = true \/ base_interpolate_initiated self = true ->
   base_interpolate_initiated self' = base_interpolate_initiated self
   /\ base_interpolate_ext_ts self' = base_interpolate_ext_ts self
   /\ base_interpolate_pts self' = base_interpolate_pts self)
  /\ (base_initiated self = false ->
      base_interpolate_initiated self = false ->
      base_interpolate_initiated self' = true
      /\ base_interpolate_ext_ts self' = r
      /\ base_interpolate_pts self' = p
      /\ snd (compute_pts self p r) = p).
Proof.
  unfold compute_pts.
  destruct (base_initiated self) eqn:Hb; cbn [negb].
  - destruct (ntp_offset self (base_sync_time self)) as [[q wd] wu].
    cbn [fst]. split; [auto | discriminate].
  - destruct (base_initiated_logged self); cbn [negb];
      cbn [base_interpolate_initiated set_base_initiated_logged];
      destruct (base_interpolate_initiated self) eqn:Hi; cbn [negb fst snd];
      cbn; split; intros; try discriminate; intuition congruence.
Qed.

(** ** The synchronizer *)

Section Properties.

Variable ext_timestamp : Z -> Z -> Z * Z.

Local Abbreviation process_rtcp_packet :=
  (kms_rtp_synchronizer_process_rtcp_packet ext_timestamp).
Local Abbreviation process_rtcp_buffer :=
  (kms_rtp_synchronizer_process_rtcp_buffer ext_timestamp).
Local Abbreviation process_rtp :=
  (kms_rtp_synchronizer_process_rtp_buffer_mapped ext_timestamp).
Local Abbreviation set_pt_clock_rate := kms_rtp_synchronizer_set_pt_clock_rate.
Local Abbreviation step := (call ext_timestamp).
Local Abbreviation run := (calls ext_timestamp).
Local Abbreviation rows := (sorted_rows ext_timestamp).

Lemma compute_pts_frame (self : KmsRtpSynchronizerPrivate) (p r : Z) :
  let self' := fst (compute_pts self p r) in
  same_configuration self' self /\ same_base self' self
  /\ same_last_rtcp self' self
  /\ feeded_sorted self' = feeded_sorted self
  /\ ssrc self' = ssrc self
  /\ rtp_ext_ts self' = rtp_ext_ts self
  /\ fs_last_rtp_ext_ts self' = fs_last_rtp_ext_ts self
  /\ fs_last_pts self' = fs_last_pts self.
Proof.
  unfold compute_pts, same_configuration, same_base, same_last_rtcp.
  destruct (base_initiated self) eqn:Hb; cbn [negb].
  - destruct (ntp_offset self (base_sync_time self)) as [[q wd] wu].
    cbn. rewrite Hb. repeat split.
  - destruct (base_initiated_logged self); cbn;
      destruct (base_interpolate_initiated self);
      cbn; rewrite ?Hb; repeat split.
Qed.

Lemma sorted_fix_frame (self : KmsRtpSynchronizerPrivate) (p r : Z) :
  let self' := fst (sorted_fix self p r) in
  same_configuration self' self /\ same_base self' self
  /\ same_last_rtcp self' self
  /\ feeded_sorted self' = feeded_sorted self
  /\ ssrc self' = ssrc self
  /\ rtp_ext_ts self' = rtp_ext_ts self
  /\ base_interpolate_initiated self' = base_interpolate_initiated self
  /\ base_interpolate_ext_ts self' = base_interpolate_ext_ts self
  /\ base_interpolate_pts self' = base_interpolate_pts self.
Proof.
  unfold sorted_fix, same_configuration, same_base, same_last_rtcp.
  destruct (feeded_sorted self) eqn:Hs; cbn; rewrite ?Hs; repeat split.
Qed.

Ltac pair_cases :=
  cbn [fst snd];
  repeat match goal with
    | |- context [compute_pts ?a ?b ?c] =>
        destruct (compute_pts a b c) as [? ?]; cbn [fst snd]
    | |- context [sorted_fix ?a ?b ?c] =>
        destruct (sorted_fix a b c) as [? ?]; cbn [fst snd]
    end;
  reflexivity.

(** The two ways of [kms_rtp_synchronizer_process_rtp_buffer_mapped]. *)
Lemma process_rtp_rejected (self : KmsRtpSynchronizerPrivate)
    (b : GstRTPBuffer) :
  rejected self b ->
  exists msg,
    msg <> MsgUnsorted
    /\ process_rtp self b
       = invalid_data
           (if ssrc self =? 0 then learn_ssrc self b
            else if rtp_get_ssrc b =? ssrc self then learn_ssrc self b
            else self)
           (GST_BUFFER_PTS b) msg.
Proof.
  unfold rejected, learn_ssrc,
    kms_rtp_synchronizer_process_rtp_buffer_mapped.
  intros H.
  destruct (Z.eqb_spec (ssrc self) 0) as [H0 | H0];
    [| destruct (Z.eqb_spec (rtp_get_ssrc b) (ssrc self)) as [Hs | Hs]];
    cbn [negb pt clock_rate set_ssrc].
  3:{ exists MsgInvalidSSRC. split; [discriminate | reflexivity]. }
  all: destruct (Z.eqb_spec (rtp_get_payload_type b) (pt self)) as [Hp | Hp];
    cbn [negb orb];
    [ destruct (Z.leb_spec (clock_rate self) 0) as [Hc | Hc];
      [ exists MsgInvalidClockRate; split; [discriminate | reflexivity]
      | exfalso; intuition lia ]
    | exists MsgUnknownPT; split; [discriminate | reflexivity] ].
Qed.

Lemma process_rtp_accepted (self : KmsRtpSynchronizerPrivate)
    (b : GstRTPBuffer) :
  passes_checks self b ->
  process_rtp self b = accepted ext_timestamp (learn_ssrc self b) b.
Proof.
  unfold passes_checks, learn_ssrc,
    kms_rtp_synchronizer_process_rtp_buffer_mapped, accepted.
  intros (Hs & Hp & Hc).
  assert (Hgo : forall s : KmsRtpSynchronizerPrivate,
            pt s = pt self -> clock_rate s = clock_rate self ->
            negb (rtp_get_payload_type b =? pt s) || (clock_rate s <=? 0)
            = false).
  { intros s -> ->. rewrite Hp, Z.eqb_refl. cbn.
    apply Z.leb_gt. exact Hc. }
  destruct (Z.eqb_spec (ssrc self) 0) as [H0 | H0].
  - rewrite Hgo by reflexivity. cbn [rtp_ext_ts set_ssrc].
    destruct (ext_timestamp (rtp_ext_ts self) (rtp_get_timestamp b))
      as [stored r]; cbn [fst snd].
    destruct (sorted_check _ r); pair_cases.
  - destruct Hs as [Hs | Hs]; [contradiction |].
    rewrite Hs, Z.eqb_refl. cbn [negb]. rewrite Hgo by reflexivity.
    destruct (ext_timestamp (rtp_ext_ts self) (rtp_get_timestamp b))
      as [stored r]; cbn [fst snd].
    destruct (sorted_check _ r); pair_cases.
Qed.

Lemma rejected_or_passes (self : KmsRtpSynchronizerPrivate)
    (b : GstRTPBuffer) :
  rejected self b \/ passes_checks self b.
Proof. unfold rejected, passes_checks. lia. Qed.

Ltac unfold_same :=
  unfold same_tracking, same_configuration, same_base, same_last_rtcp in *.

Lemma accepted_frame (self : KmsRtpSynchronizerPrivate) (b : GstRTPBuffer) :
  same_configuration (res_self (accepted ext_timestamp self b)) self
  /\ same_base (res_self (accepted ext_timestamp self b)) self
  /\ same_last_rtcp (res_self (accepted ext_timestamp self b)) self
  /\ ssrc (res_self (accepted ext_timestamp self b)) = ssrc self
  /\ rtp_ext_ts (res_self (accepted ext_timestamp self b))
     = fst (ext_timestamp (rtp_ext_ts self) (rtp_get_timestamp b))
  /\ (feeded_sorted self = false ->
      feeded_sorted (res_self (accepted ext_timestamp self b)) = false).
Proof.
  unfold accepted.
  set (e := ext_timestamp (rtp_ext_ts self) (rtp_get_timestamp b)).
  set (self1 := set_rtp_ext_ts (fst e) self).
  destruct (sorted_check self1 (snd e)); cbn [res_self].
  3:{ unfold_same. subst self1. cbn. intuition. }
  all: match goal with
       | |- context [compute_pts ?a ?p ?r] =>
           pose proof (compute_pts_frame a p r) as Hc;
           pose proof (sorted_fix_frame (fst (compute_pts a p r))
                         (snd (compute_pts a p r)) r) as Hf
       end;
    cbv zeta in Hc, Hf; unfold_same; subst self1;
    cbn [pt clock_rate base_initiated base_ntp_time base_sync_time
         last_rtcp_ext_ts last_rtcp_ntp_time ssrc rtp_ext_ts feeded_sorted
         set_rtp_ext_ts set_feeded_sorted] in Hc;
    intuition congruence.
Qed.

Lemma learn_ssrc_frame (self : KmsRtpSynchronizerPrivate) (b : GstRTPBuffer) :
  same_configuration (learn_ssrc self b) self
  /\ same_tracking (learn_ssrc self b) self
  /\ (ssrc self <> 0 -> learn_ssrc self b = self)
  /\ (ssrc self = 0 -> ssrc (learn_ssrc self b) = rtp_get_ssrc b).
Proof.
  unfold learn_ssrc, same_tracking, same_configuration, same_base,
    same_last_rtcp.
  destruct (Z.eqb_spec (ssrc self) 0); cbn; intuition.
Qed.

(** An RTP call writes neither the configuration, nor the base, nor the
    last sender report; it never turns the sorted mode on and never
    replaces an SSRC other than 0. *)
Lemma process_rtp_frame (self : KmsRtpSynchronizerPrivate)
    (b : GstRTPBuffer) :
  same_configuration (res_self (process_rtp self b)) self
  /\ same_base (res_self (process_rtp self b)) self
  /\ same_last_rtcp (res_self (process_rtp self b)) self
  /\ (ssrc self <> 0 -> ssrc (res_self (process_rtp self b)) = ssrc self)
  /\ (feeded_sorted self = false ->
      feeded_sorted (res_self (process_rtp self b)) = false).
Proof.
  destruct (learn_ssrc_frame self b) as (Hc & Ht & Hn & _).
  destruct (rejected_or_passes self b) as [Hr | Ha].
  - destruct (process_rtp_rejected self b Hr) as (msg & _ & ->).
    cbn [invalid_data res_self].
    destruct (ssrc self =? 0);
      [| destruct (rtp_get_ssrc b =? ssrc self)];
      unfold_same; intuition congruence.
  - rewrite (process_rtp_accepted self b Ha).
    pose proof (accepted_frame (learn_ssrc self b) b) as Hf.
    unfold_same.
    assert (ssrc self <> 0 -> ssrc (learn_ssrc self b) = ssrc self)
      by (intros Hz; rewrite (Hn Hz); reflexivity).
    destruct Hf as (Hf1 & Hf2 & Hf3 & Hf4 & Hf5 & Hf6).
    repeat split; try (intuition congruence).
    intros Hs. apply Hf6. intuition congruence.
Qed.

Lemma process_rtcp_packet_frame (self : KmsRtpSynchronizerPrivate)
    (packet : GstRTCPPacket) (t : Z) :
  same_configuration (process_rtcp_packet self packet t) self
  /\ ssrc (process_rtcp_packet self packet t) = ssrc self
  /\ feeded_sorted (process_rtcp_packet self packet t) = feeded_sorted self
  /\ fs_last_pts (process_rtcp_packet self packet t) = fs_last_pts self
  /\ fs_last_rtp_ext_ts (process_rtcp_packet self packet t)
     = fs_last_rtp_ext_ts self
  /\ (base_initiated self = true ->
      same_base (process_rtcp_packet self packet t) self).
Proof.
  unfold kms_rtp_synchronizer_process_rtcp_packet, same_configuration,
    same_base.
  destruct (rtcp_get_type packet); try (cbn; intuition; fail).
  destruct (base_initiated self) eqn:Hb; cbn [negb];
    match goal with
    | |- context [ext_timestamp ?a ?b] =>
        destruct (ext_timestamp a b) as [stored r]
    end;
    cbn; rewrite ?Hb; intuition congruence.
Qed.

Lemma process_rtcp_buffer_frame (self : KmsRtpSynchronizerPrivate)
    (buffer : GstRTCPBuffer) :
  let self' := fst (fst (process_rtcp_buffer self buffer)) in
  same_configuration self' self
  /\ ssrc self' = ssrc self
  /\ feeded_sorted self' = feeded_sorted self
  /\ fs_last_pts self' = fs_last_pts self
  /\ fs_last_rtp_ext_ts self' = fs_last_rtp_ext_ts self
  /\ (base_initiated self = true -> same_base self' self).
Proof.
  unfold kms_rtp_synchronizer_process_rtcp_buffer.
  destruct (rtcp_maps buffer); cbn [negb];
    [destruct (rtcp_packets buffer) as [| packet rest] |];
    cbn [fst]; try apply process_rtcp_packet_frame;
    unfold same_configuration, same_base; intuition.
Qed.

Lemma set_pt_clock_rate_frame (self : KmsRtpSynchronizerPrivate)
    (pt_ cr : Z) :
  let self' := fst (fst (set_pt_clock_rate self pt_ cr)) in
  same_base self' self
  /\ ssrc self' = ssrc self
  /\ feeded_sorted self' = feeded_sorted self
  /\ fs_last_pts self' = fs_last_pts self
  /\ fs_last_rtp_ext_ts self' = fs_last_rtp_ext_ts self
  /\ (clock_rate self <> 0 -> self' = self).
Proof.
  unfold kms_rtp_synchronizer_set_pt_clock_rate, same_base.
  destruct (cr <=? 0); [cbn; intuition |].
  destruct (Z.eqb_spec (clock_rate self) 0); cbn; intuition.
Qed.

Lemma call_frame (self : KmsRtpSynchronizerPrivate) (c : Call) :
  (base_initiated self = true -> same_base (step self c) self)
  /\ (clock_rate self <> 0 -> same_configuration (step self c) self)
  /\ (ssrc self <> 0 -> ssrc (step self c) = ssrc self)
  /\ (feeded_sorted self = false -> feeded_sorted (step self c) = false).
Proof.
  destruct c as [pt_ cr | buffer | b]; cbn [call].
  - pose proof (set_pt_clock_rate_frame self pt_ cr) as H. cbv zeta in H.
    destruct H as (Hb & Hs & Hf & _ & _ & Hc).
    split; [| split; [| split]]; try (intuition congruence).
    intros Hz. rewrite (Hc Hz). unfold same_configuration. intuition.
  - pose proof (process_rtcp_buffer_frame self buffer) as H. cbv zeta in H.
    intuition congruence.
  - pose proof (process_rtp_frame self b) as H. intuition congruence.
Qed.

Lemma calls_frame (l : list Call) :
  forall self,
    (base_initiated self = true -> same_base (run self l) self)
    /\ (clock_rate self <> 0 -> same_configuration (run self l) self)
    /\ (ssrc self <> 0 -> ssrc (run self l) = ssrc self)
    /\ (feeded_sorted self = false -> feeded_sorted (run self l) = false).
Proof.
  induction l as [| c l IH]; intros self.
  - cbn. unfold_same. intuition.
  - change (run self (c :: l)) with (run (step self c) l).
    destruct (call_frame self c) as (Hb & Hc & Hs & Hf).
    destruct (IH (step self c)) as (IHb & IHc & IHs & IHf).
    unfold_same.
    split; [| split; [| split]].
    + intros H. destruct (Hb H) as (Hb1 & Hb2 & Hb3).
      destruct IHb as (I1 & I2 & I3); [congruence |].
      repeat split; congruence.
    + intros H. destruct (Hc H) as (Hc1 & Hc2).
      destruct IHc as (I1 & I2); [congruence |].
      split; congruence.
    + intros H. specialize (Hs H). rewrite IHs; congruence.
    + intros H. apply IHf, Hf, H.
Qed.

(** *** Configuration *)

(** C9.  [kms_rtp_synchronizer_set_pt_clock_rate] fails with invalid data
    when the clock rate is not positive.  A successful call stores the
    payload type and the clock rate, and after it every further call fails
    with invalid data, whatever its arguments (also the same ones) and
    whatever was processed in between.  A new object accepts a positive
    clock rate. *)
Theorem set_pt_clock_rate_only_once :
  (forall self pt_ cr,
      cr <= 0 ->
      kms_rtp_synchronizer_set_pt_clock_rate self pt_ cr
      = (self, false,
         Some (KMS_RTP_SYNC_INVALID_DATA, MsgClockRateNotAllowed)))
  /\ (forall self pt_ cr self',
        kms_rtp_synchronizer_set_pt_clock_rate self pt_ cr
        = (self', true, None) ->
        pt self' = pt_ /\ clock_rate self' = cr
        /\ forall l pt2 cr2,
            let later := calls ext_timestamp self' l in
            exists msg,
              kms_rtp_synchronizer_set_pt_clock_rate later pt2 cr2
              = (later, false, Some (KMS_RTP_SYNC_INVALID_DATA, msg)))
  /\ (forall sorted pt_ cr,
        0 < cr ->
        let new := kms_rtp_synchronizer_new sorted in
        kms_rtp_synchronizer_set_pt_clock_rate new pt_ cr
        = (set_clock_rate cr (set_pt pt_ new), true, None)).
Proof.
  split; [| split].
  - intros self pt_ cr H. unfold kms_rtp_synchronizer_set_pt_clock_rate.
    destruct (Z.leb_spec cr 0); [reflexivity | lia].
  - intros self pt_ cr self'. unfold kms_rtp_synchronizer_set_pt_clock_rate.
    destruct (Z.leb_spec cr 0) as [Hle | Hgt]; [discriminate |].
    destruct (Z.eqb_spec (clock_rate self) 0) as [H0 | H0];
      cbn [negb]; [| discriminate].
    intros H. injection H as <-. cbn [pt clock_rate set_clock_rate set_pt].
    split; [reflexivity | split; [reflexivity |]].
    intros l pt2 cr2.
    set (configured := set_clock_rate cr (set_pt pt_ self)).
    destruct (calls_frame l configured) as (_ & Hc & _).
    assert (Hcr : clock_rate (run configured l) = cr).
    { destruct Hc as [_ Hc]; [cbn; lia | rewrite Hc; reflexivity]. }
    destruct (Z.leb_spec cr2 0) as [Hle2 | Hgt2].
    + exists MsgClockRateNotAllowed. reflexivity.
    + exists MsgOnlyOnePT. rewrite Hcr.
      destruct (Z.eqb_spec cr 0); [lia | reflexivity].
  - intros sorted pt_ cr H. unfold kms_rtp_synchronizer_set_pt_clock_rate.
    destruct (Z.leb_spec cr 0); [lia | reflexivity].
Qed.

(** *** Sender reports *)

(** C4.  Every sender report feeds its RTP timestamp through the extended
    timestamp, keeps the result in [last_rtcp_ext_ts], and sets
    [last_rtcp_ntp_time] to its NTP timestamp in nanoseconds
    ([ntp * 10^9 / 2^32]); the first one also takes the base from its NTP
    time and the arrival time.  Once [base_initiated] is true, no run of
    calls clears it or rewrites [base_ntp_time] or [base_sync_time]. *)
Theorem sender_report_keeps_base :
  (forall self packet current_time,
      rtcp_get_type packet = GST_RTCP_TYPE_SR ->
      0 <= sr_ntptime packet <= G_MAXUINT64 ->
      let self' :=
        kms_rtp_synchronizer_process_rtcp_packet ext_timestamp self packet
          current_time in
      let e := ext_timestamp (rtp_ext_ts self) (sr_rtptime packet) in
      let ntp_time := sr_ntptime packet * 1000000000 / 2 ^ 32 in
      base_initiated self' = true
      /\ rtp_ext_ts self' = fst e
      /\ last_rtcp_ext_ts self' = snd e
      /\ last_rtcp_ntp_time self' = ntp_time
      /\ (base_initiated self = false ->
          base_ntp_time self' = ntp_time
          /\ base_sync_time self' = current_time)
      /\ (base_initiated self = true ->
          base_ntp_time self' = base_ntp_time self
          /\ base_sync_time self' = base_sync_time self))
  /\ (forall self l,
        base_initiated self = true ->
        base_initiated (calls ext_timestamp self l) = true
        /\ base_ntp_time (calls ext_timestamp self l) = base_ntp_time self
        /\ base_sync_time (calls ext_timestamp self l) = base_sync_time self).
Proof.
  split.
  - intros self packet current_time Hsr Hntp.
    assert (Hscale : gst_util_uint64_scale (sr_ntptime packet) GST_SECOND
                       (2 ^ 32)
                     = sr_ntptime packet * 1000000000 / 2 ^ 32).
    { unfold gst_util_uint64_scale.
      change GST_SECOND with 1000000000.
      destruct (Z.gtb_spec (sr_ntptime packet * 1000000000 / 2 ^ 32)
                  G_MAXUINT64) as [Hbig | _]; [| reflexivity].
      exfalso. revert Hbig. word_lia. }
    unfold kms_rtp_synchronizer_process_rtcp_packet. rewrite Hsr, Hscale.
    destruct (base_initiated self) eqn:Hb;
      cbn [negb rtp_ext_ts set_base_sync_time set_base_ntp_time
           set_base_initiated];
      destruct (ext_timestamp (rtp_ext_ts self) (sr_rtptime packet))
        as [stored r];
      cbn; rewrite ?Hb; repeat split; congruence.
  - intros self l Hb.
    destruct (calls_frame l self) as (H & _). specialize (H Hb).
    unfold_same. intuition congruence.
Qed.

(** *** Rejected buffers *)

(** C8, as the code has it.  The stored SSRC 0 means that none has been
    learned: a call on an object whose SSRC is 0 stores the SSRC of the
    buffer (also when the buffer is then rejected for its payload type).  A
    stored SSRC other than 0 is never replaced by any run of calls, and
    every RTP buffer with another SSRC fails with invalid data and leaves
    the object and the PTS of the buffer as they are. *)
Theorem ssrc_learned_once :
  (forall self b,
      ssrc self = 0 ->
      ssrc (res_self (kms_rtp_synchronizer_process_rtp_buffer_mapped
                        ext_timestamp self b))
      = rtp_get_ssrc b)
  /\ (forall self l,
        ssrc self <> 0 -> ssrc (calls ext_timestamp self l) = ssrc self)
  /\ (forall self b,
        ssrc self <> 0 -> rtp_get_ssrc b <> ssrc self ->
        kms_rtp_synchronizer_process_rtp_buffer_mapped ext_timestamp self b
        = mkRes self (GST_BUFFER_PTS b) false
            (Some (KMS_RTP_SYNC_INVALID_DATA, MsgInvalidSSRC)) None).
Proof.
  split; [| split].
  - intros self b H0.
    destruct (learn_ssrc_frame self b) as (_ & _ & _ & Hl).
    destruct (rejected_or_passes self b) as [Hr | Ha].
    + destruct (process_rtp_rejected self b Hr) as (msg & _ & ->).
      destruct (Z.eqb_spec (ssrc self) 0); [| contradiction].
      cbn [invalid_data res_self]. auto.
    + rewrite (process_rtp_accepted self b Ha).
      destruct (accepted_frame (learn_ssrc self b) b) as (_ & _ & _ & Hs & _).
      rewrite Hs. auto.
  - intros self l H. apply (calls_frame l self). exact H.
  - intros self b H0 Hs.
    unfold kms_rtp_synchronizer_process_rtp_buffer_mapped.
    destruct (Z.eqb_spec (ssrc self) 0); [contradiction |].
    destruct (Z.eqb_spec (rtp_get_ssrc b) (ssrc self)); [contradiction |].
    reflexivity.
Qed.

(** C10.  A buffer rejected for its SSRC, its payload type or the clock
    rate makes the call fail with invalid data before the extended timestamp
    is advanced: the PTS of the buffer, [rtp_ext_ts], the base, the
    interpolation anchor, the last sender report and the state of the sorted
    mode are the ones before the call, and no row is written.  No other
    buffer fails with one of these three messages. *)
Theorem rejection_changes_nothing :
  forall self b,
    let r :=
      kms_rtp_synchronizer_process_rtp_buffer_mapped ext_timestamp self b in
    (rejected self b ->
     res_ret r = false
     /\ (exists msg,
            msg <> MsgUnsorted
            /\ res_error r = Some (KMS_RTP_SYNC_INVALID_DATA, msg))
     /\ res_pts r = GST_BUFFER_PTS b
     /\ res_stats r = None
     /\ same_tracking (res_self r) self
     /\ same_configuration (res_self r) self)
    /\ (forall msg,
          res_error r = Some (KMS_RTP_SYNC_INVALID_DATA, msg) ->
          msg <> MsgUnsorted -> rejected self b).
Proof.
  intros self b r. subst r. split.
  - intros Hr.
    destruct (process_rtp_rejected self b Hr) as (msg & Hm & ->).
    destruct (learn_ssrc_frame self b) as (Hc & Ht & _).
    cbn [invalid_data res_ret res_error res_pts res_stats res_self].
    split; [reflexivity |].
    split; [exists msg; split; [exact Hm | reflexivity] |].
    split; [reflexivity |]. split; [reflexivity |].
    destruct (ssrc self =? 0);
      [| destruct (rtp_get_ssrc b =? ssrc self)];
      try (split; assumption).
    unfold_same. intuition.
  - intros msg He Hm.
    destruct (rejected_or_passes self b) as [Hr | Ha]; [exact Hr |].
    exfalso. rewrite (process_rtp_accepted self b Ha) in He.
    unfold accepted in He.
    destruct (sorted_check _ _); cbn [res_error] in He; congruence.
Qed.

(** *** The sorted mode *)

Lemma sorted_check_regressed (self : KmsRtpSynchronizerPrivate) (r : Z) :
  feeded_sorted self = true ->
  fs_last_rtp_ext_ts self <> GST_CLOCK_TIME_NONE ->
  r < fs_last_rtp_ext_ts self ->
  sorted_check self r = Regressed.
Proof.
  intros Hs Hv Hlt. unfold sorted_check, GST_CLOCK_TIME_IS_VALID.
  rewrite Hs.
  destruct (Z.eqb_spec (fs_last_rtp_ext_ts self) GST_CLOCK_TIME_NONE);
    [contradiction |].
  destruct (Z.ltb_spec r (fs_last_rtp_ext_ts self)); [reflexivity | lia].
Qed.

Lemma sorted_check_duplicate (self : KmsRtpSynchronizerPrivate) (r : Z) :
  feeded_sorted self = true ->
  r = fs_last_rtp_ext_ts self ->
  sorted_check self r = Duplicate.
Proof.
  intros Hs ->. unfold sorted_check. rewrite Hs, Z.ltb_irrefl, Z.eqb_refl.
  rewrite andb_false_r. reflexivity.
Qed.

Lemma sorted_check_duplicate_inv (self : KmsRtpSynchronizerPrivate) (r : Z) :
  sorted_check self r = Duplicate ->
  r = fs_last_rtp_ext_ts self /\ feeded_sorted self = true.
Proof.
  unfold sorted_check.
  destruct (feeded_sorted self); [| discriminate].
  destruct (GST_CLOCK_TIME_IS_VALID (fs_last_rtp_ext_ts self)
            && (r <? fs_last_rtp_ext_ts self)); [discriminate |].
  destruct (Z.eqb_spec r (fs_last_rtp_ext_ts self)); [auto | discriminate].
Qed.

Lemma sorted_check_unsorted (self : KmsRtpSynchronizerPrivate) (r : Z) :
  feeded_sorted self = false -> sorted_check self r = Proceed.
Proof. intros Hs. unfold sorted_check. rewrite Hs. reflexivity. Qed.

(** With the sorted mode off, the second sorted block does nothing. *)
Lemma sorted_fix_unsorted (self : KmsRtpSynchronizerPrivate) (p r : Z) :
  feeded_sorted self = false -> sorted_fix self p r = (self, p).
Proof. intros Hs. unfold sorted_fix. rewrite Hs. reflexivity. Qed.

(** C6.  In sorted mode, a buffer that passes the checks and whose extended
    timestamp is below the recorded [fs_last_rtp_ext_ts] makes the call
    return FALSE with invalid data and clear [feeded_sorted]; the object,
    the PTS of the buffer and the row are the ones of the same call on the
    object in unsorted mode, which succeeds.  The PTS written to the buffer,
    which the row shows, is the one computed for the packet, without the
    raise to [fs_last_pts] of the sorted mode: with an anchor and no sender
    report, [base_interpolate_pts] plus the signed time between the anchor
    and the packet, saturated; after a sender report, [base_sync_time] plus
    the NTP offset plus the signed time between the last sender report and
    the packet, saturated, whenever that exact integer is neither -1 nor
    2^64; with neither base nor anchor, the PTS of the buffer on entry,
    which becomes the anchor with the extended timestamp of the packet.
    No run of calls sets [feeded_sorted] again. *)
Theorem regression_leaves_sorted_mode :
  (forall self b,
      passes_checks self b ->
      feeded_sorted self = true ->
      fs_last_rtp_ext_ts self <> GST_CLOCK_TIME_NONE ->
      snd (ext_timestamp (rtp_ext_ts self) (rtp_get_timestamp b))
        < fs_last_rtp_ext_ts self ->
      let e := ext_timestamp (rtp_ext_ts self) (rtp_get_timestamp b) in
      let r :=
        kms_rtp_synchronizer_process_rtp_buffer_mapped ext_timestamp self b in
      let u :=
        kms_rtp_synchronizer_process_rtp_buffer_mapped ext_timestamp
          (set_feeded_sorted false self) b in
      res_ret r = false
      /\ res_error r = Some (KMS_RTP_SYNC_INVALID_DATA, MsgUnsorted)
      /\ feeded_sorted (res_self r) = false
      /\ res_ret u = true /\ res_error u = None
      /\ res_self r = res_self u
      /\ res_pts r = res_pts u
      /\ res_stats r = res_stats u
      /\ res_stats r <> None
      /\ (exists row,
             res_stats r = Some row
             /\ stats_pts row = res_pts r
             /\ stats_pts_orig row = GST_BUFFER_PTS b
             /\ stats_rtp_ext_ts row = snd e)
      /\ rtp_ext_ts (res_self r) = fst e
      /\ fs_last_rtp_ext_ts (res_self r) = fs_last_rtp_ext_ts self
      /\ fs_last_pts (res_self r) = fs_last_pts self
      /\ (base_initiated self = false ->
          base_interpolate_initiated self = true ->
          0 <= base_interpolate_pts self <= G_MAXUINT64 ->
          res_pts r
          = saturate (exact_interpolated_pts (set_rtp_ext_ts (fst e) self)))
      /\ (base_initiated self = true ->
          0 <= base_sync_time self <= G_MAXUINT64 ->
          0 <= base_ntp_time self <= G_MAXUINT64 ->
          0 <= last_rtcp_ntp_time self <= G_MAXUINT64 ->
          exact_synchronized_pts (set_rtp_ext_ts (fst e) self) <> -1 ->
          exact_synchronized_pts (set_rtp_ext_ts (fst e) self) <> 2 ^ 64 ->
          res_pts r
          = saturate (exact_synchronized_pts (set_rtp_ext_ts (fst e) self)))
      /\ (base_initiated self = false ->
          base_interpolate_initiated self = false ->
          res_pts r = GST_BUFFER_PTS b
          /\ base_interpolate_initiated (res_self r) = true
          /\ base_interpolate_ext_ts (res_self r) = snd e
          /\ base_interpolate_pts (res_self r) = GST_BUFFER_PTS b))
  /\ (forall self l,
        feeded_sorted self = false ->
        feeded_sorted (calls ext_timestamp self l) = false).
Proof.
  split.
  - intros self b Ha Hs Hv Hlt e r u. subst r u.
    assert (Ha' : passes_checks (set_feeded_sorted false self) b) by exact Ha.
    rewrite (process_rtp_accepted self b Ha).
    rewrite (process_rtp_accepted _ b Ha').
    assert (Hl : learn_ssrc (set_feeded_sorted false self) b
                 = set_feeded_sorted false (learn_ssrc self b)).
    { unfold learn_ssrc. cbn [ssrc set_feeded_sorted].
      destruct (ssrc self =? 0); reflexivity. }
    rewrite Hl. clear Hl Ha'.
    destruct (learn_ssrc_frame self b) as (Hcf & Ht & _).
    unfold same_tracking, same_configuration, same_base, same_last_rtcp
      in Ht, Hcf.
    destruct Hcf as (_ & Hcr).
    destruct Ht as (Hx & (Hbi & Hbn & Hbs) & Hii & Hie & Hip & (Hle & Hln)
                    & Hfr & Hfp & Hfs).
    destruct Ha as (_ & _ & Hpos).
    set (l := learn_ssrc self b) in *.
    unfold accepted. cbn [rtp_ext_ts set_feeded_sorted].
    rewrite Hx. fold e.
    rewrite (sorted_check_regressed (set_rtp_ext_ts (fst e) l) (snd e));
      [| cbn; congruence
       | cbn [fs_last_rtp_ext_ts set_rtp_ext_ts]; rewrite Hfr; exact Hv
       | cbn [fs_last_rtp_ext_ts set_rtp_ext_ts]; rewrite Hfr; exact Hlt].
    rewrite (sorted_check_unsorted
               (set_rtp_ext_ts (fst e) (set_feeded_sorted false l)))
      by reflexivity.
    change (set_feeded_sorted false (set_rtp_ext_ts (fst e) l))
      with (set_rtp_ext_ts (fst e) (set_feeded_sorted false l)).
    set (self2 := set_rtp_ext_ts (fst e) (set_feeded_sorted false l)).
    destruct (compute_pts_frame self2 (GST_BUFFER_PTS b) (snd e))
      as (_ & _ & _ & Hc & _ & Hcx & Hcr' & Hcp).
    pose proof (compute_pts_anchor self2 (GST_BUFFER_PTS b) (snd e))
      as (_ & Hanchor).
    assert (Hint : exact_interpolated_pts self2
                   = exact_interpolated_pts (set_rtp_ext_ts (fst e) self)).
    { unfold exact_interpolated_pts. subst self2.
      cbn [base_interpolate_pts base_interpolate_ext_ts clock_rate
           rtp_ext_ts set_rtp_ext_ts set_feeded_sorted].
      rewrite Hie, Hip, Hcr. reflexivity. }
    assert (Hsyn : exact_synchronized_pts self2
                   = exact_synchronized_pts (set_rtp_ext_ts (fst e) self)).
    { unfold exact_synchronized_pts, diff_rtp_time. subst self2.
      cbn [base_sync_time base_ntp_time last_rtcp_ntp_time last_rtcp_ext_ts
           clock_rate rtp_ext_ts set_rtp_ext_ts set_feeded_sorted].
      rewrite Hbs, Hbn, Hln, Hle, Hcr. reflexivity. }
    assert (H2b : base_initiated self2 = base_initiated self)
      by exact Hbi.
    assert (H2i : base_interpolate_initiated self2
                  = base_interpolate_initiated self) by exact Hii.
    pose proof (interpolated_pts_saturates self2 (GST_BUFFER_PTS b) (snd e))
      as Hinterpolated.
    pose proof (synchronized_pts_saturates self2 (GST_BUFFER_PTS b) (snd e))
      as Hsynchronized.
    rewrite Hint in Hinterpolated. rewrite Hsyn in Hsynchronized.
    rewrite H2b in Hinterpolated, Hsynchronized, Hanchor.
    rewrite H2i in Hinterpolated, Hanchor.
    change (base_interpolate_pts self2) with (base_interpolate_pts l)
      in Hinterpolated.
    change (clock_rate self2) with (clock_rate l)
      in Hinterpolated, Hsynchronized.
    change (base_sync_time self2) with (base_sync_time l) in Hsynchronized.
    change (base_ntp_time self2) with (base_ntp_time l) in Hsynchronized.
    change (last_rtcp_ntp_time self2) with (last_rtcp_ntp_time l)
      in Hsynchronized.
    rewrite Hcr in Hinterpolated, Hsynchronized.
    rewrite Hip in Hinterpolated. rewrite Hbs, Hbn, Hln in Hsynchronized.
    change (feeded_sorted self2) with false in Hc.
    change (rtp_ext_ts self2) with (fst e) in Hcx.
    change (fs_last_rtp_ext_ts self2) with (fs_last_rtp_ext_ts l) in Hcr'.
    change (fs_last_pts self2) with (fs_last_pts l) in Hcp.
    set (c := compute_pts self2 (GST_BUFFER_PTS b) (snd e)) in *.
    rewrite (sorted_fix_unsorted (fst c) (snd c) (snd e) Hc).
    cbn [fst snd res_ret res_error res_self res_pts res_stats].
    split; [reflexivity |]. split; [reflexivity |]. split; [exact Hc |].
    split; [reflexivity |]. split; [reflexivity |]. split; [reflexivity |].
    split; [reflexivity |]. split; [reflexivity |]. split; [discriminate |].
    split; [eexists; split; [reflexivity | repeat split] |].
    split; [exact Hcx |].
    split; [rewrite Hcr'; exact Hfr |].
    split; [rewrite Hcp; exact Hfp |].
    split; [| split].
    + intros Hb Hi Hp. apply Hinterpolated; assumption.
    + intros Hb H1 H2 H3 H4 H5. apply Hsynchronized; assumption.
    + intros Hb Hi. destruct (Hanchor Hb Hi) as (A1 & A2 & A3 & A4).
      split; [exact A4 | split; [exact A1 | split; [exact A2 | exact A3]]].
  - intros self l H. apply (calls_frame l self). exact H.
Qed.

(** C7.  In sorted mode, a buffer that passes the checks and whose extended
    timestamp equals [fs_last_rtp_ext_ts], while [fs_last_pts] is set, gets
    [fs_last_pts] as its PTS; the call succeeds and computes nothing: apart
    from the SSRC and the extended timestamp the object is left as it was.
    [fs_last_pts] is the PTS given to the preceding buffer: when the
    preceding successful call in sorted mode left [fs_last_pts] set, a
    buffer with the same extended timestamp gets the same PTS. *)
Theorem duplicate_timestamp_repeats_pts :
  (forall self b,
      passes_checks self b ->
      feeded_sorted self = true ->
      snd (ext_timestamp (rtp_ext_ts self) (rtp_get_timestamp b))
        = fs_last_rtp_ext_ts self ->
      fs_last_pts self <> GST_CLOCK_TIME_NONE ->
      let r :=
        kms_rtp_synchronizer_process_rtp_buffer_mapped ext_timestamp self b in
      res_pts r = fs_last_pts self
      /\ res_ret r = true /\ res_error r = None
      /\ res_self r
         = set_rtp_ext_ts
             (fst (ext_timestamp (rtp_ext_ts self) (rtp_get_timestamp b)))
             (learn_ssrc self b))
  /\ (forall self b1 b2,
        let r1 :=
          kms_rtp_synchronizer_process_rtp_buffer_mapped ext_timestamp self
            b1 in
        let r2 :=
          kms_rtp_synchronizer_process_rtp_buffer_mapped ext_timestamp
            (res_self r1) b2 in
        feeded_sorted self = true ->
        res_ret r1 = true ->
        fs_last_pts (res_self r1) <> GST_CLOCK_TIME_NONE ->
        passes_checks (res_self r1) b2 ->
        snd (ext_timestamp (rtp_ext_ts (res_self r1)) (rtp_get_timestamp b2))
          = snd (ext_timestamp (rtp_ext_ts self) (rtp_get_timestamp b1)) ->
        res_pts r2 = res_pts r1 /\ res_ret r2 = true).
Proof.
  assert (Hone : forall self b,
      passes_checks self b ->
      feeded_sorted self = true ->
      snd (ext_timestamp (rtp_ext_ts self) (rtp_get_timestamp b))
        = fs_last_rtp_ext_ts self ->
      fs_last_pts self <> GST_CLOCK_TIME_NONE ->
      let r := process_rtp self b in
      res_pts r = fs_last_pts self
      /\ res_ret r = true /\ res_error r = None
      /\ res_self r
         = set_rtp_ext_ts
             (fst (ext_timestamp (rtp_ext_ts self) (rtp_get_timestamp b)))
             (learn_ssrc self b)).
  { intros self b Ha Hs He Hv r. subst r.
    rewrite (process_rtp_accepted self b Ha).
    destruct (learn_ssrc_frame self b) as (_ & Ht & _).
    unfold same_tracking in Ht.
    destruct Ht as (Hx & _ & _ & _ & _ & _ & Hfr & Hfp & Hfs).
    set (l := learn_ssrc self b) in *.
    unfold accepted. rewrite Hx.
    set (e := ext_timestamp (rtp_ext_ts self) (rtp_get_timestamp b)) in *.
    rewrite (sorted_check_duplicate (set_rtp_ext_ts (fst e) l) (snd e));
      [| cbn; congruence | cbn; congruence].
    cbn [res_pts res_ret res_error res_self fs_last_pts set_rtp_ext_ts].
    rewrite Hfp. unfold GST_CLOCK_TIME_IS_VALID.
    destruct (Z.eqb_spec (fs_last_pts self) GST_CLOCK_TIME_NONE);
      [contradiction |].
    cbn [negb]. repeat split. }
  split; [exact Hone |].
  intros self b1 b2 r1 r2 Hs Hret Hv Ha2 He. subst r2.
  assert (Ha1 : passes_checks self b1).
  { destruct (rejected_or_passes self b1) as [Hr | Ha]; [| exact Ha].
    destruct (process_rtp_rejected self b1 Hr) as (msg & _ & Hp).
    subst r1. rewrite Hp in Hret. discriminate. }
  revert Hret Hv Ha2 He. subst r1.
  rewrite (process_rtp_accepted self b1 Ha1).
  destruct (learn_ssrc_frame self b1) as (_ & Ht & _).
  unfold same_tracking in Ht.
  destruct Ht as (Hx & _ & _ & _ & _ & _ & Hfr & Hfp & Hfs).
  set (l := learn_ssrc self b1) in *.
  assert (Hsl : feeded_sorted l = true) by congruence.
  rewrite <- Hx. clearbody l. clear Ha1.
  set (e := ext_timestamp (rtp_ext_ts l) (rtp_get_timestamp b1)).
  intros Hret Hv Ha2 He.
  set (s1 := res_self (accepted ext_timestamp l b1)) in *.
  assert (Hrec : feeded_sorted s1 = true
                 /\ fs_last_rtp_ext_ts s1 = snd e
                 /\ fs_last_pts s1 = res_pts (accepted ext_timestamp l b1)).
  { revert Hret Hv. subst s1. unfold accepted. fold e.
    set (self1 := set_rtp_ext_ts (fst e) l).
    pose proof (sorted_check_duplicate_inv self1 (snd e)) as Hd.
    destruct (sorted_check self1 (snd e)); cbn [res_ret res_self res_pts].
    - intros _ _.
      destruct (compute_pts_frame self1 (GST_BUFFER_PTS b1) (snd e))
        as (_ & _ & _ & Hc & _).
      set (c := compute_pts self1 (GST_BUFFER_PTS b1) (snd e)) in *.
      unfold sorted_fix. rewrite Hc.
      change (feeded_sorted self1) with (feeded_sorted l).
      rewrite Hsl. cbn. repeat split. rewrite Hc. exact Hsl.
    - discriminate.
    - intros _ Hv. destruct Hd as (Hd & _); [reflexivity |].
      revert Hv. unfold GST_CLOCK_TIME_IS_VALID.
      change (fs_last_pts self1) with (fs_last_pts l).
      destruct (Z.eqb_spec (fs_last_pts l) GST_CLOCK_TIME_NONE);
        [contradiction |].
      intros _. cbn [negb]. repeat split; [exact Hsl | symmetry; exact Hd]. }
  destruct Hrec as (H1 & H2 & H3).
  destruct (Hone s1 b2 Ha2 H1) as (Hp & Hr & _); [congruence | exact Hv |].
  rewrite Hp, H3. split; [reflexivity | exact Hr].
Qed.

(** *** Interpolation *)

(** The PTS given to a packet in the interpolation regime, once the anchor
    has been taken. *)
Lemma interpolation_emits (self : KmsRtpSynchronizerPrivate)
    (b : GstRTPBuffer) :
  passes_checks self b ->
  base_initiated self = false ->
  base_interpolate_initiated self = true ->
  0 <= base_interpolate_pts self <= G_MAXUINT64 ->
  let e := ext_timestamp (rtp_ext_ts self) (rtp_get_timestamp b) in
  let computed :=
    saturate (exact_interpolated_pts (set_rtp_ext_ts (fst e) self)) in
  let r := process_rtp self b in
  (feeded_sorted (res_self r) = false -> res_pts r = computed)
  /\ (feeded_sorted (res_self r) = true ->
      snd e <> fs_last_rtp_ext_ts self ->
      res_pts r
      = if GST_CLOCK_TIME_IS_VALID (fs_last_pts self)
           && (computed <? fs_last_pts self)
        then fs_last_pts self else computed).
Proof.
  intros Ha Hb Hi Hp e computed r. subst r.
  rewrite (process_rtp_accepted self b Ha).
  destruct (learn_ssrc_frame self b) as (Hcf & Ht & _).
  unfold same_tracking, same_configuration, same_base in Ht, Hcf.
  destruct Hcf as (_ & Hcr).
  destruct Ht as (Hx & (Hbi & _) & Hii & Hie & Hip & _ & Hfr & Hfp & Hfs).
  set (l := learn_ssrc self b) in *.
  unfold accepted. rewrite Hx. fold e.
  set (self1 := set_rtp_ext_ts (fst e) l).
  assert (Hexact : forall s,
             base_interpolate_pts s = base_interpolate_pts self ->
             base_interpolate_ext_ts s = base_interpolate_ext_ts self ->
             clock_rate s = clock_rate self ->
             rtp_ext_ts s = fst e ->
             saturate (exact_interpolated_pts s) = computed).
  { intros s H1 H2 H3 H4. subst computed.
    unfold exact_interpolated_pts. rewrite H1, H2, H3, H4. reflexivity. }
  destruct Ha as (_ & _ & Hpos).
  assert (Hcomp : forall s,
             s = self1 \/ s = set_feeded_sorted false self1 ->
             snd (compute_pts s (GST_BUFFER_PTS b) (snd e)) = computed).
  { intros s Hs.
    rewrite interpolated_pts_saturates;
      [apply Hexact | | | |];
      destruct Hs; subst s self1;
      cbn [base_initiated base_interpolate_initiated base_interpolate_pts
           base_interpolate_ext_ts clock_rate rtp_ext_ts set_rtp_ext_ts
           set_feeded_sorted];
      rewrite ?Hbi, ?Hii, ?Hie, ?Hip, ?Hcr; auto. }
  pose proof (sorted_check_duplicate_inv self1 (snd e)) as Hdup.
  destruct (sorted_check self1 (snd e)) eqn:Hcheck;
    cbn [res_self res_pts].
  - destruct (compute_pts_frame self1 (GST_BUFFER_PTS b) (snd e))
      as (_ & _ & _ & Hc & _ & _ & _ & Hcp).
    change (feeded_sorted self1) with (feeded_sorted l) in Hc.
    change (fs_last_pts self1) with (fs_last_pts l) in Hcp.
    rewrite Hfp in Hcp.
    assert (Hsc : snd (compute_pts self1 (GST_BUFFER_PTS b) (snd e))
                  = computed) by (apply Hcomp; left; reflexivity).
    set (c := compute_pts self1 (GST_BUFFER_PTS b) (snd e)) in *.
    unfold sorted_fix. rewrite Hc, Hcp, Hsc.
    destruct (feeded_sorted l) eqn:Hl;
      cbn [fst snd feeded_sorted set_fs_last_pts set_fs_last_rtp_ext_ts];
      rewrite Hc;
      (split; [intros H; try discriminate H | intros H _; try discriminate H]);
      reflexivity.
  - set (self2 := set_feeded_sorted false self1).
    destruct (compute_pts_frame self2 (GST_BUFFER_PTS b) (snd e))
      as (_ & _ & _ & Hc & _).
    unfold sorted_fix. rewrite Hc. cbn [feeded_sorted set_feeded_sorted self2].
    cbn [fst snd]. rewrite Hc.
    cbn [feeded_sorted set_feeded_sorted].
    split; [intros _; apply Hcomp; right; reflexivity | discriminate].
  - destruct Hdup as (Hd1 & Hd2); [reflexivity |].
    change (feeded_sorted self1) with (feeded_sorted l).
    change (feeded_sorted self1) with (feeded_sorted l) in Hd2.
    change (fs_last_rtp_ext_ts self1) with (fs_last_rtp_ext_ts l) in Hd1.
    split; intros; [congruence | exfalso; congruence].
Qed.

(** *** Monotonic PTS in sorted mode *)

Lemma rows_unsorted (l : list Call) :
  forall self, feeded_sorted self = false -> rows self l = [].
Proof.
  induction l as [| c l IH]; intros self Hs; [reflexivity |].
  cbn [sorted_rows]. rewrite IH by (apply (call_frame self c); exact Hs).
  rewrite Hs. cbn [andb].
  destruct c; try reflexivity.
  destruct (res_stats _); reflexivity.
Qed.

Lemma quiet_recorded (self self' : KmsRtpSynchronizerPrivate) :
  quiet self self' ->
  nothing_recorded_together self -> nothing_recorded_together self'.
Proof.
  unfold quiet, nothing_recorded_together. intros (H1 & H2 & H3) H.
  rewrite H1, H2, H3. exact H.
Qed.

(** One RTP call in sorted mode. *)
Lemma rtp_sorted_step (self : KmsRtpSynchronizerPrivate) (b : GstRTPBuffer) :
  nothing_recorded_together self ->
  feeded_sorted self = true ->
  let r := process_rtp self b in
  match res_stats r with
  | Some row =>
      if res_ret r then
        stats_pts row = res_pts r
        /\ (valid_row row ->
            feeded_sorted (res_self r) = true
            /\ fs_last_pts (res_self r) = res_pts r
            /\ (fs_last_pts self <> GST_CLOCK_TIME_NONE ->
                fs_last_pts self <= res_pts r))
      else feeded_sorted (res_self r) = false
  | None => quiet self (res_self r)
  end.
Proof.
  intros HK Hs r. subst r.
  destruct (learn_ssrc_frame self b) as (_ & Ht & _).
  unfold same_tracking in Ht.
  destruct Ht as (_ & _ & _ & _ & _ & _ & Hfr & Hfp & Hfs).
  destruct (rejected_or_passes self b) as [Hr | Ha].
  - destruct (process_rtp_rejected self b Hr) as (msg & _ & ->).
    cbn [invalid_data res_stats res_self]. unfold quiet.
    destruct (ssrc self =? 0);
      [| destruct (rtp_get_ssrc b =? ssrc self)]; auto.
  - rewrite (process_rtp_accepted self b Ha).
    set (l := learn_ssrc self b) in *.
    assert (Hsl : feeded_sorted l = true) by congruence.
    unfold accepted.
    set (e := ext_timestamp (rtp_ext_ts l) (rtp_get_timestamp b)).
    set (self1 := set_rtp_ext_ts (fst e) l).
    pose proof (sorted_check_duplicate_inv self1 (snd e)) as Hdup.
    destruct (sorted_check self1 (snd e));
      cbn [res_stats res_ret res_self res_pts].
    + destruct (compute_pts_frame self1 (GST_BUFFER_PTS b) (snd e))
        as (_ & _ & _ & Hc & _ & _ & _ & Hcp).
      change (feeded_sorted self1) with (feeded_sorted l) in Hc.
      change (fs_last_pts self1) with (fs_last_pts l) in Hcp.
      rewrite Hfp in Hcp. rewrite Hsl in Hc.
      set (c := compute_pts self1 (GST_BUFFER_PTS b) (snd e)) in *.
      unfold sorted_fix. rewrite Hc, Hcp.
      cbn [fst snd end_stats stats_pts feeded_sorted fs_last_pts
           set_fs_last_pts set_fs_last_rtp_ext_ts].
      split; [reflexivity |]. intros _.
      split; [exact Hc |]. split; [reflexivity |].
      intros Hv. unfold GST_CLOCK_TIME_IS_VALID.
      destruct (Z.eqb_spec (fs_last_pts self) GST_CLOCK_TIME_NONE);
        [contradiction |].
      cbn [negb andb].
      destruct (Z.ltb_spec (snd c) (fs_last_pts self)); lia.
    + set (self2 := set_feeded_sorted false self1).
      destruct (compute_pts_frame self2 (GST_BUFFER_PTS b) (snd e))
        as (_ & _ & _ & Hc & _).
      destruct (sorted_fix_frame
                  (fst (compute_pts self2 (GST_BUFFER_PTS b) (snd e)))
                  (snd (compute_pts self2 (GST_BUFFER_PTS b) (snd e)))
                  (snd e)) as (_ & _ & _ & Hf & _).
      rewrite Hf, Hc. reflexivity.
    + destruct Hdup as (Hd & _); [reflexivity |].
      change (fs_last_rtp_ext_ts self1) with (fs_last_rtp_ext_ts l) in Hd.
      change (fs_last_pts self1) with (fs_last_pts l).
      change (feeded_sorted self1) with (feeded_sorted l).
      rewrite Hfp.
      cbn [end_stats stats_pts]. split; [reflexivity |].
      unfold valid_row. cbn [stats_rtp_ext_ts stats_pts].
      intros (_ & He).
      assert (Hset : fs_last_pts self <> GST_CLOCK_TIME_NONE).
      { intros Hnone. apply He. rewrite Hd, Hfr. apply HK; assumption. }
      unfold GST_CLOCK_TIME_IS_VALID.
      destruct (Z.eqb_spec (fs_last_pts self) GST_CLOCK_TIME_NONE);
        [contradiction |].
      cbn [negb]. repeat split; [exact Hsl | lia].
Qed.

Lemma quiet_call (self : KmsRtpSynchronizerPrivate) (c : Call) :
  match c with ProcessRtp _ => False | _ => True end ->
  quiet self (step self c).
Proof.
  unfold quiet. destruct c as [pt_ cr | buffer | b]; intros H;
    [| | contradiction]; cbn [call].
  - pose proof (set_pt_clock_rate_frame self pt_ cr) as Hf. cbv zeta in Hf.
    intuition.
  - pose proof (process_rtcp_buffer_frame self buffer) as Hf.
    cbv zeta in Hf. intuition.
Qed.

Lemma rows_quiet (self : KmsRtpSynchronizerPrivate) (c : Call)
    (l : list Call) :
  rows self (c :: l) = rows (step self c) l ->
  quiet self (step self c) ->
  (nothing_recorded_together (step self c) ->
   Forall valid_row (rows (step self c) l) ->
   Sorted Z.le (map stats_pts (rows (step self c) l))
   /\ (feeded_sorted (step self c) = true ->
       fs_last_pts (step self c) <> GST_CLOCK_TIME_NONE ->
       HdRel Z.le (fs_last_pts (step self c))
         (map stats_pts (rows (step self c) l)))) ->
  nothing_recorded_together self ->
  Forall valid_row (rows self (c :: l)) ->
  Sorted Z.le (map stats_pts (rows self (c :: l)))
  /\ (feeded_sorted self = true ->
      fs_last_pts self <> GST_CLOCK_TIME_NONE ->
      HdRel Z.le (fs_last_pts self) (map stats_pts (rows self (c :: l)))).
Proof.
  intros Heq Hq IH HK Hv. rewrite Heq in *.
  destruct (IH (quiet_recorded _ _ Hq HK) Hv) as (IH1 & IH2).
  destruct Hq as (Q1 & Q2 & Q3). rewrite Q1, Q2 in IH2.
  split; assumption.
Qed.

Lemma rows_monotone (l : list Call) :
  forall self,
    nothing_recorded_together self ->
    Forall valid_row (rows self l) ->
    Sorted Z.le (map stats_pts (rows self l))
    /\ (feeded_sorted self = true ->
        fs_last_pts self <> GST_CLOCK_TIME_NONE ->
        HdRel Z.le (fs_last_pts self) (map stats_pts (rows self l))).
Proof.
  induction l as [| c l IH]; intros self HK Hv.
  - cbn. split; constructor.
  - destruct (Bool.bool_dec (feeded_sorted self) true) as [Hs | Hs].
    2:{ apply not_true_is_false in Hs.
        rewrite rows_unsorted by exact Hs. cbn.
        split; [constructor | intros; constructor]. }
    destruct c as [pt_ cr | buffer | b].
    + apply rows_quiet; auto using quiet_call.
    + apply rows_quiet; auto using quiet_call.
    + pose proof (rtp_sorted_step self b HK Hs) as Hstep. cbv zeta in Hstep.
      revert Hv. cbn [sorted_rows]. rewrite Hs. cbn [andb].
      change (call ext_timestamp self (ProcessRtp b))
        with (res_self (process_rtp self b)).
      destruct (res_stats (process_rtp self b)) as [row |].
      * destruct (res_ret (process_rtp self b)).
        -- cbn [app map]. intros Hv.
           inversion Hv as [| ? ? Hrow Hrest]; subst.
           destruct Hstep as (Hpts & Hstep).
           destruct (Hstep Hrow) as (Hs' & Hlast & Hle).
           destruct Hrow as (Hvp & _).
           destruct (IH (res_self (process_rtp self b))) as (IH1 & IH2);
             [intros _ Hnone; exfalso; congruence | exact Hrest |].
           rewrite Hpts. split.
           ++ constructor; [exact IH1 |].
              rewrite <- Hlast. apply IH2; [exact Hs' | congruence].
           ++ intros _ Hset. constructor. apply Hle. exact Hset.
        -- cbn [app]. intros _.
           rewrite rows_unsorted by exact Hstep. cbn.
           split; [constructor | intros; constructor].
      * cbn [app]. intros Hv.
        destruct (IH (res_self (process_rtp self b))) as (IH1 & IH2);
          [exact (quiet_recorded _ _ Hstep HK) | exact Hv |].
        destruct Hstep as (Q1 & Q2 & Q3). rewrite Q1, Q2 in IH2.
        split; [exact IH1 |]. intros H1 H2. apply IH2; congruence.
Qed.

Lemma sorted_check_proceed (self : KmsRtpSynchronizerPrivate) (r : Z) :
  fs_last_rtp_ext_ts self < r -> sorted_check self r = Proceed.
Proof.
  intros H. unfold sorted_check.
  destruct (feeded_sorted self); [| reflexivity].
  destruct (Z.ltb_spec r (fs_last_rtp_ext_ts self)); [lia |].
  rewrite andb_false_r.
  destruct (Z.eqb_spec r (fs_last_rtp_ext_ts self)); [lia | reflexivity].
Qed.

(** C5, as the code has it.  2^64-1 is the value of an unset time: as long
    as no PTS written and no extended timestamp is that value, the PTS
    written by the successful RTP calls made while [feeded_sorted] is true
    never decrease, from a new object on (or from any object whose
    [fs_last_pts] is not unset alone) and whatever other calls come in
    between.  In sorted mode, with [fs_last_pts] set and a packet newer than
    the last one, the call succeeds, a computed PTS below [fs_last_pts] is
    replaced by [fs_last_pts], and the PTS written is recorded in
    [fs_last_pts]. *)
Theorem sorted_mode_pts_never_decrease :
  (forall self l,
      nothing_recorded_together self ->
      Forall valid_row (sorted_rows ext_timestamp self l) ->
      Sorted Z.le (map stats_pts (sorted_rows ext_timestamp self l)))
  /\ (forall self b,
        passes_checks self b ->
        feeded_sorted self = true ->
        fs_last_pts self <> GST_CLOCK_TIME_NONE ->
        let e := ext_timestamp (rtp_ext_ts self) (rtp_get_timestamp b) in
        fs_last_rtp_ext_ts self < snd e ->
        let computed :=
          snd (compute_pts (set_rtp_ext_ts (fst e) (learn_ssrc self b))
                 (GST_BUFFER_PTS b) (snd e)) in
        let r :=
          kms_rtp_synchronizer_process_rtp_buffer_mapped ext_timestamp self
            b in
        res_ret r = true
        /\ feeded_sorted (res_self r) = true
        /\ res_pts r
           = (if computed <? fs_last_pts self then fs_last_pts self
              else computed)
        /\ fs_last_pts self <= res_pts r
        /\ fs_last_pts (res_self r) = res_pts r
        /\ fs_last_rtp_ext_ts (res_self r) = snd e)
  /\ (forall sorted,
        nothing_recorded_together (kms_rtp_synchronizer_new sorted)).
Proof.
  split; [| split].
  3:{ intros sorted _ _. reflexivity. }
  - intros self l HK Hv. apply (rows_monotone l self HK Hv).
  - intros self b Ha Hs Hv e Hnew computed r. subst r computed.
    rewrite (process_rtp_accepted self b Ha).
    destruct (learn_ssrc_frame self b) as (_ & Ht & _).
    unfold same_tracking in Ht.
    destruct Ht as (Hx & _ & _ & _ & _ & _ & Hfr & Hfp & Hfs).
    set (l := learn_ssrc self b) in *.
    unfold accepted. rewrite Hx. fold e.
    set (self1 := set_rtp_ext_ts (fst e) l).
    rewrite (sorted_check_proceed self1 (snd e))
      by (change (fs_last_rtp_ext_ts self1) with (fs_last_rtp_ext_ts l);
          rewrite Hfr; exact Hnew).
    cbn [res_ret res_self res_pts].
    destruct (compute_pts_frame self1 (GST_BUFFER_PTS b) (snd e))
      as (_ & _ & _ & Hc & _ & _ & _ & Hcp).
    change (feeded_sorted self1) with (feeded_sorted l) in Hc.
    change (fs_last_pts self1) with (fs_last_pts l) in Hcp.
    rewrite Hfp in Hcp. rewrite Hfs, Hs in Hc.
    set (c := compute_pts self1 (GST_BUFFER_PTS b) (snd e)) in *.
    unfold sorted_fix, GST_CLOCK_TIME_IS_VALID. rewrite Hc, Hcp.
    destruct (Z.eqb_spec (fs_last_pts self) GST_CLOCK_TIME_NONE);
      [contradiction |].
    cbn [negb andb fst snd feeded_sorted fs_last_pts fs_last_rtp_ext_ts
         set_fs_last_pts set_fs_last_rtp_ext_ts].
    repeat split; try assumption.
    destruct (Z.ltb_spec (snd c) (fs_last_pts self)); lia.
Qed.

(** *** RTCP buffers *)

Lemma rtcp_without_sender_report (self : KmsRtpSynchronizerPrivate)
    (buffer : GstRTCPBuffer) :
  hands_sender_report (ProcessRtcp buffer) = false ->
  fst (fst (process_rtcp_buffer self buffer)) = self.
Proof.
  unfold hands_sender_report, kms_rtp_synchronizer_process_rtcp_buffer,
    kms_rtp_synchronizer_process_rtcp_packet.
  destruct (rtcp_maps buffer); cbn [andb negb]; [| reflexivity].
  destruct (rtcp_packets buffer) as [| packet rest]; [reflexivity |].
  destruct (rtcp_get_type packet); try discriminate; reflexivity.
Qed.

(** An RTCP buffer fails exactly when it does not map as RTCP, and then
    with an unexpected error and the object untouched; a buffer that maps
    always succeeds, also when it is empty.  The object changes only for a
    buffer that maps and whose first packet is a sender report, and the
    packets after the first are never looked at. *)
Theorem rtcp_buffer_first_packet_only :
  forall self buffer,
    let result :=
      kms_rtp_synchronizer_process_rtcp_buffer ext_timestamp self buffer in
    (rtcp_maps buffer = false ->
     result
     = (self, false, Some (KMS_RTP_SYNC_UNEXPECTED_ERROR, MsgNotRTCP)))
    /\ (rtcp_maps buffer = true ->
        snd (fst result) = true /\ snd result = None)
    /\ (hands_sender_report (ProcessRtcp buffer) = false ->
        fst (fst result) = self)
    /\ (forall packet rest,
          rtcp_packets buffer = packet :: rest ->
          result
          = kms_rtp_synchronizer_process_rtcp_buffer ext_timestamp self
              (mkRTCPBuffer (rtcp_maps buffer) [packet]
                 (rtcp_buffer_dts buffer))).
Proof.
  intros self buffer result. subst result.
  split; [| split; [| split]].
  - intros H. unfold kms_rtp_synchronizer_process_rtcp_buffer.
    rewrite H. reflexivity.
  - intros H. unfold kms_rtp_synchronizer_process_rtcp_buffer.
    rewrite H. cbn [negb].
    destruct (rtcp_packets buffer); split; reflexivity.
  - apply rtcp_without_sender_report.
  - intros packet rest H. unfold kms_rtp_synchronizer_process_rtcp_buffer.
    cbn [rtcp_maps rtcp_packets rtcp_buffer_dts]. rewrite H. reflexivity.
Qed.

Lemma calls_cons (self : KmsRtpSynchronizerPrivate) (c : Call)
    (l : list Call) :
  run self (c :: l) = run (step self c) l.
Proof. reflexivity. Qed.

Lemma set_pt_clock_rate_keeps_last_rtcp (self : KmsRtpSynchronizerPrivate)
    (pt_ cr : Z) :
  same_last_rtcp (fst (fst (set_pt_clock_rate self pt_ cr))) self.
Proof.
  unfold kms_rtp_synchronizer_set_pt_clock_rate, same_last_rtcp.
  destruct (cr <=? 0); [cbn; auto |].
  destruct (clock_rate self =? 0); cbn; auto.
Qed.

Lemma call_without_sender_report (self : KmsRtpSynchronizerPrivate)
    (c : Call) :
  hands_sender_report c = false ->
  same_base (step self c) self /\ same_last_rtcp (step self c) self.
Proof.
  intros H. destruct c as [pt_ cr | buffer | b]; cbn [call].
  - split; [apply set_pt_clock_rate_frame
           | apply set_pt_clock_rate_keeps_last_rtcp].
  - rewrite (rtcp_without_sender_report self buffer H).
    unfold same_base, same_last_rtcp. auto.
  - destruct (process_rtp_frame self b) as (_ & Hb & Hl & _). auto.
Qed.

(** The base and the last sender report are written by sender reports
    only: a run of calls in which no RTCP buffer hands over a sender report
    leaves [base_initiated], [base_ntp_time], [base_sync_time],
    [last_rtcp_ext_ts] and [last_rtcp_ntp_time] as they are, so an object
    that interpolates goes on interpolating. *)
Theorem base_written_by_sender_reports_only :
  forall l self,
    forallb (fun c => negb (hands_sender_report c)) l = true ->
    same_base (calls ext_timestamp self l) self
    /\ same_last_rtcp (calls ext_timestamp self l) self.
Proof.
  induction l as [| c l IH]; intros self H.
  - unfold same_base, same_last_rtcp. cbn. auto.
  - cbn [forallb] in H. apply andb_true_iff in H. destruct H as [Hc Hl].
    apply negb_true_iff in Hc. rewrite calls_cons.
    destruct (call_without_sender_report self c Hc) as (Hb1 & Hl1).
    destruct (IH (step self c) Hl) as (Hb2 & Hl2).
    unfold_same. intuition congruence.
Qed.

(** *** Before the configuration *)

Lemma unconfigured_call (self : KmsRtpSynchronizerPrivate) (c : Call) :
  clock_rate self = 0 -> configures c = false ->
  clock_rate (step self c) = 0.
Proof.
  intros H0 Hc. destruct c as [pt_ cr | buffer | b]; cbn [call].
  - unfold kms_rtp_synchronizer_set_pt_clock_rate.
    cbn [configures] in Hc. apply Z.ltb_ge in Hc.
    destruct (Z.leb_spec cr 0); [cbn; exact H0 | lia].
  - destruct (process_rtcp_buffer_frame self buffer) as ((_ & Hcr) & _).
    cbv zeta in Hcr. congruence.
  - destruct (process_rtp_frame self b) as ((_ & Hcr) & _). congruence.
Qed.

Lemma unconfigured_run (l : list Call) :
  forall self,
    clock_rate self = 0 ->
    forallb (fun c => negb (configures c)) l = true ->
    Forall (fun r =>
              res_ret r = false
              /\ (exists msg,
                     res_error r = Some (KMS_RTP_SYNC_INVALID_DATA, msg))
              /\ res_stats r = None)
      (rtp_results ext_timestamp self l)
    /\ emitted ext_timestamp self l = arrival_pts l.
Proof.
  induction l as [| c l IH]; intros self H0 H.
  - cbn. split; [constructor | reflexivity].
  - cbn [forallb] in H. apply andb_true_iff in H. destruct H as [Hc Hl].
    apply negb_true_iff in Hc.
    destruct (IH (step self c) (unconfigured_call self c H0 Hc) Hl)
      as (IH1 & IH2).
    cbn [rtp_results emitted arrival_pts].
    destruct c as [pt_ cr | buffer | b]; cbn [app]; try (split; assumption).
    assert (Hr : rejected self b) by (right; right; lia).
    destruct (process_rtp_rejected self b Hr) as (msg & _ & Hp).
    split.
    + constructor; [| exact IH1].
      rewrite Hp. cbn [invalid_data res_ret res_error res_stats].
      repeat split. exists msg. reflexivity.
    + f_equal; [| exact IH2]. rewrite Hp. reflexivity.
Qed.

(** Until [kms_rtp_synchronizer_set_pt_clock_rate] has been called with a
    positive clock rate, a new object rejects every RTP buffer with invalid
    data, whatever else is called: no PTS is changed and no row is
    written. *)
Theorem unconfigured_object_rejects_rtp :
  forall sorted l,
    forallb (fun c => negb (configures c)) l = true ->
    Forall (fun r =>
              res_ret r = false
              /\ (exists msg,
                     res_error r = Some (KMS_RTP_SYNC_INVALID_DATA, msg))
              /\ res_stats r = None)
      (rtp_results ext_timestamp (kms_rtp_synchronizer_new sorted) l)
    /\ emitted ext_timestamp (kms_rtp_synchronizer_new sorted) l
       = arrival_pts l.
Proof.
  intros sorted l H. apply unconfigured_run; [reflexivity | exact H].
Qed.

(** *** Leaving the sorted mode, and the unsorted mode *)

Lemma accepted_unsorted (self : KmsRtpSynchronizerPrivate)
    (b : GstRTPBuffer) :
  feeded_sorted self = false ->
  let r := accepted ext_timestamp self b in
  res_ret r = true /\ res_error r = None
  /\ fs_last_pts (res_self r) = fs_last_pts self
  /\ fs_last_rtp_ext_ts (res_self r) = fs_last_rtp_ext_ts self.
Proof.
  intros Hs r. subst r. unfold accepted.
  set (e := ext_timestamp (rtp_ext_ts self) (rtp_get_timestamp b)).
  set (self1 := set_rtp_ext_ts (fst e) self).
  rewrite (sorted_check_unsorted self1 (snd e)) by exact Hs.
  cbn [res_ret res_error res_self].
  destruct (compute_pts_frame self1 (GST_BUFFER_PTS b) (snd e))
    as (_ & _ & _ & Hc & _ & _ & Hfr & Hfp).
  change (feeded_sorted self1) with (feeded_sorted self) in Hc.
  set (c := compute_pts self1 (GST_BUFFER_PTS b) (snd e)) in *.
  unfold sorted_fix. rewrite Hc, Hs. cbn [fst].
  repeat split; assumption.
Qed.

Lemma unsorted_quiet (self : KmsRtpSynchronizerPrivate) (c : Call) :
  feeded_sorted self = false -> quiet self (step self c).
Proof.
  intros Hs. destruct c as [pt_ cr | buffer | b];
    try (apply quiet_call; exact I).
  cbn [call]. unfold quiet.
  destruct (process_rtp_frame self b) as (_ & _ & _ & _ & Hf).
  rewrite (Hf Hs), Hs. split; [reflexivity |].
  destruct (learn_ssrc_frame self b) as (_ & Ht & _).
  unfold same_tracking in Ht.
  destruct Ht as (_ & _ & _ & _ & _ & _ & Hfr & Hfp & Hfs).
  destruct (rejected_or_passes self b) as [Hr | Ha].
  - destruct (process_rtp_rejected self b Hr) as (msg & _ & ->).
    cbn [invalid_data res_self].
    destruct (ssrc self =? 0);
      [| destruct (rtp_get_ssrc b =? ssrc self)]; auto.
  - rewrite (process_rtp_accepted self b Ha).
    destruct (accepted_unsorted (learn_ssrc self b) b) as (_ & _ & H1 & H2);
      [congruence |].
    split; congruence.
Qed.

(** In unsorted mode every RTP buffer that passes the checks is processed
    with success, and no run of calls writes [fs_last_pts] or
    [fs_last_rtp_ext_ts]. *)
Theorem unsorted_mode_accepts_any_order :
  (forall self b,
      feeded_sorted self = false ->
      passes_checks self b ->
      let r :=
        kms_rtp_synchronizer_process_rtp_buffer_mapped ext_timestamp self b in
      res_ret r = true /\ res_error r = None)
  /\ (forall l self,
        feeded_sorted self = false ->
        fs_last_pts (calls ext_timestamp self l) = fs_last_pts self
        /\ fs_last_rtp_ext_ts (calls ext_timestamp self l)
           = fs_last_rtp_ext_ts self).
Proof.
  split.
  - intros self b Hs Ha r. subst r.
    rewrite (process_rtp_accepted self b Ha).
    destruct (learn_ssrc_frame self b) as (_ & Ht & _).
    unfold same_tracking in Ht.
    destruct Ht as (_ & _ & _ & _ & _ & _ & _ & _ & Hfs).
    destruct (accepted_unsorted (learn_ssrc self b) b) as (H1 & H2 & _);
      [congruence | split; assumption].
  - induction l as [| c l IH]; intros self Hs; [split; reflexivity |].
    rewrite calls_cons.
    destruct (unsorted_quiet self c Hs) as (Q1 & Q2 & Q3).
    destruct (IH (step self c)) as (I1 & I2); [congruence |].
    split; congruence.
Qed.

(** The sorted mode is left by a regression only: when a call on an object
    in sorted mode returns an object in unsorted mode, the buffer passed the
    checks, [fs_last_rtp_ext_ts] was set and the extended timestamp of the
    buffer was below it.  Configuration and RTCP never change
    [feeded_sorted]. *)
Theorem sorted_mode_left_by_regression_only :
  (forall self b,
      let r :=
        kms_rtp_synchronizer_process_rtp_buffer_mapped ext_timestamp self b in
      feeded_sorted self = true ->
      feeded_sorted (res_self r) = false ->
      passes_checks self b
      /\ fs_last_rtp_ext_ts self <> GST_CLOCK_TIME_NONE
      /\ snd (ext_timestamp (rtp_ext_ts self) (rtp_get_timestamp b))
         < fs_last_rtp_ext_ts self
      /\ res_error r = Some (KMS_RTP_SYNC_INVALID_DATA, MsgUnsorted))
  /\ (forall self pt_ cr,
        feeded_sorted
          (fst (fst (kms_rtp_synchronizer_set_pt_clock_rate self pt_ cr)))
        = feeded_sorted self)
  /\ (forall self buffer,
        feeded_sorted
          (fst (fst (kms_rtp_synchronizer_process_rtcp_buffer ext_timestamp
                       self buffer)))
        = feeded_sorted self).
Proof.
  split; [| split].
  - intros self b r Hs Hf. subst r.
    destruct (learn_ssrc_frame self b) as (_ & Ht & _).
    unfold same_tracking in Ht.
    destruct Ht as (Hx & _ & _ & _ & _ & _ & Hfr & Hfp & Hfs).
    destruct (rejected_or_passes self b) as [Hr | Ha].
    { exfalso. revert Hf.
      destruct (process_rtp_rejected self b Hr) as (msg & _ & ->).
      cbn [invalid_data res_self].
      destruct (ssrc self =? 0);
        [| destruct (rtp_get_ssrc b =? ssrc self)]; congruence. }
    split; [exact Ha |]. revert Hf.
    rewrite (process_rtp_accepted self b Ha).
    set (l := learn_ssrc self b) in *.
    assert (Hsl : feeded_sorted l = true) by congruence.
    unfold accepted. rewrite Hx.
    set (e := ext_timestamp (rtp_ext_ts self) (rtp_get_timestamp b)).
    set (self1 := set_rtp_ext_ts (fst e) l).
    assert (Hcheck : sorted_check self1 (snd e) = Regressed ->
                     fs_last_rtp_ext_ts self <> GST_CLOCK_TIME_NONE
                     /\ snd e < fs_last_rtp_ext_ts self).
    { unfold sorted_check, GST_CLOCK_TIME_IS_VALID.
      change (feeded_sorted self1) with (feeded_sorted l).
      change (fs_last_rtp_ext_ts self1) with (fs_last_rtp_ext_ts l).
      rewrite Hsl, Hfr.
      destruct (Z.eqb_spec (fs_last_rtp_ext_ts self) GST_CLOCK_TIME_NONE);
        cbn [negb andb].
      - destruct (snd e =? fs_last_rtp_ext_ts self); discriminate.
      - destruct (Z.ltb_spec (snd e) (fs_last_rtp_ext_ts self)); [auto |].
        destruct (snd e =? fs_last_rtp_ext_ts self); discriminate. }
    destruct (sorted_check self1 (snd e)); cbn [res_self res_error].
    + destruct (compute_pts_frame self1 (GST_BUFFER_PTS b) (snd e))
        as (_ & _ & _ & Hc & _).
      destruct (sorted_fix_frame
                  (fst (compute_pts self1 (GST_BUFFER_PTS b) (snd e)))
                  (snd (compute_pts self1 (GST_BUFFER_PTS b) (snd e)))
                  (snd e)) as (_ & _ & _ & Hf' & _).
      rewrite Hf', Hc. change (feeded_sorted self1) with (feeded_sorted l).
      congruence.
    + intros _. destruct Hcheck as (H1 & H2); [reflexivity |].
      repeat split; assumption.
    + change (feeded_sorted self1) with (feeded_sorted l). congruence.
  - intros self pt_ cr.
    pose proof (set_pt_clock_rate_frame self pt_ cr) as H. cbv zeta in H.
    intuition.
  - intros self buffer.
    pose proof (process_rtcp_buffer_frame self buffer) as H. cbv zeta in H.
    intuition.
Qed.

(** *** The interpolation anchor *)

(** What [accepted] computes when the buffer is not a duplicate. *)
Lemma accepted_not_duplicate (self : KmsRtpSynchronizerPrivate)
    (b : GstRTPBuffer) :
  let e := ext_timestamp (rtp_ext_ts self) (rtp_get_timestamp b) in
  let self1 := set_rtp_ext_ts (fst e) self in
  sorted_check self1 (snd e) <> Duplicate ->
  exists self2,
    (self2 = self1 \/ self2 = set_feeded_sorted false self1)
    /\ res_self (accepted ext_timestamp self b)
       = fst (sorted_fix (fst (compute_pts self2 (GST_BUFFER_PTS b) (snd e)))
                (snd (compute_pts self2 (GST_BUFFER_PTS b) (snd e)))
                (snd e))
    /\ res_pts (accepted ext_timestamp self b)
       = snd (sorted_fix (fst (compute_pts self2 (GST_BUFFER_PTS b) (snd e)))
                (snd (compute_pts self2 (GST_BUFFER_PTS b) (snd e)))
                (snd e)).
Proof.
  intros e self1 H. unfold accepted. fold e. fold self1.
  destruct (sorted_check self1 (snd e)); [| | contradiction].
  - exists self1. cbn [res_self res_pts]. auto.
  - exists (set_feeded_sorted false self1). cbn [res_self res_pts]. auto.
Qed.

Lemma not_duplicate (self : KmsRtpSynchronizerPrivate) (r : Z) :
  (feeded_sorted self = true -> r <> fs_last_rtp_ext_ts self) ->
  sorted_check self r <> Duplicate.
Proof.
  intros H Hd. apply sorted_check_duplicate_inv in Hd.
  destruct Hd as (H1 & H2). exact (H H2 H1).
Qed.

Lemma accepted_keeps_anchor (self : KmsRtpSynchronizerPrivate)
    (b : GstRTPBuffer) :
  base_initiated self = true \/ base_interpolate_initiated self = true ->
  same_anchor (res_self (accepted ext_timestamp self b)) self.
Proof.
  intros H. unfold same_anchor.
  set (e := ext_timestamp (rtp_ext_ts self) (rtp_get_timestamp b)).
  set (self1 := set_rtp_ext_ts (fst e) self).
  destruct (sorted_check self1 (snd e)) eqn:Hc.
  3:{ unfold accepted. fold e. fold self1. rewrite Hc. cbn. auto. }
  all: destruct (accepted_not_duplicate self b) as (self2 & Hs & -> & _);
    [fold e; fold self1; rewrite Hc; discriminate |];
    fold e in Hs |- *; fold self1 in Hs;
    match goal with
    | |- context [sorted_fix ?a ?p ?r] =>
        destruct (sorted_fix_frame a p r) as (_ & _ & _ & _ & _ & _ & -> & -> & ->)
    end;
    destruct (proj1 (compute_pts_anchor self2 (GST_BUFFER_PTS b) (snd e)))
      as (K1 & K2 & K3);
    [destruct Hs; subst self2 self1; cbn; exact H |];
    rewrite K1, K2, K3; destruct Hs; subst self2 self1; cbn; auto.
Qed.

Lemma call_keeps_anchor (self : KmsRtpSynchronizerPrivate) (c : Call) :
  base_interpolate_initiated self = true -> same_anchor (step self c) self.
Proof.
  intros Hi. unfold same_anchor.
  destruct c as [pt_ cr | buffer | b]; cbn [call].
  - unfold kms_rtp_synchronizer_set_pt_clock_rate.
    destruct (cr <=? 0); [cbn; auto |].
    destruct (clock_rate self =? 0); cbn; auto.
  - unfold kms_rtp_synchronizer_process_rtcp_buffer,
      kms_rtp_synchronizer_process_rtcp_packet.
    destruct (rtcp_maps buffer); cbn [negb fst]; [| auto].
    destruct (rtcp_packets buffer) as [| packet rest]; cbn [fst]; [auto |].
    destruct (rtcp_get_type packet); auto.
    destruct (base_initiated self); cbn [negb];
      match goal with
      | |- context [ext_timestamp ?a ?b] =>
          destruct (ext_timestamp a b) as [stored r]
      end; cbn; auto.
  - destruct (learn_ssrc_frame self b) as (_ & Ht & _).
    unfold same_tracking in Ht.
    destruct Ht as (_ & _ & H1 & H2 & H3 & _).
    destruct (rejected_or_passes self b) as [Hr | Ha].
    + destruct (process_rtp_rejected self b Hr) as (msg & _ & ->).
      cbn [invalid_data res_self].
      destruct (ssrc self =? 0);
        [| destruct (rtp_get_ssrc b =? ssrc self)]; auto.
    + rewrite (process_rtp_accepted self b Ha).
      destruct (accepted_keeps_anchor (learn_ssrc self b) b)
        as (A1 & A2 & A3); [right; congruence |].
      repeat split; congruence.
Qed.

(** The interpolation anchor is taken once.  On an object without a base
    and without an anchor, an RTP buffer that passes the checks and is not a
    duplicate in sorted mode becomes the anchor: its extended timestamp and
    the PTS it arrived with are stored, and in unsorted mode that PTS is
    kept as the PTS of the buffer.  From then on no run of calls changes
    [base_interpolate_initiated], [base_interpolate_ext_ts] or
    [base_interpolate_pts]. *)
Theorem interpolation_anchor_taken_once :
  (forall self b,
      passes_checks self b ->
      base_initiated self = false ->
      base_interpolate_initiated self = false ->
      let e := ext_timestamp (rtp_ext_ts self) (rtp_get_timestamp b) in
      (feeded_sorted self = true -> snd e <> fs_last_rtp_ext_ts self) ->
      let r :=
        kms_rtp_synchronizer_process_rtp_buffer_mapped ext_timestamp self b in
      base_interpolate_initiated (res_self r) = true
      /\ base_interpolate_ext_ts (res_self r) = snd e
      /\ base_interpolate_pts (res_self r) = GST_BUFFER_PTS b
      /\ (feeded_sorted self = false -> res_pts r = GST_BUFFER_PTS b))
  /\ (forall l self,
        base_interpolate_initiated self = true ->
        same_anchor (calls ext_timestamp self l) self).
Proof.
  split.
  - intros self b Ha Hb Hi e Hnd r. subst r.
    rewrite (process_rtp_accepted self b Ha).
    destruct (learn_ssrc_frame self b) as (_ & Ht & _).
    unfold same_tracking, same_base in Ht.
    destruct Ht as (Hx & (Hbi & _) & Hii & _ & _ & _ & Hfr & _ & Hfs).
    set (l := learn_ssrc self b) in *.
    destruct (accepted_not_duplicate l b) as (self2 & Hs & Hself & Hpts).
    { rewrite Hx. fold e. apply not_duplicate.
      cbn [feeded_sorted fs_last_rtp_ext_ts set_rtp_ext_ts].
      rewrite Hfs, Hfr. exact Hnd. }
    rewrite Hx in Hs, Hself, Hpts. fold e in Hs, Hself, Hpts.
    rewrite Hself, Hpts.
    destruct (compute_pts_anchor self2 (GST_BUFFER_PTS b) (snd e))
      as (_ & Htake).
    destruct Htake as (T1 & T2 & T3 & T4);
      [destruct Hs; subst self2; cbn; congruence
      | destruct Hs; subst self2; cbn; congruence |].
    destruct (compute_pts_frame self2 (GST_BUFFER_PTS b) (snd e))
      as (_ & _ & _ & Hc & _).
    set (c := compute_pts self2 (GST_BUFFER_PTS b) (snd e)) in *.
    destruct (sorted_fix_frame (fst c) (snd c) (snd e))
      as (_ & _ & _ & _ & _ & _ & -> & -> & ->).
    repeat split; try assumption.
    intros Hu. unfold sorted_fix. rewrite Hc.
    assert (Hf2 : feeded_sorted self2 = false)
      by (destruct Hs; subst self2; cbn; congruence).
    rewrite Hf2. cbn [snd]. exact T4.
  - induction l as [| c l IH]; intros self Hi.
    + unfold same_anchor. cbn. auto.
    + rewrite calls_cons.
      destruct (call_keeps_anchor self c Hi) as (C1 & C2 & C3).
      destruct (IH (step self c)) as (I1 & I2 & I3); [congruence |].
      unfold same_anchor. repeat split; congruence.
Qed.

(** *** The result of a call on an RTP buffer *)

Lemma accepted_result (self : KmsRtpSynchronizerPrivate) (b : GstRTPBuffer) :
  let r := accepted ext_timestamp self b in
  let e := ext_timestamp (rtp_ext_ts self) (rtp_get_timestamp b) in
  (res_ret r = true <-> res_error r = None)
  /\ (forall msg,
         res_error r <> Some (KMS_RTP_SYNC_UNEXPECTED_ERROR, msg))
  /\ res_stats r
     = Some (end_stats (res_self r) b (GST_BUFFER_PTS b) (res_pts r) (snd e)).
Proof.
  intros r e. subst r. unfold accepted. fold e.
  destruct (sorted_check _ (snd e));
    cbn [res_ret res_error res_stats res_self res_pts];
    repeat split; intros; try discriminate; try reflexivity.
Qed.

(** The returned [gboolean] and the [GError] agree: a call on a buffer
    returns TRUE exactly when it sets no error.  The error is the unexpected
    one exactly when the buffer does not map as RTP, and then the object and
    the PTS of the buffer are untouched and no row is written. *)
Theorem return_value_tells_the_error :
  forall self buffer_pts mapped,
    let r :=
      kms_rtp_synchronizer_process_rtp_buffer_writable ext_timestamp self
        buffer_pts mapped in
    (res_ret r = true <-> res_error r = None)
    /\ (mapped = None <->
        res_error r = Some (KMS_RTP_SYNC_UNEXPECTED_ERROR, MsgNotRTP))
    /\ (mapped = None ->
        res_self r = self /\ res_pts r = buffer_pts /\ res_stats r = None).
Proof.
  intros self buffer_pts [b |] r; subst r;
    cbn [kms_rtp_synchronizer_process_rtp_buffer_writable].
  2:{ cbn. repeat split; intros; try discriminate; reflexivity. }
  assert (Hnot : forall msg,
             res_error (process_rtp self b)
             <> Some (KMS_RTP_SYNC_UNEXPECTED_ERROR, msg)
             /\ (res_ret (process_rtp self b) = true
                 <-> res_error (process_rtp self b) = None)).
  { intros msg0.
    destruct (rejected_or_passes self b) as [Hr | Ha].
    - destruct (process_rtp_rejected self b Hr) as (msg & _ & ->).
      cbn. repeat split; intros; discriminate.
    - rewrite (process_rtp_accepted self b Ha).
      destruct (accepted_result (learn_ssrc self b) b) as (H1 & H2 & _).
      split; [apply H2 | exact H1]. }
  split; [apply (Hnot MsgNotRTP) |].
  split; [| discriminate].
  split; [discriminate |]. intros H. exfalso. exact (proj1 (Hnot _) H).
Qed.

(** A row goes to the statistics exactly for the buffers that pass the
    checks.  It holds the SSRC of the packet, the clock rate of the object,
    the PTS the buffer arrived with, the PTS written, the DTS of the buffer,
    the extended timestamp of the packet and the last sender report. *)
Theorem statistics_row_of_a_call :
  forall self b,
    let r :=
      kms_rtp_synchronizer_process_rtp_buffer_mapped ext_timestamp self b in
    (res_stats r = None <-> rejected self b)
    /\ (forall row,
          res_stats r = Some row ->
          stats_ssrc row = rtp_get_ssrc b
          /\ stats_clock_rate row = clock_rate self
          /\ stats_pts_orig row = GST_BUFFER_PTS b
          /\ stats_pts row = res_pts r
          /\ stats_dts row = GST_BUFFER_DTS b
          /\ stats_rtp_ext_ts row
             = snd (ext_timestamp (rtp_ext_ts self) (rtp_get_timestamp b))
          /\ stats_last_rtcp_ntp_time row = last_rtcp_ntp_time self
          /\ stats_last_rtcp_ext_ts row = last_rtcp_ext_ts self).
Proof.
  intros self b r. subst r.
  destruct (rejected_or_passes self b) as [Hr | Ha].
  - destruct (process_rtp_rejected self b Hr) as (msg & _ & ->).
    cbn [invalid_data res_stats]. split; [tauto | discriminate].
  - assert (Hnr : ~ rejected self b).
    { unfold rejected, passes_checks in *. lia. }
    destruct (process_rtp_frame self b) as ((_ & Hcr) & _ & (Hl1 & Hl2) & _).
    revert Hcr Hl1 Hl2.
    rewrite (process_rtp_accepted self b Ha).
    destruct (learn_ssrc_frame self b) as (_ & Ht & _).
    unfold same_tracking in Ht. destruct Ht as (Hx & _).
    destruct (accepted_result (learn_ssrc self b) b) as (_ & _ & Hrow).
    rewrite Hx in Hrow. rewrite Hrow. intros Hcr Hl1 Hl2.
    split; [split; [discriminate | contradiction] |].
    intros row Heq. injection Heq as <-.
    cbn [end_stats stats_ssrc stats_clock_rate stats_pts_orig stats_pts
         stats_dts stats_rtp_ext_ts stats_last_rtcp_ntp_time
         stats_last_rtcp_ext_ts].
    repeat split; assumption.
Qed.

(** Once the object has a base or an interpolation anchor, the PTS a buffer
    arrives with does not matter: two buffers that differ in their PTS only
    get the same PTS and leave the same object, unless the buffer is a
    duplicate in sorted mode while [fs_last_pts] is unset. *)
Theorem arrival_pts_is_overwritten :
  forall self b p1 p2,
    passes_checks self b ->
    base_initiated self = true \/ base_interpolate_initiated self = true ->
    (feeded_sorted self = true ->
     snd (ext_timestamp (rtp_ext_ts self) (rtp_get_timestamp b))
       = fs_last_rtp_ext_ts self ->
     fs_last_pts self <> GST_CLOCK_TIME_NONE) ->
    let r1 :=
      kms_rtp_synchronizer_process_rtp_buffer_mapped ext_timestamp self
        (with_pts p1 b) in
    let r2 :=
      kms_rtp_synchronizer_process_rtp_buffer_mapped ext_timestamp self
        (with_pts p2 b) in
    res_pts r1 = res_pts r2 /\ res_self r1 = res_self r2
    /\ res_ret r1 = res_ret r2.
Proof.
  intros self b p1 p2 Ha Hanchor Hdup r1 r2. subst r1 r2.
  assert (Ha1 : passes_checks self (with_pts p1 b)) by exact Ha.
  assert (Ha2 : passes_checks self (with_pts p2 b)) by exact Ha.
  rewrite (process_rtp_accepted _ _ Ha1), (process_rtp_accepted _ _ Ha2).
  change (learn_ssrc self (with_pts p1 b)) with (learn_ssrc self b).
  change (learn_ssrc self (with_pts p2 b)) with (learn_ssrc self b).
  destruct (learn_ssrc_frame self b) as (_ & Ht & _).
  unfold same_tracking, same_base in Ht.
  destruct Ht as (Hx & (Hbi & _) & Hii & _ & _ & _ & Hfr & Hfp & Hfs).
  set (l := learn_ssrc self b) in *.
  unfold accepted.
  cbn [rtp_get_timestamp GST_BUFFER_PTS with_pts].
  rewrite Hx.
  set (e := ext_timestamp (rtp_ext_ts self) (rtp_get_timestamp b)) in *.
  set (self1 := set_rtp_ext_ts (fst e) l).
  pose proof (sorted_check_duplicate_inv self1 (snd e)) as Hinv.
  destruct (sorted_check self1 (snd e));
    cbn [res_pts res_self res_ret].
  - rewrite (compute_pts_ignores_arrival self1 p1 p2)
      by (subst self1; cbn; destruct Hanchor; [left | right]; congruence).
    auto.
  - rewrite (compute_pts_ignores_arrival (set_feeded_sorted false self1)
               p1 p2)
      by (subst self1; cbn; destruct Hanchor; [left | right]; congruence).
    auto.
  - destruct Hinv as (H1 & H2); [reflexivity |].
    change (fs_last_pts self1) with (fs_last_pts l).
    change (fs_last_rtp_ext_ts self1) with (fs_last_rtp_ext_ts l) in H1.
    change (feeded_sorted self1) with (feeded_sorted l) in H2.
    assert (Hv : fs_last_pts l <> GST_CLOCK_TIME_NONE).
    { rewrite Hfp. apply Hdup; congruence. }
    unfold GST_CLOCK_TIME_IS_VALID.
    destruct (Z.eqb_spec (fs_last_pts l) GST_CLOCK_TIME_NONE);
      [contradiction |].
    cbn [negb]. auto.
Qed.

(** *** The first sender report and the next packet *)

(** The first sender report moves the object to the synchronized regime:
    in unsorted mode, the next RTP buffer that passes the checks gets the
    arrival time of that sender report plus the signed time between the RTP
    timestamp of the sender report and its own, saturated at 0 and at
    2^64-1. *)
Theorem first_sender_report_then_packet :
  forall self packet current_time b,
    rtcp_get_type packet = GST_RTCP_TYPE_SR ->
    base_initiated self = false ->
    0 <= current_time <= G_MAXUINT64 ->
    let s1 :=
      kms_rtp_synchronizer_process_rtcp_packet ext_timestamp self packet
        current_time in
    passes_checks s1 b ->
    feeded_sorted s1 = false ->
    let sr := ext_timestamp (rtp_ext_ts self) (sr_rtptime packet) in
    let e := ext_timestamp (fst sr) (rtp_get_timestamp b) in
    res_pts
      (kms_rtp_synchronizer_process_rtp_buffer_mapped ext_timestamp s1 b)
    = saturate
        (current_time
         + Z.sgn (fst e - snd sr)
           * gst_util_uint64_scale_int (Z.abs (fst e - snd sr)) GST_SECOND
               (clock_rate self)).
Proof.
  intros self packet current_time b Hsr Hb Ht s1 Ha Hs sr e.
  assert (Hs1 : base_initiated s1 = true
                /\ base_sync_time s1 = current_time
                /\ last_rtcp_ntp_time s1 = base_ntp_time s1
                /\ rtp_ext_ts s1 = fst sr
                /\ last_rtcp_ext_ts s1 = snd sr
                /\ clock_rate s1 = clock_rate self).
  { subst s1 sr. unfold kms_rtp_synchronizer_process_rtcp_packet.
    rewrite Hsr, Hb.
    cbn [negb rtp_ext_ts set_base_sync_time set_base_ntp_time
         set_base_initiated].
    destruct (ext_timestamp (rtp_ext_ts self) (sr_rtptime packet))
      as [stored r].
    cbn. repeat split. }
  destruct Hs1 as (S1 & S2 & S3 & S4 & S5 & S6).
  rewrite (process_rtp_accepted s1 b Ha).
  destruct (learn_ssrc_frame s1 b) as ((_ & Lcr) & Lt & _).
  unfold same_tracking, same_base, same_last_rtcp in Lt.
  destruct Lt as (Lx & (Lbi & Lbn & Lbs) & _ & _ & _ & (Lle & Lln) & _ & _
                  & Lfs).
  set (l := learn_ssrc s1 b) in *.
  destruct (accepted_not_duplicate l b) as (self2 & H2 & _ & Hpts).
  { apply not_duplicate. cbn [feeded_sorted set_rtp_ext_ts]. congruence. }
  rewrite Hpts. rewrite Lx, S4 in H2 |- *. fold e in H2 |- *.
  destruct (compute_pts_frame self2 (GST_BUFFER_PTS b) (snd e))
    as (_ & _ & _ & Hc & _).
  assert (Hf2 : feeded_sorted self2 = false)
    by (destruct H2; subst self2; cbn; congruence).
  unfold sorted_fix. rewrite Hc, Hf2. cbn [snd].
  destruct Ha as (_ & _ & Hpos).
  rewrite synchronized_without_ntp_offset;
    [| destruct H2; subst self2;
       cbn [base_initiated last_rtcp_ntp_time base_ntp_time base_sync_time
            clock_rate set_rtp_ext_ts set_feeded_sorted];
       rewrite ?Lbs, ?S2, ?Lcr; (congruence || assumption) ..].
  unfold diff_rtp_time.
  replace (rtp_ext_ts self2) with (fst e)
    by (destruct H2; subst self2; reflexivity).
  replace (last_rtcp_ext_ts self2) with (snd sr)
    by (destruct H2; subst self2; cbn; congruence).
  replace (clock_rate self2) with (clock_rate self)
    by (destruct H2; subst self2; cbn; congruence).
  replace (base_sync_time self2) with current_time
    by (destruct H2; subst self2; cbn; congruence).
  reflexivity.
Qed.

End Properties.

(** ** The claims on concrete runs *)

Local Abbreviation ext := gst_rtp_buffer_ext_timestamp.
Local Abbreviation process_rtp :=
  (kms_rtp_synchronizer_process_rtp_buffer_mapped ext).

Ltac decide_range := vm_compute; intuition discriminate.

(** The table of the specification (C1) against the code.  Without a flag,
    an add beyond the range gives 2^64-1 where the table has [p + d]; after
    an upward wrap of the NTP offset, an add of a small [d] gives 2^64-1
    where the table has [p + d]. *)
Lemma table_of_the_specification_differs :
  (emitted ext (configured false)
     [ProcessRtp (rtp_packet 1 0 (2 ^ 64 - 2));
      ProcessRtp (rtp_packet 1 90000 0)]
   = [2 ^ 64 - 2; G_MAXUINT64]
   /\ kms_rtp_synchronizer_rtp_diff_full
        (set_rtp_ext_ts 90000 (kms_rtp_synchronizer_new false))
        (2 ^ 64 - 2) 90000 0 false false = G_MAXUINT64
   /\ table_of_the_specification Add false false (2 ^ 64 - 2) 1000000000
      = 2 ^ 64 - 2 + 1000000000)
  /\ (ntp_offset after_late_base (base_sync_time after_late_base)
      = (999999998, false, true)
      /\ emitted ext after_late_base [ProcessRtp (rtp_packet 1 90000 0)]
         = [G_MAXUINT64]
      /\ table_of_the_specification Add false true 999999998 1000000000
         = 1999999998).
Proof. vm_compute. repeat split. Qed.

(** Where the exact PTS is -1 the code gives 2^64-1, not 0, and where it
    is 2^64 the code gives 0, not 2^64-1. *)
Remark saturation_misses_by_one :
  (exact_synchronized_pts one_below_zero = -1
   /\ snd (compute_pts one_below_zero 0 1) = G_MAXUINT64)
  /\ (exact_synchronized_pts one_above_the_range = 2 ^ 64
      /\ snd (compute_pts one_above_the_range 0 0) = 0).
Proof. vm_compute. repeat split. Qed.

Lemma pts_arithmetic_saturates_witness :
  kms_rtp_synchronizer_rtp_diff_full (set_rtp_ext_ts 90000 after_late_base)
    999999998 90000 0 false true = G_MAXUINT64
  /\ ntp_offset after_S6 10 = (u64 (10 + (0 - 1000000000)), true, false)
  /\ snd (compute_pts after_S6 0 0) = saturate (10 + (0 - 1000000000) + 0).
Proof.
  split; [| split].
  - assert (Hp : 0 <= 999999998 <= G_MAXUINT64) by decide_range.
    assert (Hc : 0 < 90000) by reflexivity.
    assert (Hf : false && true = false) by reflexivity.
    destruct (proj1 pts_arithmetic_saturates
                (set_rtp_ext_ts 90000 after_late_base) 999999998 90000 0
                false true Hp Hc Hf) as (H & _).
    apply H; reflexivity.
  - apply (proj1 (proj2 pts_arithmetic_saturates) after_S6 10); decide_range.
  - apply (proj2 (proj2 pts_arithmetic_saturates) after_S6 0 0);
      try reflexivity; decide_range.
Defined.

(** C2, as the code has it.  In the interpolation regime (no sender report
    seen), for every RTP packet that passes the checks after the anchor has
    been taken, the PTS computed is [base_interpolate_pts] plus the signed
    time between [base_interpolate_ext_ts] and the extended timestamp [r] of
    the packet, [|r - base_ext| * 10^9 / clock_rate] with the sign of
    [r - base_ext], saturated at 0 and at 2^64-1.  In unsorted mode (also in
    the call that leaves the sorted mode) this is the PTS written; in sorted
    mode, for a packet whose extended timestamp is not the recorded one, it
    is first raised to [fs_last_pts] where that is set and larger.  With the
    clock rate 90000, the packets of scenario S1 get the PTS 100000000,
    140000000 and 180000000. *)
Theorem interpolation_adds_signed_delta :
  (forall ext_timestamp self b,
      passes_checks self b ->
      base_initiated self = false ->
      base_interpolate_initiated self = true ->
      0 <= base_interpolate_pts self <= G_MAXUINT64 ->
      let e := ext_timestamp (rtp_ext_ts self) (rtp_get_timestamp b) in
      let computed :=
        saturate (exact_interpolated_pts (set_rtp_ext_ts (fst e) self)) in
      let r :=
        kms_rtp_synchronizer_process_rtp_buffer_mapped ext_timestamp self b in
      (feeded_sorted (res_self r) = false -> res_pts r = computed)
      /\ (feeded_sorted (res_self r) = true ->
          snd e <> fs_last_rtp_ext_ts self ->
          res_pts r
          = if GST_CLOCK_TIME_IS_VALID (fs_last_pts self)
               && (computed <? fs_last_pts self)
            then fs_last_pts self else computed))
  /\ emitted ext (configured true) scenario_S1
     = [100000000; 140000000; 180000000].
Proof.
  split.
  - exact interpolation_emits.
  - reflexivity.
Qed.

Lemma interpolation_adds_signed_delta_witness :
  res_pts (process_rtp after_first_packet (rtp_packet 1 4600 100000001))
  = 100000000 + 1 * ((4600 - 1000) * 1000000000 / 90000).
Proof.
  refine (proj2 (proj1 interpolation_adds_signed_delta ext after_first_packet
                   (rtp_packet 1 4600 100000001) _ _ _ _) _ _).
  - vm_compute. intuition.
  - reflexivity.
  - reflexivity.
  - decide_range.
  - reflexivity.
  - vm_compute. discriminate.
Defined.

(** The formula of C2 without saturation against the code: in unsorted
    mode, with the anchor at the PTS 0 and the timestamp 1000, a packet with
    the timestamp 100 gets the PTS 0, where the base plus the signed time is
    -10000000. *)
Lemma interpolation_saturates_at_zero :
  emitted ext (configured false)
    [ProcessRtp (rtp_packet 1 1000 0); ProcessRtp (rtp_packet 1 100 7)]
  = [0; 0]
  /\ (let anchored :=
        calls ext (configured false) [ProcessRtp (rtp_packet 1 1000 0)] in
      base_initiated anchored = false
      /\ base_interpolate_pts anchored = 0
      /\ base_interpolate_ext_ts anchored = 1000
      /\ ext (rtp_ext_ts anchored) 100 = (100, 100)
      /\ exact_interpolated_pts (set_rtp_ext_ts 100 anchored) = -10000000).
Proof. vm_compute. repeat split. Qed.

(** The claim C5 against the code.  In sorted mode, all calls successful:
    the packets arrive with the PTS 2^64-2, 3 and 7, the second and third
    with the same timestamp.  The second PTS saturates at 2^64-1, which
    [fs_last_pts] reads as unset, so the third packet keeps its own PTS 7.
    The same happens after a first packet that arrives without a PTS. *)
Lemma unset_value_breaks_monotonicity :
  (let l := [ProcessRtp (rtp_packet 1 1000 (2 ^ 64 - 2));
             ProcessRtp (rtp_packet 1 4600 3);
             ProcessRtp (rtp_packet 1 4600 7)] in
   map stats_pts (sorted_rows ext (configured true) l)
   = [2 ^ 64 - 2; 2 ^ 64 - 1; 7]
   /\ emitted ext (configured true) l = [2 ^ 64 - 2; 2 ^ 64 - 1; 7]
   /\ feeded_sorted (calls ext (configured true) l) = true
   /\ ~ Sorted Z.le (map stats_pts (sorted_rows ext (configured true) l)))
  /\ (let l := [ProcessRtp (rtp_packet 1 1000 GST_CLOCK_TIME_NONE);
                ProcessRtp (rtp_packet 1 1000 5)] in
      map stats_pts (sorted_rows ext (configured true) l) = [2 ^ 64 - 1; 5]
      /\ feeded_sorted (calls ext (configured true) l) = true).
Proof.
  vm_compute. repeat split.
  intros H. inversion H as [| ? ? H1 _]; subst.
  inversion H1 as [| ? ? _ H2]; subst.
  inversion H2 as [| ? ? Hle]; subst. apply Hle. reflexivity.
Qed.

Lemma sorted_mode_pts_never_decrease_witness :
  Sorted Z.le (map stats_pts (sorted_rows ext (configured true) scenario_S1))
  /\ res_pts (process_rtp after_S1 (rtp_packet 1 11800 0)) = 220000000
  /\ fs_last_pts (res_self (process_rtp after_S1 (rtp_packet 1 11800 0)))
     = 220000000.
Proof.
  split.
  - apply (proj1 (sorted_mode_pts_never_decrease ext)).
    + intros _ _. reflexivity.
    + vm_compute. repeat constructor; discriminate.
  - assert (Ha : passes_checks after_S1 (rtp_packet 1 11800 0))
      by (vm_compute; intuition).
    assert (Hs : feeded_sorted after_S1 = true) by reflexivity.
    assert (Hv : fs_last_pts after_S1 <> GST_CLOCK_TIME_NONE)
      by (vm_compute; discriminate).
    assert (Hn : fs_last_rtp_ext_ts after_S1
                 < snd (ext (rtp_ext_ts after_S1)
                          (rtp_get_timestamp (rtp_packet 1 11800 0))))
      by reflexivity.
    destruct (proj1 (proj2 (sorted_mode_pts_never_decrease ext)) after_S1
                (rtp_packet 1 11800 0) Ha Hs Hv Hn)
      as (_ & _ & Hp & _ & Hl & _).
    split; [rewrite Hp; reflexivity | rewrite Hl, Hp; reflexivity].
Defined.

(** The claim C8 against the code: a first packet with the SSRC 0 leaves
    the stored SSRC at 0, and the next packet, with the SSRC 5, is processed
    and gets a new PTS. *)
Lemma ssrc_zero_is_not_kept :
  let first := calls ext (configured true) [ProcessRtp (rtp_packet 0 1000 100)]
  in
  res_ret (process_rtp (configured true) (rtp_packet 0 1000 100)) = true
  /\ ssrc first = 0
  /\ res_ret (process_rtp first (rtp_packet 5 4600 100)) = true
  /\ res_error (process_rtp first (rtp_packet 5 4600 100)) = None
  /\ res_pts (process_rtp first (rtp_packet 5 4600 100)) = 40000100
  /\ ssrc (res_self (process_rtp first (rtp_packet 5 4600 100))) = 5.
Proof. vm_compute. repeat split. Qed.

Lemma ssrc_learned_once_witness :
  ssrc (calls ext after_S1 [ProcessRtp (rtp_packet 7 11800 0)]) = 1
  /\ process_rtp after_S1 (rtp_packet 7 11800 0)
     = mkRes after_S1 0 false
         (Some (KMS_RTP_SYNC_INVALID_DATA, MsgInvalidSSRC)) None.
Proof.
  split.
  - apply (proj1 (proj2 (ssrc_learned_once ext)) after_S1).
    vm_compute. discriminate.
  - apply (proj2 (proj2 (ssrc_learned_once ext)) after_S1
             (rtp_packet 7 11800 0)); vm_compute; discriminate.
Defined.

Lemma rejection_changes_nothing_witness :
  res_ret (process_rtp after_S1 (mkRTP 5 0 1 97 0 11800)) = false
  /\ res_pts (process_rtp after_S1 (mkRTP 5 0 1 97 0 11800)) = 5
  /\ same_tracking (res_self (process_rtp after_S1 (mkRTP 5 0 1 97 0 11800)))
       after_S1.
Proof.
  assert (Hr : rejected after_S1 (mkRTP 5 0 1 97 0 11800)).
  { right. left. vm_compute. discriminate. }
  destruct (proj1 (rejection_changes_nothing ext after_S1
                     (mkRTP 5 0 1 97 0 11800)) Hr)
    as (H1 & _ & H2 & _ & H3 & _).
  split; [exact H1 | split; [exact H2 | exact H3]].
Defined.

Lemma regression_leaves_sorted_mode_witness :
  res_ret (process_rtp after_S1 (rtp_packet 1 4600 0)) = false
  /\ res_error (process_rtp after_S1 (rtp_packet 1 4600 0))
     = Some (KMS_RTP_SYNC_INVALID_DATA, MsgUnsorted)
  /\ feeded_sorted (res_self (process_rtp after_S1 (rtp_packet 1 4600 0)))
     = false
  /\ res_pts (process_rtp after_S1 (rtp_packet 1 4600 0)) = 140000000
  /\ feeded_sorted
       (calls ext (res_self (process_rtp after_S1 (rtp_packet 1 4600 0)))
          scenario_S1) = false.
Proof.
  assert (Ha : passes_checks after_S1 (rtp_packet 1 4600 0))
    by (vm_compute; intuition).
  assert (Hs : feeded_sorted after_S1 = true) by reflexivity.
  assert (Hv : fs_last_rtp_ext_ts after_S1 <> GST_CLOCK_TIME_NONE)
    by (vm_compute; discriminate).
  assert (Hlt : snd (ext (rtp_ext_ts after_S1)
                       (rtp_get_timestamp (rtp_packet 1 4600 0)))
                < fs_last_rtp_ext_ts after_S1) by reflexivity.
  assert (Hb : base_initiated after_S1 = false) by reflexivity.
  assert (Hi : base_interpolate_initiated after_S1 = true) by reflexivity.
  assert (Hp : 0 <= base_interpolate_pts after_S1 <= G_MAXUINT64)
    by decide_range.
  pose proof (proj1 (regression_leaves_sorted_mode ext) after_S1
                (rtp_packet 1 4600 0) Ha Hs Hv Hlt) as H.
  cbv zeta in H.
  destruct H as (H1 & H2 & H3 & _ & _ & _ & _ & _ & _ & _ & _ & _ & _
                 & H4 & _).
  split; [exact H1 | split; [exact H2 | split; [exact H3 |]]].
  split; [rewrite (H4 Hb Hi Hp); reflexivity |].
  apply (proj2 (regression_leaves_sorted_mode ext)). exact H3.
Defined.

Lemma duplicate_timestamp_repeats_pts_witness :
  res_pts (process_rtp after_S1 (rtp_packet 1 8200 0)) = 180000000
  /\ res_ret (process_rtp after_S1 (rtp_packet 1 8200 0)) = true.
Proof.
  assert (Ha : passes_checks after_S1 (rtp_packet 1 8200 0))
    by (vm_compute; intuition).
  assert (Hs : feeded_sorted after_S1 = true) by reflexivity.
  assert (He : snd (ext (rtp_ext_ts after_S1)
                      (rtp_get_timestamp (rtp_packet 1 8200 0)))
               = fs_last_rtp_ext_ts after_S1) by reflexivity.
  assert (Hv : fs_last_pts after_S1 <> GST_CLOCK_TIME_NONE)
    by (vm_compute; discriminate).
  destruct (proj1 (duplicate_timestamp_repeats_pts ext) after_S1
              (rtp_packet 1 8200 0) Ha Hs He Hv) as (H1 & H2 & _).
  split; [rewrite H1; reflexivity | exact H2].
Defined.

Lemma set_pt_clock_rate_only_once_witness :
  kms_rtp_synchronizer_set_pt_clock_rate (kms_rtp_synchronizer_new true) 96 0
  = (kms_rtp_synchronizer_new true, false,
     Some (KMS_RTP_SYNC_INVALID_DATA, MsgClockRateNotAllowed))
  /\ exists msg,
       kms_rtp_synchronizer_set_pt_clock_rate after_S1 96 90000
       = (after_S1, false, Some (KMS_RTP_SYNC_INVALID_DATA, msg)).
Proof.
  split.
  - apply (proj1 (set_pt_clock_rate_only_once ext)). lia.
  - assert (Hc : kms_rtp_synchronizer_set_pt_clock_rate
                   (kms_rtp_synchronizer_new true) 96 90000
                 = (configured true, true, None)) by reflexivity.
    destruct (proj1 (proj2 (set_pt_clock_rate_only_once ext))
                (kms_rtp_synchronizer_new true) 96 90000 (configured true) Hc)
      as (_ & _ & H).
    exact (H scenario_S1 96 90000).
Defined.

Lemma sender_report_keeps_base_witness :
  base_ntp_time (calls ext after_S6 scenario_S6) = 1000000000
  /\ base_sync_time (calls ext after_S6 scenario_S6) = 10
  /\ last_rtcp_ntp_time
       (kms_rtp_synchronizer_process_rtcp_packet ext after_S1
          (mkRTCP GST_RTCP_TYPE_SR 1 (2 ^ 33) 8200) 500000000)
     = 2000000000.
Proof.
  assert (Hb : base_initiated after_S6 = true) by reflexivity.
  destruct (proj2 (sender_report_keeps_base ext) after_S6 scenario_S6 Hb)
    as (_ & H1 & H2).
  split; [rewrite H1; reflexivity | split; [rewrite H2; reflexivity |]].
  assert (Ht : rtcp_get_type (mkRTCP GST_RTCP_TYPE_SR 1 (2 ^ 33) 8200)
               = GST_RTCP_TYPE_SR) by reflexivity.
  assert (Hn : 0 <= sr_ntptime (mkRTCP GST_RTCP_TYPE_SR 1 (2 ^ 33) 8200)
               <= G_MAXUINT64) by decide_range.
  destruct (proj1 (sender_report_keeps_base ext) after_S1
              (mkRTCP GST_RTCP_TYPE_SR 1 (2 ^ 33) 8200) 500000000 Ht Hn)
    as (_ & _ & _ & H & _).
  rewrite H. reflexivity.
Defined.

(** ** The SRTP connection *)

Lemma string_compare_refl (a : string) : String.compare a a = Eq.
Proof.
  pose proof (String.compare_antisym a a) as H.
  destruct (String.compare a a); [reflexivity | discriminate | discriminate].
Qed.

Lemma g_strcmp0_eq (a b : option string) : g_strcmp0 a b = 0 <-> a = b.
Proof.
  destruct a as [a |], b as [b |]; cbn; try (split; [lia | discriminate]);
    [| tauto].
  split.
  - intros E. f_equal. apply String.compare_eq_iff.
    destruct (String.compare a b); [reflexivity | lia | lia].
  - intros E. injection E as ->. rewrite string_compare_refl. reflexivity.
Qed.

Section SrtpProperties.

Variable g_base64_decode : option string -> string.

Local Abbreviation caps_of := (create_key_caps g_base64_decode).
Local Abbreviation request :=
  (kms_srtp_connection_request_remote_key_cb g_base64_decode).
Local Abbreviation set_key := (kms_srtp_connection_set_key g_base64_decode).

Lemma small_index (n : Z) : 0 <= n < 3 -> n = 0 \/ n = 1 \/ n = 2.
Proof. lia. Qed.

Lemma get_str_auth_cases (auth : Z) :
  0 <= auth ->
  get_str_auth auth
  = if auth =? 1 then Some "hmac-sha1-32"%string
    else if auth =? 2 then Some "hmac-sha1-80"%string else None.
Proof.
  intros H. unfold get_str_auth. change (G_N_ELEMENTS auths) with 3.
  destruct (Z.ltb_spec auth 3) as [H3 | H3].
  - destruct (small_index auth) as [-> | [-> | ->]]; [lia | | |]; reflexivity.
  - destruct (Z.eqb_spec auth 1); [lia |].
    destruct (Z.eqb_spec auth 2); [lia | reflexivity].
Qed.

Lemma get_str_cipher_cases (cipher : Z) :
  0 <= cipher ->
  get_str_cipher cipher
  = if cipher =? 1 then Some "aes-128-icm"%string
    else if cipher =? 2 then Some "aes-256-icm"%string else None.
Proof.
  intros H. unfold get_str_cipher. change (G_N_ELEMENTS ciphers) with 3.
  destruct (Z.ltb_spec cipher 3) as [H3 | H3].
  - destruct (small_index cipher) as [-> | [-> | ->]]; [lia | | |];
      reflexivity.
  - destruct (Z.eqb_spec cipher 1); [lia |].
    destruct (Z.eqb_spec cipher 2); [lia | reflexivity].
Qed.

(** [create_key_caps] gives no caps exactly when the authentication or the
    cipher is not 1 or 2.  Otherwise the caps are of the type
    application/x-srtp, hold the decoded key, name the cipher and the
    authentication of the tables, and use the same cipher and the same
    authentication for SRTP and SRTCP.  The SSRC plays no part. *)
Theorem key_caps_need_known_auth_and_cipher :
  forall ssrc_ key auth cipher,
    0 <= auth -> 0 <= cipher ->
    (create_key_caps g_base64_decode ssrc_ key auth cipher = None <->
     ~ (1 <= auth <= 2 /\ 1 <= cipher <= 2))
    /\ (forall caps,
          create_key_caps g_base64_decode ssrc_ key auth cipher = Some caps ->
          caps_media_type caps = "application/x-srtp"%string
          /\ caps_srtp_key caps = g_base64_decode key
          /\ caps_srtp_cipher caps
             = (if cipher =? 1 then "aes-128-icm"%string
                else "aes-256-icm"%string)
          /\ caps_srtp_auth caps
             = (if auth =? 1 then "hmac-sha1-32"%string
                else "hmac-sha1-80"%string)
          /\ caps_srtcp_cipher caps = caps_srtp_cipher caps
          /\ caps_srtcp_auth caps = caps_srtp_auth caps)
    /\ (forall other,
          create_key_caps g_base64_decode other key auth cipher
          = create_key_caps g_base64_decode ssrc_ key auth cipher).
Proof.
  intros ssrc_ key auth cipher Ha Hc.
  split; [| split; [| reflexivity]].
  - unfold create_key_caps.
    rewrite (get_str_auth_cases auth Ha), (get_str_cipher_cases cipher Hc).
    destruct (Z.eqb_spec cipher 1); [| destruct (Z.eqb_spec cipher 2)];
      (destruct (Z.eqb_spec auth 1); [| destruct (Z.eqb_spec auth 2)]);
      split; intros H; try discriminate; try reflexivity; try lia;
      exfalso; apply H; lia.
  - intros caps. unfold create_key_caps.
    rewrite (get_str_auth_cases auth Ha), (get_str_cipher_cases cipher Hc).
    destruct (Z.eqb_spec cipher 1); [| destruct (Z.eqb_spec cipher 2)];
      (destruct (Z.eqb_spec auth 1); [| destruct (Z.eqb_spec auth 2)]);
      intros H; try discriminate; injection H as <-;
      cbn [caps_media_type caps_srtp_key caps_srtp_cipher caps_srtp_auth
           caps_srtcp_cipher caps_srtcp_auth];
      repeat split.
Qed.

Lemma set_key_remote_holds (conn : KmsSrtpConnection) (key : option string)
    (auth cipher : Z) :
  holds_remote_key (set_key conn key auth cipher false) key auth cipher.
Proof.
  unfold kms_srtp_connection_set_key, holds_remote_key.
  destruct (r_key_set conn) eqn:Hs; cbn [negb orb]; [| cbn; auto].
  destruct (Z.eqb_spec (g_strcmp0 key (r_key conn)) 0) as [Hk | Hk];
    cbn [negb orb]; [| cbn; auto].
  destruct (Z.eqb_spec (r_auth conn) auth); cbn [negb orb]; [| cbn; auto].
  destruct (Z.eqb_spec (r_cipher conn) cipher); cbn [negb orb]; [| cbn; auto].
  apply g_strcmp0_eq in Hk. auto.
Qed.

Lemma set_key_remote_unchanged (conn : KmsSrtpConnection)
    (key : option string) (auth cipher : Z) :
  holds_remote_key conn key auth cipher ->
  set_key conn key auth cipher false = conn.
Proof.
  intros (H1 & H2 & H3 & H4). unfold kms_srtp_connection_set_key.
  rewrite H1, H3, H4, !Z.eqb_refl.
  replace (g_strcmp0 key (r_key conn) =? 0) with true
    by (symmetry; apply Z.eqb_eq, g_strcmp0_eq; congruence).
  reflexivity.
Qed.

Lemma request_of_holder (conn : KmsSrtpConnection) (key : option string)
    (auth cipher ssrc_ : Z) :
  holds_remote_key conn key auth cipher ->
  snd (request conn ssrc_) = caps_of ssrc_ key auth cipher
  /\ r_updated (fst (request conn ssrc_)) = false
  /\ holds_remote_key (fst (request conn ssrc_)) key auth cipher
  /\ srtpenc (fst (request conn ssrc_)) = srtpenc conn.
Proof.
  intros (H1 & H2 & H3 & H4).
  unfold kms_srtp_connection_request_remote_key_cb, holds_remote_key.
  rewrite H1. cbn [negb].
  destruct (r_updated conn) eqn:Hu; cbn [negb fst snd];
    cbn [r_key r_auth r_cipher r_updated r_key_set srtpenc set_r_updated];
    rewrite ?H2, ?H3, ?H4; repeat split; assumption.
Qed.

(** The key of the remote side comes back to the decoder: after
    [kms_srtp_connection_set_key] for the remote side, the decoder's request
    gets the caps of that key, authentication and cipher, whatever the
    connection held before; the request clears [r_updated] and keeps the
    key, so every later request gets the same caps. *)
Theorem remote_key_round_trip :
  forall conn key auth cipher ssrc_,
    let conn1 :=
      kms_srtp_connection_set_key g_base64_decode conn key auth cipher
        false in
    let answer :=
      kms_srtp_connection_request_remote_key_cb g_base64_decode conn1 ssrc_ in
    snd answer = create_key_caps g_base64_decode ssrc_ key auth cipher
    /\ r_updated (fst answer) = false
    /\ forall other,
         snd (kms_srtp_connection_request_remote_key_cb g_base64_decode
                (fst answer) other)
         = create_key_caps g_base64_decode other key auth cipher.
Proof.
  intros conn key auth cipher ssrc_ conn1 answer. subst answer conn1.
  destruct (request_of_holder _ key auth cipher ssrc_
              (set_key_remote_holds conn key auth cipher))
    as (H1 & H2 & H3 & _).
  split; [exact H1 | split; [exact H2 |]].
  intros other. apply (request_of_holder _ key auth cipher other H3).
Qed.

(** [kms_srtp_connection_set_key] for the remote side leaves the connection
    as it is exactly when the connection already holds that key,
    authentication and cipher; otherwise it stores them and raises
    [r_updated].  So a key that is set again after the decoder has asked for
    it does not raise [r_updated] again. *)
Theorem remote_key_set_again :
  forall conn key auth cipher,
    let conn1 :=
      kms_srtp_connection_set_key g_base64_decode conn key auth cipher
        false in
    (conn1 = conn <-> holds_remote_key conn key auth cipher)
    /\ (~ holds_remote_key conn key auth cipher -> r_updated conn1 = true)
    /\ (forall ssrc_,
          let asked :=
            fst (kms_srtp_connection_request_remote_key_cb g_base64_decode
                   conn1 ssrc_) in
          kms_srtp_connection_set_key g_base64_decode asked key auth cipher
            false = asked
          /\ r_updated asked = false).
Proof.
  intros conn key auth cipher conn1. subst conn1.
  pose proof (set_key_remote_holds conn key auth cipher) as Hh.
  split; [| split].
  - split; [intros E; rewrite E in Hh; exact Hh
           | apply set_key_remote_unchanged].
  - intros Hn. revert Hh. unfold kms_srtp_connection_set_key.
    destruct (negb (r_key_set conn)
              || negb (g_strcmp0 key (r_key conn) =? 0)
              || negb (r_auth conn =? auth)
              || negb (r_cipher conn =? cipher)); [reflexivity |].
    intros Hh. contradiction.
  - intros ssrc_ asked. subst asked.
    destruct (request_of_holder _ key auth cipher ssrc_ Hh)
      as (_ & H2 & H3 & _).
    split; [apply set_key_remote_unchanged; exact H3 | exact H2].
Qed.

Section SrtpRuns.

Variable GValue : Type.
Variable g_value_get_boolean : GValue -> bool.
Variable g_value_get_uint : GValue -> Z.

Local Abbreviation set_property :=
  (kms_srtp_connection_set_property g_value_get_boolean g_value_get_uint).
Local Abbreviation do_call :=
  (key_call g_base64_decode g_value_get_boolean g_value_get_uint).
Local Abbreviation do_calls :=
  (key_calls g_base64_decode g_value_get_boolean g_value_get_uint).

Lemma do_calls_cons (conn : KmsSrtpConnection) (c : KeyCall GValue)
    (l : list (KeyCall GValue)) :
  do_calls conn (c :: l) = do_calls (do_call conn c) l.
Proof. reflexivity. Qed.

Lemma key_call_remote (conn : KmsSrtpConnection) (c : KeyCall GValue) :
  match c with
  | SetKey key auth cipher false =>
      holds_remote_key (do_call conn c) key auth cipher
  | _ => same_remote_key (do_call conn c) conn
  end.
Proof.
  destruct c as [key auth cipher [|] | ssrc_ | prop_id value]; cbn [key_call].
  - unfold same_remote_key. cbn. auto.
  - apply set_key_remote_holds.
  - unfold same_remote_key, kms_srtp_connection_request_remote_key_cb.
    destruct (r_key_set conn) eqn:Hs; destruct (r_updated conn);
      cbn; rewrite ?Hs; repeat split; reflexivity.
  - unfold same_remote_key, kms_srtp_connection_set_property.
    repeat match goal with
      | |- context [if ?c then _ else _] => destruct c
      end; cbn; auto.
Qed.

Lemma key_call_encoder (conn : KmsSrtpConnection) (c : KeyCall GValue) :
  srtpenc (do_call conn c)
  = match c with
    | SetKey key auth cipher true =>
        mkEnc (Some (g_base64_decode key)) cipher cipher auth auth
    | _ => srtpenc conn
    end.
Proof.
  destruct c as [key auth cipher [|] | ssrc_ | prop_id value]; cbn [key_call].
  - reflexivity.
  - unfold kms_srtp_connection_set_key.
    destruct (negb (r_key_set conn) || _ || _ || _); reflexivity.
  - unfold kms_srtp_connection_request_remote_key_cb.
    destruct (r_key_set conn); destruct (r_updated conn); reflexivity.
  - unfold kms_srtp_connection_set_property.
    repeat match goal with
      | |- context [if ?c then _ else _] => destruct c
      end; reflexivity.
Qed.

(** After any run of calls the connection holds, for the remote side, the
    key, authentication and cipher of the last
    [kms_srtp_connection_set_key] made for the remote side, and the decoder
    gets their caps.  A run without such a call leaves the key of the remote
    side as it was; on a connection without one the decoder gets no caps,
    whatever is set for the local side. *)
Theorem decoder_gets_last_remote_key :
  forall l conn,
    match last_key false l with
    | Some (key, auth, cipher) =>
        holds_remote_key
          (key_calls g_base64_decode g_value_get_boolean g_value_get_uint
             conn l) key auth cipher
        /\ forall ssrc_,
             snd (kms_srtp_connection_request_remote_key_cb g_base64_decode
                    (key_calls g_base64_decode g_value_get_boolean
                       g_value_get_uint conn l) ssrc_)
             = create_key_caps g_base64_decode ssrc_ key auth cipher
    | None =>
        same_remote_key
          (key_calls g_base64_decode g_value_get_boolean g_value_get_uint
             conn l) conn
        /\ (r_key_set conn = false ->
            forall ssrc_,
              snd (kms_srtp_connection_request_remote_key_cb g_base64_decode
                     (key_calls g_base64_decode g_value_get_boolean
                        g_value_get_uint conn l) ssrc_) = None)
    end.
Proof.
  assert (Hmain : forall l conn,
             match last_key false l with
             | Some (key, auth, cipher) =>
                 holds_remote_key (do_calls conn l) key auth cipher
             | None => same_remote_key (do_calls conn l) conn
             end).
  { induction l as [| c l IH]; intros conn.
    - unfold same_remote_key. cbn. auto.
    - rewrite do_calls_cons. cbn [last_key].
      specialize (IH (do_call conn c)).
      destruct (last_key false l) as [[[k a] ci] |]; [exact IH |].
      pose proof (key_call_remote conn c) as Hc.
      unfold same_remote_key, holds_remote_key in *.
      destruct c as [key auth cipher [|] | ssrc_ | prop_id value];
        cbn [Bool.eqb]; intuition congruence. }
  intros l conn. specialize (Hmain l conn).
  destruct (last_key false l) as [[[k a] ci] |].
  - split; [exact Hmain |].
    intros ssrc_. apply (request_of_holder _ k a ci ssrc_ Hmain).
  - split; [exact Hmain |].
    intros Hn ssrc_. destruct Hmain as (H1 & _).
    unfold kms_srtp_connection_request_remote_key_cb.
    rewrite H1, Hn. reflexivity.
Qed.

(** After any run of calls the encoder has the settings of the last
    [kms_srtp_connection_set_key] made for the local side: the decoded key,
    and the same cipher and the same authentication for RTP and RTCP.  A run
    without such a call leaves the encoder as it was. *)
Theorem encoder_gets_last_local_key :
  forall l conn,
    srtpenc
      (key_calls g_base64_decode g_value_get_boolean g_value_get_uint conn l)
    = match last_key true l with
      | Some (key, auth, cipher) =>
          mkEnc (Some (g_base64_decode key)) cipher cipher auth auth
      | None => srtpenc conn
      end.
Proof.
  induction l as [| c l IH]; intros conn; [reflexivity |].
  rewrite do_calls_cons, IH. cbn [last_key].
  destruct (last_key true l) as [[[k a] ci] |]; [reflexivity |].
  rewrite key_call_encoder.
  destruct c as [key auth cipher [|] | ssrc_ | prop_id value]; reflexivity.
Qed.

Section GValueRoundTrip.

Variable g_value_set_boolean : GValue -> bool -> GValue.
Variable g_value_set_uint : GValue -> Z -> GValue.

Local Abbreviation get_property :=
  (kms_srtp_connection_get_property g_value_set_boolean g_value_set_uint).

(** What is read from a [GValue] is what was written to it. *)
Hypothesis boolean_read_back :
  forall value b, g_value_get_boolean (g_value_set_boolean value b) = b.
Hypothesis uint_read_back :
  forall value n, g_value_get_uint (g_value_set_uint value n) = n.

(** The properties added, connected, min-port and max-port read back what
    was set.  The property is-client can be read but not set: setting it,
    or any other property id, leaves the object as it is. *)
Theorem properties_read_back :
  (forall self value out,
      g_value_get_boolean
        (get_property (set_property self PROP_ADDED value) PROP_ADDED out)
      = g_value_get_boolean value
      /\ g_value_get_boolean
           (get_property (set_property self PROP_CONNECTED value)
              PROP_CONNECTED out)
         = g_value_get_boolean value
      /\ g_value_get_uint
           (get_property (set_property self PROP_MIN_PORT value)
              PROP_MIN_PORT out)
         = g_value_get_uint value
      /\ g_value_get_uint
           (get_property (set_property self PROP_MAX_PORT value)
              PROP_MAX_PORT out)
         = g_value_get_uint value)
  /\ (forall self prop_id value,
        prop_id <> PROP_ADDED -> prop_id <> PROP_CONNECTED ->
        prop_id <> PROP_MIN_PORT -> prop_id <> PROP_MAX_PORT ->
        kms_srtp_connection_set_property g_value_get_boolean g_value_get_uint
          self prop_id value = self)
  /\ (forall self out,
        g_value_get_boolean
          (kms_srtp_connection_get_property g_value_set_boolean
             g_value_set_uint self PROP_IS_CLIENT out)
        = is_client self).
Proof.
  split; [| split].
  - intros self value out. cbn. rewrite !boolean_read_back, !uint_read_back.
    repeat split.
  - intros self prop_id value H1 H2 H3 H4.
    unfold kms_srtp_connection_set_property.
    destruct (Z.eqb_spec prop_id PROP_ADDED); [contradiction |].
    destruct (Z.eqb_spec prop_id PROP_CONNECTED); [contradiction |].
    destruct (Z.eqb_spec prop_id PROP_MIN_PORT); [contradiction |].
    destruct (Z.eqb_spec prop_id PROP_MAX_PORT); [contradiction |].
    reflexivity.
  - intros self out. cbn. apply boolean_read_back.
Qed.

End GValueRoundTrip.

End SrtpRuns.

End SrtpProperties.

(** ** The further properties on concrete runs *)

Lemma rtcp_buffer_first_packet_only_witness :
  kms_rtp_synchronizer_process_rtcp_buffer ext after_S1 receiver_report_first
  = (after_S1, true, None).
Proof.
  destruct (rtcp_buffer_first_packet_only ext after_S1 receiver_report_first)
    as (_ & H2 & H3 & _).
  destruct (H2 eq_refl) as (Hret & Herr). specialize (H3 eq_refl).
  destruct (kms_rtp_synchronizer_process_rtcp_buffer ext after_S1
              receiver_report_first) as [[self' ret] err].
  cbn [fst snd] in *. congruence.
Defined.

Lemma base_written_by_sender_reports_only_witness :
  base_initiated
    (calls ext (configured true)
       (scenario_S1 ++ [ProcessRtcp receiver_report_first])) = false.
Proof.
  destruct (base_written_by_sender_reports_only ext
              (scenario_S1 ++ [ProcessRtcp receiver_report_first])
              (configured true) eq_refl) as ((H & _) & _).
  rewrite H. reflexivity.
Defined.

Lemma unconfigured_object_rejects_rtp_witness :
  emitted ext (kms_rtp_synchronizer_new true) scenario_S1
  = [100000000; 100000001; 100000002].
Proof.
  destruct (unconfigured_object_rejects_rtp ext true scenario_S1 eq_refl)
    as (_ & H).
  rewrite H. reflexivity.
Defined.

Lemma unsorted_mode_accepts_any_order_witness :
  res_ret (process_rtp after_S1_unsorted (rtp_packet 1 4600 0)) = true
  /\ fs_last_pts after_S1_unsorted = GST_CLOCK_TIME_NONE.
Proof.
  split.
  - apply (proj1 (unsorted_mode_accepts_any_order ext) after_S1_unsorted
             (rtp_packet 1 4600 0)); [reflexivity |].
    vm_compute. intuition.
  - destruct (proj2 (unsorted_mode_accepts_any_order ext) scenario_S1
                (configured false) eq_refl) as (H & _).
    exact H.
Defined.

Lemma sorted_mode_left_by_regression_only_witness :
  snd (ext (rtp_ext_ts after_S1) 4600) < fs_last_rtp_ext_ts after_S1.
Proof.
  destruct (proj1 (sorted_mode_left_by_regression_only ext) after_S1
              (rtp_packet 1 4600 0) eq_refl eq_refl) as (_ & _ & H & _).
  exact H.
Defined.

Lemma interpolation_anchor_taken_once_witness :
  base_interpolate_pts
    (res_self (process_rtp (configured true) (rtp_packet 1 1000 100000000)))
  = GST_BUFFER_PTS (rtp_packet 1 1000 100000000)
  /\ same_anchor
       (calls ext after_first_packet
          [ProcessRtp (rtp_packet 1 4600 100000001);
           ProcessRtp (rtp_packet 1 8200 100000002)])
       after_first_packet.
Proof.
  split.
  - assert (Ha : passes_checks (configured true)
                   (rtp_packet 1 1000 100000000))
      by (vm_compute; intuition).
    assert (Hn : feeded_sorted (configured true) = true ->
                 snd (ext (rtp_ext_ts (configured true))
                        (rtp_get_timestamp (rtp_packet 1 1000 100000000)))
                 <> fs_last_rtp_ext_ts (configured true))
      by (intros _; vm_compute; discriminate).
    destruct (proj1 (interpolation_anchor_taken_once ext) (configured true)
                (rtp_packet 1 1000 100000000) Ha eq_refl eq_refl Hn)
      as (_ & _ & H3 & _).
    exact H3.
  - apply (proj2 (interpolation_anchor_taken_once ext)).
    vm_compute. reflexivity.
Defined.

Lemma return_value_tells_the_error_witness :
  res_pts
    (kms_rtp_synchronizer_process_rtp_buffer_writable ext after_S1 7 None)
  = 7.
Proof.
  destruct (return_value_tells_the_error ext after_S1 7 None)
    as (_ & _ & H).
  destruct (H eq_refl) as (_ & Hp & _). exact Hp.
Defined.

Lemma statistics_row_of_a_call_witness :
  res_stats (process_rtp after_S1 (mkRTP 5 0 1 97 0 11800)) = None
  /\ res_stats (process_rtp after_S1 (rtp_packet 1 11800 5))
     = Some (mkStats 1 90000 5 220000000 0 11800 GST_CLOCK_TIME_NONE
               GST_CLOCK_TIME_NONE).
Proof.
  split.
  - apply (proj1 (statistics_row_of_a_call ext after_S1
                    (mkRTP 5 0 1 97 0 11800))).
    right. left. vm_compute. discriminate.
  - pose proof (proj2 (statistics_row_of_a_call ext after_S1
                         (rtp_packet 1 11800 5))) as H.
    destruct (res_stats (process_rtp after_S1 (rtp_packet 1 11800 5)))
      as [row |] eqn:E; [| vm_compute in E; discriminate E].
    clear H. vm_compute in E. rewrite <- E. reflexivity.
Defined.

Lemma arrival_pts_is_overwritten_witness :
  res_pts (process_rtp after_first_packet (rtp_packet 1 4600 3))
  = res_pts (process_rtp after_first_packet (rtp_packet 1 4600 9)).
Proof.
  assert (Ha : passes_checks after_first_packet (rtp_packet 1 4600 0))
    by (vm_compute; intuition).
  assert (Hi : base_initiated after_first_packet = true
               \/ base_interpolate_initiated after_first_packet = true)
    by (right; reflexivity).
  assert (Hd : feeded_sorted after_first_packet = true ->
               snd (ext (rtp_ext_ts after_first_packet)
                      (rtp_get_timestamp (rtp_packet 1 4600 0)))
               = fs_last_rtp_ext_ts after_first_packet ->
               fs_last_pts after_first_packet <> GST_CLOCK_TIME_NONE)
    by (intros _ _; vm_compute; discriminate).
  exact (proj1 (arrival_pts_is_overwritten ext after_first_packet
                  (rtp_packet 1 4600 0) 3 9 Ha Hi Hd)).
Defined.

Lemma first_sender_report_then_packet_witness :
  res_pts
    (process_rtp
       (kms_rtp_synchronizer_process_rtcp_packet ext after_S1_unsorted
          (mkRTCP GST_RTCP_TYPE_SR 1 (2 ^ 32) 8200) 500000000)
       (rtp_packet 1 11800 0))
  = 540000000.
Proof.
  rewrite (first_sender_report_then_packet ext after_S1_unsorted
             (mkRTCP GST_RTCP_TYPE_SR 1 (2 ^ 32) 8200) 500000000
             (rtp_packet 1 11800 0)).
  - reflexivity.
  - reflexivity.
  - reflexivity.
  - decide_range.
  - vm_compute. intuition.
  - reflexivity.
Defined.

Lemma rtp_diff_keeps_order_witness :
  kms_rtp_synchronizer_rtp_diff (set_rtp_ext_ts 100 after_S1) 100000000 90000
    1000
  <= kms_rtp_synchronizer_rtp_diff (set_rtp_ext_ts 4600 after_S1) 100000000
       90000 1000.
Proof.
  apply rtp_diff_keeps_order; [decide_range | reflexivity | discriminate].
Defined.

Lemma key_caps_need_known_auth_and_cipher_witness :
  create_key_caps example_decode 7 (Some "a2V5"%string) 3 1 = None.
Proof.
  apply (proj1 (key_caps_need_known_auth_and_cipher example_decode 7
                  (Some "a2V5"%string) 3 1 ltac:(lia) ltac:(lia))).
  lia.
Defined.

Lemma remote_key_set_again_witness :
  r_updated
    (kms_srtp_connection_set_key example_decode a_connection
       (Some "a2V5"%string) 2 1 false) = true.
Proof.
  apply (proj1 (proj2 (remote_key_set_again example_decode a_connection
                         (Some "a2V5"%string) 2 1))).
  intros (H & _). discriminate H.
Defined.

Lemma decoder_gets_last_remote_key_witness :
  snd (kms_srtp_connection_request_remote_key_cb example_decode
         (key_calls example_decode example_get_boolean example_get_uint
            a_connection
            [SetKey (Some "a2V5"%string) 2 1 true; RequestKey 7]) 7)
  = None.
Proof.
  exact (proj2 (decoder_gets_last_remote_key example_decode ExampleValue
                  example_get_boolean example_get_uint
                  [SetKey (Some "a2V5"%string) 2 1 true; RequestKey 7]
                  a_connection) eq_refl 7).
Defined.

Lemma properties_read_back_witness :
  kms_srtp_connection_set_property example_get_boolean example_get_uint
    a_connection PROP_IS_CLIENT (BooleanValue true) = a_connection.
Proof.
  apply (proj1 (proj2 (properties_read_back ExampleValue example_get_boolean
                         example_get_uint (fun _ b => BooleanValue b)
                         (fun _ n => UintValue n)
                         (fun _ _ => eq_refl) (fun _ _ => eq_refl))));
    discriminate.
Defined.
